(** * Outline parser, slide projector and title-keyed correlation

    A shallow embedding of the course-generation scripts
    ([a05_CREATE_POWERPOINT.py], [a06_Image_Generation.py],
    [a06-Student_Notes_Student_Handbook.py], [a07_Slide_Snapshot_Generator.py])
    and the properties their specification states about them.

    Python [str] values are modelled as [string]; a character is a code point
    below 256.  A [dict] is an association list in insertion order with unique
    keys.  A raised [KeyError] or [IndexError] is the [None] of an [option]. *)

From Stdlib Require Import String Ascii List Bool Arith ZArith Lia.
Import ListNotations.
Open Scope string_scope.
Open Scope list_scope.
Open Scope nat_scope.

(** ** Python string primitives *)

Module PyStr.

Definition nl : string := String "010" "".

Definition ord (c : ascii) : nat := nat_of_ascii c.

(** [str.isspace] on one character. *)
Definition isspace (c : ascii) : bool :=
  let n := ord c in
  ((9 <=? n) && (n <=? 13)) || ((28 <=? n) && (n <=? 32))
  || (n =? 133) || (n =? 160).

(** [str.isdigit] on one character: decimal digits and the superscripts
    two, three and one. *)
Definition isdigit_char (c : ascii) : bool :=
  let n := ord c in
  ((48 <=? n) && (n <=? 57)) || (n =? 178) || (n =? 179) || (n =? 185).

(** The class [\d] of [re] on [str] patterns. *)
Definition isdecimal_char (c : ascii) : bool :=
  let n := ord c in (48 <=? n) && (n <=? 57).

(** [str.isalnum] on one character. *)
Definition isalnum_char (c : ascii) : bool :=
  let n := ord c in
  ((48 <=? n) && (n <=? 57)) || ((65 <=? n) && (n <=? 90))
  || ((97 <=? n) && (n <=? 122))
  || (n =? 170) || (n =? 178) || (n =? 179) || (n =? 181)
  || (n =? 185) || (n =? 186) || ((188 <=? n) && (n <=? 190))
  || ((192 <=? n) && (n <=? 214)) || ((216 <=? n) && (n <=? 246))
  || ((248 <=? n) && (n <=? 255)).

(** [str.lower] on one character. *)
Definition lower_char (c : ascii) : ascii :=
  let n := ord c in
  if ((65 <=? n) && (n <=? 90))
     || ((192 <=? n) && (n <=? 222) && negb (n =? 215))
  then ascii_of_nat (n + 32) else c.

Fixpoint map_string (f : ascii -> ascii) (s : string) : string :=
  match s with
  | EmptyString => EmptyString
  | String c r => String (f c) (map_string f r)
  end.

Definition lower (s : string) : string := map_string lower_char s.

Fixpoint forallb_string (p : ascii -> bool) (s : string) : bool :=
  match s with
  | EmptyString => true
  | String c r => p c && forallb_string p r
  end.

Definition is_empty (s : string) : bool :=
  match s with EmptyString => true | _ => false end.

(** [s.isdigit()]: at least one character and all of them digits. *)
Definition isdigit (s : string) : bool :=
  negb (is_empty s) && forallb_string isdigit_char s.

Fixpoint lstrip_by (p : ascii -> bool) (s : string) : string :=
  match s with
  | EmptyString => EmptyString
  | String c r => if p c then lstrip_by p r else s
  end.

Fixpoint rstrip_by (p : ascii -> bool) (s : string) : string :=
  match s with
  | EmptyString => EmptyString
  | String c r =>
      let r' := rstrip_by p r in
      if p c && is_empty r' then EmptyString else String c r'
  end.

(** [s.strip()] *)
Definition strip (s : string) : string := rstrip_by isspace (lstrip_by isspace s).

Definition is_dot (c : ascii) : bool := Ascii.eqb c ".".

(** [s.rstrip('.')] *)
Definition rstrip_dot (s : string) : string := rstrip_by is_dot s.

(** [s.count('.')] *)
Fixpoint count_dots (s : string) : nat :=
  match s with
  | EmptyString => 0
  | String c r => (if is_dot c then 1 else 0) + count_dots r
  end.

(** [s.split(sep, 1)] for a one-character separator: [None] stands for the
    one-element list [[s]], [Some (a, b)] for [[a, b]]. *)
Fixpoint split_once (sep : ascii) (s : string) : option (string * string) :=
  match s with
  | EmptyString => None
  | String c r =>
      if Ascii.eqb c sep then Some (EmptyString, r)
      else match split_once sep r with
           | Some (a, b) => Some (String c a, b)
           | None => None
           end
  end.

(** [s.split(sep)[0]] *)
Definition split_head (sep : ascii) (s : string) : string :=
  match split_once sep s with
  | Some (a, _) => a
  | None => s
  end.

(** [s.split()]: the maximal runs of characters that are not whitespace. *)
Fixpoint split_ws_aux (s : string) : option string * list string :=
  match s with
  | EmptyString => (None, [])
  | String c r =>
      let '(cur, done) := split_ws_aux r in
      if isspace c then
        match cur with
        | Some w => (None, w :: done)
        | None => (None, done)
        end
      else
        match cur with
        | Some w => (Some (String c w), done)
        | None => (Some (String c EmptyString), done)
        end
  end.

Definition split_ws (s : string) : list string :=
  match split_ws_aux s with
  | (Some w, done) => w :: done
  | (None, done) => done
  end.

(** [p] is an initial segment of [s]. *)
Fixpoint prefixb (p s : string) : bool :=
  match p with
  | EmptyString => true
  | String a p' =>
      match s with
      | EmptyString => false
      | String b s' => Ascii.eqb a b && prefixb p' s'
      end
  end.

(** [s.startswith(p)] *)
Definition startswith (s p : string) : bool := prefixb p s.

(** [s.find(p)] from the start of [s]: the least offset at which [p] occurs. *)
Fixpoint find (p s : string) : option nat :=
  if prefixb p s then Some 0
  else match s with
       | EmptyString => None
       | String _ r => option_map S (find p r)
       end.

(** [p in s] *)
Definition contains (p s : string) : bool :=
  match find p s with Some _ => true | None => false end.

Fixpoint drop (n : nat) (s : string) : string :=
  match n, s with
  | 0, _ => s
  | S n', String _ r => drop n' r
  | S _, EmptyString => EmptyString
  end.

Fixpoint take (n : nat) (s : string) : string :=
  match n, s with
  | 0, _ => EmptyString
  | S n', String c r => String c (take n' r)
  | S _, EmptyString => EmptyString
  end.

(** [s.replace(old, "")] for a non-empty [old]: every occurrence, scanning
    from the left, is removed.  [fuel] bounds the scan by the length. *)
Fixpoint remove_all_fuel (fuel : nat) (old s : string) : string :=
  match fuel with
  | 0 => s
  | S fuel' =>
      match s with
      | EmptyString => EmptyString
      | String c r =>
          if prefixb old s
          then remove_all_fuel fuel' old (drop (String.length old) s)
          else String c (remove_all_fuel fuel' old r)
      end
  end.

Definition remove_all (old s : string) : string :=
  if is_empty old then s else remove_all_fuel (String.length s) old s.

(** Decimal digits of a natural number, for [str(n)] and [f"{n:0wd}"]. *)
Definition digit_char (d : nat) : ascii := ascii_of_nat (48 + d).

Fixpoint digits_fuel (fuel n : nat) (acc : string) : string :=
  match fuel with
  | 0 => acc
  | S fuel' =>
      let acc' := String (digit_char (n mod 10)) acc in
      if n <? 10 then acc' else digits_fuel fuel' (n / 10) acc'
  end.

Definition str_of_nat (n : nat) : string := digits_fuel (S n) n EmptyString.

Fixpoint zeros (k : nat) : string :=
  match k with
  | 0 => EmptyString
  | S k' => String "0" (zeros k')
  end.

(** [f"{n:0{w}d}"] for a non-negative [n]. *)
Definition format_0d (w n : nat) : string :=
  let d := str_of_nat n in
  (zeros (w - String.length d) ++ d)%string.

(** [f.readlines()] on the decoded text of a file opened in text mode (line
    ends already translated to the newline character): every line keeps its
    newline. *)
Fixpoint readlines (s : string) : list string :=
  match s with
  | EmptyString => []
  | String c r =>
      if Ascii.eqb c "010" then String c EmptyString :: readlines r
      else match readlines r with
           | [] => [String c EmptyString]
           | l :: ls => String c l :: ls
           end
  end.

End PyStr.

(** ** Python dictionaries: insertion-ordered association lists *)

Module PyDict.

Section Dict.
Context {V : Type}.

Definition dict := list (string * V).

(** [d[k]], raising [KeyError] as [None]; also [d.get(k)]. *)
Fixpoint get (k : string) (d : dict) : option V :=
  match d with
  | [] => None
  | (k', v) :: r => if String.eqb k' k then Some v else get k r
  end.

(** [not d]: the dictionary is empty. *)
Definition is_nil (d : dict) : bool :=
  match d with [] => true | _ => false end.

(** [k in d] *)
Definition mem (k : string) (d : dict) : bool :=
  match get k d with Some _ => true | None => false end.

(** [d[k] = v]: an existing key keeps its place, a new key goes last. *)
Fixpoint set (k : string) (v : V) (d : dict) : dict :=
  match d with
  | [] => [(k, v)]
  | (k', v') :: r =>
      if String.eqb k' k then (k', v) :: r else (k', v') :: set k v r
  end.

End Dict.

Arguments dict V : clear implicits.

End PyDict.

(** ** The outline parser: [parse_outline] of [a05_CREATE_POWERPOINT.py] *)

Module Parser.
Import PyStr.

(** The nested dictionaries built by the parser. *)
Record Subtopic := mkSubtopic { sub_title : string; points : list string }.
Record Topic := mkTopic { topic_title : string; subtopics : PyDict.dict Subtopic }.
Record Module_ := mkModule { module_title : string; topics : PyDict.dict Topic }.
Definition Outline := PyDict.dict Module_.

(** The loop state: the tree and the three cursors, which are dictionary
    keys (or [None]), never references into the tree. *)
Record State := mkState {
  outline : Outline;
  current_module : option string;
  current_topic : option string;
  current_subtopic : option string
}.

Definition init : State := mkState [] None None None.

(** Python's [not x] for a cursor: [None] and the empty string are false. *)
Definition falsy (o : option string) : bool :=
  match o with
  | None => true
  | Some s => is_empty s
  end.

(** [re.match(r'^\d+$', s)]: decimal digits, then the end of the string or a
    final newline. *)
Definition re_match_digits (s : string) : bool :=
  let body := rstrip_by (fun c => Ascii.eqb c "010") s in
  let tail_len := String.length s - String.length body in
  negb (is_empty body) && forallb_string isdecimal_char body && (tail_len <=? 1).

(** The head of the loop body: the stripped line is split at its first
    space; the dots of the first part are counted, and then its trailing
    dots are removed.  [None] is a [continue]. *)
Definition tokenize (raw : string) : option (nat * string * string) :=
  let line := strip raw in
  if is_empty line then None
  else match split_once " " line with
       | None => None
       | Some (number_part, title_part) =>
           let num_dots := count_dots number_part in
           Some (num_dots, rstrip_dot number_part, title_part)
       end.

(** The level as the specification words it: the dots that are left once
    the trailing dots are removed. *)
Definition spec_level (number_part : string) : nat :=
  count_dots (rstrip_dot number_part).

(** [outline[current_module] = {"title": title, "topics": {}}] and the two
    lower cursors reset. *)
Definition open_module (st : State) (number_part title_part : string) : State :=
  let key := ("Module " ++ number_part)%string in
  mkState (PyDict.set key (mkModule (strip title_part) []) (outline st))
          (Some key) None None.

(** The default module created when no module is active. *)
Definition default_module (o : Outline) : Outline :=
  PyDict.set "Module 1" (mkModule "Main Module" []) o.

(** [outline[cm]["topics"][key] = t] *)
Definition put_topic (o : Outline) (cm key : string) (t : Topic) : option Outline :=
  match PyDict.get cm o with
  | None => None
  | Some m =>
      Some (PyDict.set cm (mkModule (module_title m) (PyDict.set key t (topics m))) o)
  end.

(** [outline[cm]["topics"][ct]["subtopics"][key] = s] *)
Definition put_subtopic (o : Outline) (cm ct key : string) (s : Subtopic)
  : option Outline :=
  match PyDict.get cm o with
  | None => None
  | Some m =>
      match PyDict.get ct (topics m) with
      | None => None
      | Some t =>
          put_topic o cm ct (mkTopic (topic_title t) (PyDict.set key s (subtopics t)))
      end
  end.

(** [outline[cm]["topics"][ct]["subtopics"][cs]["points"].append(point)] *)
Definition append_point (o : Outline) (cm ct cs point : string) : option Outline :=
  match PyDict.get cm o with
  | None => None
  | Some m =>
      match PyDict.get ct (topics m) with
      | None => None
      | Some t =>
          match PyDict.get cs (subtopics t) with
          | None => None
          | Some s =>
              put_subtopic o cm ct cs (mkSubtopic (sub_title s) (points s ++ [point]))
          end
      end
  end.

Definition cursor_key (o : option string) : string :=
  match o with Some k => k | None => EmptyString end.

(** [if not current_module:] the default module is created and becomes the
    active one. *)
Definition ensure_module (st : State) : Outline * string :=
  if falsy (current_module st)
  then (default_module (outline st), "Module 1")
  else (outline st, cursor_key (current_module st)).

(** [if not current_topic:] a default topic, numbered by the first segment
    of the subtopic's number, is created under [cm] and becomes the active
    one. *)
Definition ensure_topic (st : State) (o : Outline) (cm number_part : string)
  : option (Outline * string) :=
  if falsy (current_topic st)
  then
    let ct := ("Topic " ++ split_head "." number_part ++ ".1")%string in
    match put_topic o cm ct (mkTopic "Main Topic" []) with
    | None => None
    | Some o1 => Some (o1, ct)
    end
  else Some (o, cursor_key (current_topic st)).

(** The branches of the loop body on a tokenized line. *)
Definition step (st : State) (num_dots : nat) (number_part title_part : string)
  : option State :=
  if (num_dots =? 0) && isdigit number_part then
    Some (open_module st number_part title_part)
  else if num_dots =? 1 then
    let '(o, cm) := ensure_module st in
    let ct := ("Topic " ++ number_part)%string in
    match put_topic o cm ct (mkTopic (strip title_part) []) with
    | None => None
    | Some o' => Some (mkState o' (Some cm) (Some ct) None)
    end
  else if num_dots =? 2 then
    let '(o, cm) := ensure_module st in
    match ensure_topic st o cm number_part with
    | None => None
    | Some (o1, ct) =>
        let cs := ("Subtopic " ++ number_part)%string in
        match put_subtopic o1 cm ct cs (mkSubtopic (strip title_part) []) with
        | None => None
        | Some o2 => Some (mkState o2 (Some cm) (Some ct) (Some cs))
        end
    end
  else if num_dots =? 3 then
    if falsy (current_module st) || falsy (current_topic st)
       || falsy (current_subtopic st)
    then Some st
    else
      match append_point (outline st) (cursor_key (current_module st))
              (cursor_key (current_topic st)) (cursor_key (current_subtopic st))
              (strip title_part) with
      | None => None
      | Some o' =>
          Some (mkState o' (current_module st) (current_topic st) (current_subtopic st))
      end
  else if (num_dots =? 0) && re_match_digits number_part then
    Some (open_module st number_part title_part)
  else Some st.

(** One iteration of [for line in lines]. *)
Definition process_line (st : State) (raw : string) : option State :=
  match tokenize raw with
  | None => Some st
  | Some (num_dots, number_part, title_part) => step st num_dots number_part title_part
  end.

Fixpoint process_lines (st : State) (lines : list string) : option State :=
  match lines with
  | [] => Some st
  | l :: ls =>
      match process_line st l with
      | None => None
      | Some st' => process_lines st' ls
      end
  end.

Definition default_title : string := "Course Presentation".

(** The title rule, shared with the parsers of [a07_QUIZ_Per_Module.py] and
    [a08_Final_Exam.py]: the first line, whatever it holds, is the title
    unless its stripped text starts with ["1."]. *)
Definition split_title (lines : list string) : string * list string :=
  match lines with
  | l :: ls =>
      if negb (startswith (strip l) "1.") then (strip l, ls)
      else (default_title, lines)
  | [] => (default_title, lines)
  end.

(** The title rule as the specification words it: the first line that is
    not blank is the title unless it starts with ["1."] or ["1 "]. *)
Definition spec_course_title (text : string) : string :=
  match List.find (fun l => negb (is_empty (strip l))) (readlines text) with
  | Some l =>
      if startswith (strip l) "1." || startswith (strip l) "1 "
      then default_title else strip l
  | None => default_title
  end.

(** The text before the first newline. *)
Definition first_line (text : string) : string := split_head "010" text.

(** [parse_outline] on the text of the file: the tree and the course title,
    or [None] when a subscript fails. *)
Definition parse_outline (text : string) : option (Outline * string) :=
  let '(course_title, lines) := split_title (readlines text) in
  match process_lines init lines with
  | None => None
  | Some st => Some (outline st, course_title)
  end.

(** Every cursor in use is a key of the dictionary it indexes, and a topic
    cursor is only set under a module cursor. *)
Definition valid_subtopic (t : Topic) (cs : option string) : Prop :=
  match cs with
  | None => True
  | Some k => exists s, PyDict.get k (subtopics t) = Some s
  end.

Definition valid_topic (m : Module_) (ct cs : option string) : Prop :=
  match ct with
  | None => True
  | Some k => is_empty k = false
              /\ exists t, PyDict.get k (topics m) = Some t /\ valid_subtopic t cs
  end.

Definition valid_cursors (st : State) : Prop :=
  match current_module st with
  | None => current_topic st = None
  | Some k => is_empty k = false
              /\ exists m, PyDict.get k (outline st) = Some m
                           /\ valid_topic m (current_topic st) (current_subtopic st)
  end.

End Parser.

(** ** The slide projector: [prepare_slides_data] of [a05_CREATE_POWERPOINT.py] *)

Module Projector.
Import PyStr Parser.

Inductive SlideType := module_type | topic_type | subtopic_type.

(** [RGBColor(r, g, b)] *)
Definition RGBColor := (nat * nat * nat)%type.

Definition COLORS_module_title : RGBColor := (0, 32, 96).
Definition COLORS_topic_title : RGBColor := (0, 112, 192).
Definition COLORS_subtopic_title : RGBColor := (0, 176, 240).

Record Slide := mkSlide {
  title : string;
  content : list string;
  color : RGBColor;
  type : SlideType
}.

Definition topic_bullets (md : Module_) : list string :=
  map (fun kv => topic_title (snd kv)) (topics md).

Definition subtopic_bullets (td : Topic) : list string :=
  map (fun kv => sub_title (snd kv)) (subtopics td).

Definition module_slide (module : string) (md : Module_) : Slide :=
  mkSlide (module ++ ": " ++ module_title md)%string (topic_bullets md)
          COLORS_module_title module_type.

Definition topic_slide (topic_number : string) (td : Topic) : Slide :=
  mkSlide (topic_number ++ ": " ++ topic_title td)%string (subtopic_bullets td)
          COLORS_topic_title topic_type.

Definition subtopic_slide (sd : Subtopic) : Slide :=
  mkSlide (sub_title sd) (points sd) COLORS_subtopic_title subtopic_type.

(** [topic.split()[1]], an [IndexError] when the key has no second word. *)
Definition topic_number_of (topic : string) : option string :=
  nth_error (split_ws topic) 1.

(** [len(slides_data) >= max_slides] *)
Definition reached (slides_data : list Slide) (max_slides : Z) : bool :=
  (max_slides <=? Z.of_nat (length slides_data))%Z.

(** The innermost loop; both of its exits are [break]s. *)
Fixpoint subtopic_loop (max_slides : Z) (subs : PyDict.dict Subtopic)
    (slides_data : list Slide) : list Slide :=
  match subs with
  | [] => slides_data
  | (_, subtopic_data) :: rest =>
      if reached slides_data max_slides then slides_data
      else
        let slides1 := slides_data ++ [subtopic_slide subtopic_data] in
        if reached slides1 max_slides then slides1
        else subtopic_loop max_slides rest slides1
  end.

Fixpoint topic_loop (max_slides : Z) (ts : PyDict.dict Topic)
    (slides_data : list Slide) : option (list Slide) :=
  match ts with
  | [] => Some slides_data
  | (topic, topic_data) :: rest =>
      if reached slides_data max_slides then Some slides_data
      else
        match topic_number_of topic with
        | None => None
        | Some topic_number =>
            let slides1 := slides_data ++ [topic_slide topic_number topic_data] in
            if reached slides1 max_slides then Some slides1
            else topic_loop max_slides rest
                   (subtopic_loop max_slides (subtopics topic_data) slides1)
        end
  end.

Fixpoint module_loop (max_slides : Z) (ms : Outline)
    (slides_data : list Slide) : option (list Slide) :=
  match ms with
  | [] => Some slides_data
  | (module, module_data) :: rest =>
      if PyDict.is_nil (topics module_data) then module_loop max_slides rest slides_data
      else
        let slides1 := slides_data ++ [module_slide module module_data] in
        if reached slides1 max_slides then Some slides1
        else
          match topic_loop max_slides (topics module_data) slides1 with
          | None => None
          | Some slides2 =>
              if reached slides2 max_slides then Some slides2
              else module_loop max_slides rest slides2
          end
  end.

(** [prepare_slides_data(outline_data, max_slides)] *)
Definition prepare_slides_data (outline_data : Outline) (max_slides : Z)
  : option (list Slide) :=
  module_loop max_slides outline_data [].

(** The traversal the loops are meant to compute, without the cap: the
    slides of a depth-first walk in insertion order.  A topic whose key has
    no number yields [None], the place where the walk raises. *)
Definition topic_block (kv : string * Topic) : list (option Slide) :=
  option_map (fun n => topic_slide n (snd kv)) (topic_number_of (fst kv))
  :: map (fun sv => Some (subtopic_slide (snd sv))) (subtopics (snd kv)).

Definition module_block (kv : string * Module_) : list (option Slide) :=
  if PyDict.is_nil (topics (snd kv)) then []
  else Some (module_slide (fst kv) (snd kv)) :: flat_map topic_block (topics (snd kv)).

Definition traversal (o : Outline) : list (option Slide) := flat_map module_block o.

Fixpoint sequence {A} (l : list (option A)) : option (list A) :=
  match l with
  | [] => Some []
  | None :: _ => None
  | Some a :: r =>
      match sequence r with
      | Some r' => Some (a :: r')
      | None => None
      end
  end.

Definition subtopic_slides (subs : PyDict.dict Subtopic) : list Slide :=
  map (fun sv => subtopic_slide (snd sv)) subs.

(** The size of the uncapped traversal: one slide for each module that has a
    topic, for each of its topics and for each of their subtopics. *)
Definition topic_size (kv : string * Topic) : nat := 1 + length (subtopics (snd kv)).

Definition module_size (kv : string * Module_) : nat :=
  if PyDict.is_nil (topics (snd kv)) then 0
  else 1 + list_sum (map topic_size (topics (snd kv))).

Definition slide_count (o : Outline) : nat := list_sum (map module_size o).

(** The first module the projector does not skip. *)
Definition first_with_topics (o : Outline) : option (string * Module_) :=
  List.find (fun kv => negb (PyDict.is_nil (topics (snd kv)))) o.

(** The number of slides the cap lets through: the first slide is appended
    before the cap is first looked at. *)
Definition cap (max_slides : Z) : nat := Z.to_nat (Z.max 1 max_slides).

End Projector.

(** ** Title-slide notes: [create_title_slide] of [a05_CREATE_POWERPOINT.py]
    and the single-slide path of [add_speaker_notes_to_presentation] of
    [a06-Student_Notes_Student_Handbook.py] *)

Module Correlator.
Import PyStr.

Definition Notes := PyDict.dict string.

(** The welcome text synthesized when no key matches. *)
Definition fallback_notes (course_name : string) : string :=
  ("Welcome to the course: " ++ course_name
   ++ ". This comprehensive course will provide you with in-depth knowledge and practical skills about "
   ++ course_name
   ++ ". Throughout this course, you will learn key concepts, best practices, and hands-on techniques that you can apply in real-world scenarios. Let's begin our journey into "
   ++ course_name ++ ".")%string.

(** [course_variants], in the order the code tries them. *)
Definition course_variants (course_name : string) : list string :=
  let base_name := remove_all " Fundamentals" course_name in
  [ course_name;
    ("Course: " ++ course_name)%string;
    "Course: Cisco AI Defense";
    ("Title: " ++ course_name)%string;
    "Title Slide" ]
  ++ (if String.eqb base_name course_name then []
      else [ base_name; ("Course: " ++ base_name)%string ]).

(** [for key in course_variants: if key in enhanced_notes: ... break] *)
Fixpoint first_variant (variants : list string) (enhanced_notes : Notes)
  : option string :=
  match variants with
  | [] => None
  | key :: rest =>
      match PyDict.get key enhanced_notes with
      | Some v => Some v
      | None => first_variant rest enhanced_notes
      end
  end.

(** [key.lower().startswith("course:") or "title" in key.lower()] *)
Definition looks_like_title (key : string) : bool :=
  startswith (lower key) "course:" || contains "title" (lower key).

(** [for key in enhanced_notes.keys(): if ...: ... break] *)
Fixpoint heuristic_scan (enhanced_notes : Notes) : option string :=
  match enhanced_notes with
  | [] => None
  | (key, v) :: rest =>
      if looks_like_title key then Some v else heuristic_scan rest
  end.

(** The notes text [create_title_slide] writes on the title slide. *)
Definition title_slide_notes (enhanced_notes : Notes) (course_name : string)
  : string :=
  if PyDict.is_nil enhanced_notes then fallback_notes course_name
  else
    match first_variant (course_variants course_name) enhanced_notes with
    | Some v => v
    | None =>
        match heuristic_scan enhanced_notes with
        | Some v => v
        | None => fallback_notes course_name
        end
    end.

(** Python's truth value of [notes_text], a string or [None]. *)
Definition truthy (o : option string) : bool := negb (Parser.falsy o).

(** The first try: the text of each shape with a text frame, in order; the
    first text that is a key ends the loop. *)
Fixpoint exact_match (shape_texts : list string) (slide_notes_dict : Notes)
  : option string :=
  match shape_texts with
  | [] => None
  | slide_title :: rest =>
      if negb (is_empty slide_title) && PyDict.mem slide_title slide_notes_dict
      then PyDict.get slide_title slide_notes_dict
      else exact_match rest slide_notes_dict
  end.

(** The notes chosen for the only slide of a single-slide presentation;
    [None] when no notes are written.  [fallback_title] is
    ["Course: <directory name>"] when a current directory is known. *)
Definition single_slide_notes (shape_texts : list string)
    (fallback_title : option string) (slide_notes_dict : Notes) : option string :=
  let notes1 := exact_match shape_texts slide_notes_dict in
  let notes2 :=
    if negb (truthy notes1) && truthy fallback_title
       && PyDict.mem (Parser.cursor_key fallback_title) slide_notes_dict
    then PyDict.get (Parser.cursor_key fallback_title) slide_notes_dict
    else notes1 in
  let notes3 :=
    if negb (truthy notes2) && (length slide_notes_dict =? 1)
    then match slide_notes_dict with
         | (_, v) :: _ => Some v
         | [] => notes2
         end
    else notes2 in
  if truthy notes3 then notes3 else None.

End Correlator.

(** ** Prompt responses and the prompt cache: [a06_Image_Generation.py] *)

Module ImageGen.
Import PyStr.

Definition fence_open : string := "```json".
Definition fence : string := "```".

(** The first stage of [clean_json_response]: when the response holds the
    opening fence and a closing fence after it, the stripped text between
    the two; otherwise the response itself. *)
Definition unfence (response : string) : string :=
  match find fence_open response with
  | Some i =>
      let json_start := i + 7 in
      match find fence (drop json_start response) with
      | Some j =>
          let json_end := json_start + j in
          if json_start <? json_end
          then strip (take (json_end - json_start) (drop json_start response))
          else response
      | None => response
      end
  | None => response
  end.

(** The second stage: the text from its first brace on. *)
Definition from_brace (response : string) : string :=
  if startswith response "{" then response
  else match find "{" response with
       | Some start_idx => drop start_idx response
       | None => response
       end.

(** [clean_json_response(response)] *)
Definition clean_json_response (response : string) : string :=
  from_brace (strip (unfence response)).

Definition config_prompt_style : string := "professional business".
Definition config_focus : string :=
  "people and technology concepts with an exciting and modern design".
Definition config_color_scheme : string := "modern corporate looke".

(** [create_fallback_prompt(slide_title)] *)
Definition create_fallback_prompt (slide_title : string) : string :=
  ("Create a professional image representing " ++ slide_title ++ ". "
   ++ "Style: " ++ config_prompt_style ++ ". "
   ++ "Focus on " ++ config_focus ++ " with " ++ config_color_scheme ++ ".")%string.

(** [get_enhanced_prompt(slide_title, slide_content)], reading the global
    [prompt_cache]. *)
Definition get_enhanced_prompt (prompt_cache : PyDict.dict string)
    (slide_title slide_content : string) : string :=
  if PyDict.mem slide_title prompt_cache
  then match PyDict.get slide_title prompt_cache with
       | Some p => p
       | None => EmptyString
       end
  else create_fallback_prompt slide_title.

(** The prompt [generate_slide_images_parallel] asks for a slide: the
    content handed over is the bullets joined by newlines. *)
Definition all_slide_text (content : list string) : string :=
  String.concat nl content.

Definition slide_prompt (prompt_cache : PyDict.dict string)
    (slide : Projector.Slide) : string :=
  get_enhanced_prompt prompt_cache (Projector.title slide)
    (all_slide_text (Projector.content slide)).

(** The fallback cache: one templated prompt per slide title. *)
Definition fallback_cache (titles : list string) : PyDict.dict string :=
  fold_left (fun d t => PyDict.set t (create_fallback_prompt t) d) titles [].

Section Decoder.

(** [json.loads], from the Python library: [None] is [JSONDecodeError]. *)
Variable json_loads : string -> option (PyDict.dict string).

(** The parsing stage of [generate_all_image_prompts]: the new value of
    [prompt_cache] for the collaborator's response. *)
Definition parse_prompts (titles : list string) (response : string)
  : PyDict.dict string :=
  match json_loads (clean_json_response response) with
  | Some cache => cache
  | None => fallback_cache titles
  end.

End Decoder.

(** What [json.loads] can do with a text: decode a JSON object, decode a
    value that is no object, raise [JSONDecodeError], or raise anything else
    (a [RecursionError] on a deeply nested text).  [Other] stands for the
    Python values that are no dictionaries. *)
Inductive Loaded (Other : Type) : Type :=
  | Object (d : PyDict.dict string)
  | Value (v : Other)
  | JSONDecodeError
  | OtherException.

Arguments Object {Other} d.
Arguments Value {Other} v.
Arguments JSONDecodeError {Other}.
Arguments OtherException {Other}.

(** The new value of the global [slide_notes]: a dictionary, or whatever
    else the decoder has returned. *)
Inductive SlideNotes (Other : Type) : Type :=
  | NotesDict (d : PyDict.dict string)
  | NotesValue (v : Other).

Arguments NotesDict {Other} d.
Arguments NotesValue {Other} v.

(** The note of the inner handler, by the type of the slide. *)
Definition fallback_note (slide_title slide_type : string) : string :=
  if String.eqb slide_type "module" then
    ("Welcome to " ++ slide_title
     ++ ". This module covers key concepts and principles related to this topic. Review the bullet points on the slide and elaborate on each topic.")%string
  else if String.eqb slide_type "topic" then
    ("This slide covers " ++ slide_title
     ++ ". Explain each subtopic listed and how they relate to the overall topic.")%string
  else
    ("In this slide about " ++ slide_title
     ++ ", discuss each bullet point in detail, providing examples where appropriate.")%string.

Definition fallback_notes_dict (slides_info : list (string * string))
  : PyDict.dict string :=
  fold_left (fun d si => PyDict.set (fst si) (fallback_note (fst si) (snd si)) d)
    slides_info [].

(** The note of the outer handler, the same for every type. *)
Definition simple_note (slide_title : string) : string :=
  ("Discuss the key points on this slide about " ++ slide_title ++ ".")%string.

Definition simple_notes_dict (slides_info : list (string * string))
  : PyDict.dict string :=
  fold_left (fun d si => PyDict.set (fst si) (simple_note (fst si)) d)
    slides_info [].

Section NotesDecoder.

Variable Other : Type.

(** Whether [len(v)] is defined: it is for a list or a string, and raises
    [TypeError] for a number, [True], [False] or [None]. *)
Variable has_len : Other -> bool.

(** [json.loads], from the Python library. *)
Variable json_loads : string -> Loaded Other.

(** The parsing stage of [generate_all_speaker_notes], once the response is
    received and saved; the slides are given by title and type.  The
    response is cleaned by the steps of [clean_json_response], written in
    line.  [except json.JSONDecodeError] writes one note per slide according
    to its type; [except Exception], which also catches the [TypeError] of
    [len(slide_notes)] in the message, writes the simple note. *)
Definition parse_notes (slides_info : list (string * string)) (response : string)
  : SlideNotes Other :=
  match json_loads (clean_json_response response) with
  | Object notes => NotesDict notes
  | Value v =>
      if has_len v then NotesValue v
      else NotesDict (simple_notes_dict slides_info)
  | JSONDecodeError => NotesDict (fallback_notes_dict slides_info)
  | OtherException => NotesDict (simple_notes_dict slides_info)
  end.

End NotesDecoder.

(** The response [j] inside a fenced block. *)
Definition fenced (j : string) : string :=
  (fence_open ++ nl ++ j ++ nl ++ fence)%string.

End ImageGen.

(** ** Artifact file names: [a07_Slide_Snapshot_Generator.py] and the image
    batch of [a05_CREATE_POWERPOINT.py] *)

Module Artifacts.
Import PyStr.

(** A slide as the snapshot generator receives it: title and bullets. *)
Definition SlideData := (string * list string)%type.

Definition slide_eqb (a b : SlideData) : bool :=
  String.eqb (fst a) (fst b)
  && (if list_eq_dec string_dec (snd a) (snd b) then true else false).

(** [slides_data.index(slide)]: the position of the first equal element. *)
Fixpoint index_of (slide : SlideData) (slides_data : list SlideData) : nat :=
  match slides_data with
  | [] => 0
  | s :: rest => if slide_eqb s slide then 0 else S (index_of slide rest)
  end.

(** ["".join(c if c.isalnum() else "_" for c in title)] *)
Definition safe_title (title : string) : string :=
  map_string (fun c => if isalnum_char c then c else "_"%char) title.

Definition title_snapshot_filename : string := "00_snapshot_title_slide.png".

(** [f"{slide_index:03d}_snapshot_{safe_title}.png"] *)
Definition snapshot_filename (slides_data : list SlideData) (slide : SlideData)
  : string :=
  let slide_index := index_of slide slides_data + 1 in
  (format_0d 3 slide_index ++ "_snapshot_" ++ safe_title (fst slide) ++ ".png")%string.

(** The snapshot file names in presentation order: the title slide, when it
    has an image, and then every slide. *)
Definition snapshot_filenames (with_title : bool) (slides_data : list SlideData)
  : list string :=
  (if with_title then [title_snapshot_filename] else [])
  ++ map (snapshot_filename slides_data) slides_data.

(** [f"{slide_num:02d}_slide.png"] of the image batch. *)
Definition image_filename (slide_num : nat) : string :=
  (format_0d 2 slide_num ++ "_slide.png")%string.

(** [sorted(names)]: ascending by code points. *)
Fixpoint insert_sorted (x : string) (l : list string) : list string :=
  match l with
  | [] => [x]
  | y :: r => if String.leb x y then x :: l else y :: insert_sorted x r
  end.

Definition sorted (l : list string) : list string :=
  fold_right insert_sorted [] l.

End Artifacts.

(** ** The quiz parser: [parse_outline] of [a07_QUIZ_Per_Module.py] *)

Module QuizParser.
Import PyStr.

Record Subtopic := mkSubtopic {
  sub_title : string;
  subtopic_number : string;
  points : list string
}.

Record Topic := mkTopic {
  topic_title : string;
  topic_number : string;
  subtopics : PyDict.dict Subtopic
}.

Record Module_ := mkModule {
  module_title : string;
  module_number : string;
  topics : PyDict.dict Topic;
  full_content : list string
}.

Definition Outline := PyDict.dict Module_.

Record State := mkState {
  outline : Outline;
  current_module : option string;
  current_topic : option string;
  current_subtopic : option string
}.

Definition init : State := mkState [] None None None.

(** [\d+] at the head of [s]: the longest run of decimal digits and what
    follows it. *)
Fixpoint span_digits (s : string) : string * string :=
  match s with
  | EmptyString => (EmptyString, EmptyString)
  | String c r =>
      if isdecimal_char c
      then let '(d, rest) := span_digits r in (String c d, rest)
      else (EmptyString, s)
  end.

Definition is_newline (c : ascii) : bool := Ascii.eqb c "010".

(** [s] without its last character when that is a newline. *)
Fixpoint chomp (s : string) : string :=
  match s with
  | EmptyString => EmptyString
  | String c r =>
      match r with
      | EmptyString => if is_newline c then EmptyString else s
      | String _ _ => String c (chomp r)
      end
  end.

(** [(.+)$]: at least one character, none of them a newline, up to the end
    of the string or to a newline that ends it. *)
Definition dot_plus_end (s : string) : option string :=
  let body := chomp s in
  if negb (is_empty body) && forallb_string (fun c => negb (is_newline c)) body
  then Some body else None.

(** [\d+(\.\d+){k}] at the head of [s]. *)
Fixpoint dotted (k : nat) (s : string) : option (string * string) :=
  let '(d, r) := span_digits s in
  if is_empty d then None
  else
    match k with
    | 0 => Some (d, r)
    | S k' =>
        match r with
        | String c r' =>
            if is_dot c
            then match dotted k' r' with
                 | Some (n, rest) => Some ((d ++ "." ++ n)%string, rest)
                 | None => None
                 end
            else None
        | EmptyString => None
        end
    end.

(** [re.match(r'^(\d+(\.\d+){k})\s(.+)$', line)]: the two groups. *)
Definition re_numbered (k : nat) (line : string) : option (string * string) :=
  match dotted k line with
  | Some (number, String c rest) =>
      if isspace c
      then match dot_plus_end rest with
           | Some text => Some (number, text)
           | None => None
           end
      else None
  | _ => None
  end.

(** [re.match(r'^(\d+)\.Module\s(.+)$', line)]: the two groups. *)
Definition re_module (line : string) : option (string * string) :=
  let '(d, r) := span_digits line in
  if is_empty d then None
  else if prefixb ".Module" r then
    match drop 7 r with
    | String c rest =>
        if isspace c
        then match dot_plus_end rest with
             | Some text => Some (d, text)
             | None => None
             end
        else None
    | EmptyString => None
    end
  else None.

Definition topic_match (line : string) := re_numbered 1 line.
Definition subtopic_match (line : string) := re_numbered 2 line.
Definition point_match (line : string) := re_numbered 3 line.

Definition truthy (o : option string) : bool := negb (Parser.falsy o).

(** [outline[cm]["full_content"].append(line)] *)
Definition log_line (o : Outline) (cm line : string) : option Outline :=
  match PyDict.get cm o with
  | None => None
  | Some m =>
      Some (PyDict.set cm
              (mkModule (module_title m) (module_number m) (topics m)
                 (full_content m ++ [line])) o)
  end.

(** [outline[cm]["topics"][key] = t] *)
Definition put_topic (o : Outline) (cm key : string) (t : Topic) : option Outline :=
  match PyDict.get cm o with
  | None => None
  | Some m =>
      Some (PyDict.set cm
              (mkModule (module_title m) (module_number m)
                 (PyDict.set key t (topics m)) (full_content m)) o)
  end.

(** [outline[cm]["topics"][ct]["subtopics"][key] = s] *)
Definition put_subtopic (o : Outline) (cm ct key : string) (s : Subtopic)
  : option Outline :=
  match PyDict.get cm o with
  | None => None
  | Some m =>
      match PyDict.get ct (topics m) with
      | None => None
      | Some t =>
          put_topic o cm ct
            (mkTopic (topic_title t) (topic_number t) (PyDict.set key s (subtopics t)))
      end
  end.

(** [outline[cm]["topics"][ct]["subtopics"][cs]["points"].append(point)] *)
Definition append_point (o : Outline) (cm ct cs point : string) : option Outline :=
  match PyDict.get cm o with
  | None => None
  | Some m =>
      match PyDict.get ct (topics m) with
      | None => None
      | Some t =>
          match PyDict.get cs (subtopics t) with
          | None => None
          | Some s =>
              put_subtopic o cm ct cs
                (mkSubtopic (sub_title s) (subtopic_number s) (points s ++ [point]))
          end
      end
  end.

(** The body of the loop on a stripped line that is not empty. *)
Definition step (st : State) (line : string) : option State :=
  let cm := Parser.cursor_key (current_module st) in
  let ct := Parser.cursor_key (current_topic st) in
  let cs := Parser.cursor_key (current_subtopic st) in
  match re_module line with
  | Some (number, text) =>
      let key := ("Module " ++ number)%string in
      Some (mkState
              (PyDict.set key (mkModule (strip text) number [] [line]) (outline st))
              (Some key) None None)
  | None =>
      match topic_match line with
      | Some (number, text) =>
          if truthy (current_module st) then
            let key := ("Topic " ++ number)%string in
            match put_topic (outline st) cm key (mkTopic (strip text) number []) with
            | None => None
            | Some o1 =>
                match log_line o1 cm line with
                | None => None
                | Some o2 => Some (mkState o2 (current_module st) (Some key) None)
                end
            end
          else Some st
      | None =>
          match subtopic_match line with
          | Some (number, text) =>
              if truthy (current_module st) && truthy (current_topic st) then
                let key := ("Subtopic " ++ number)%string in
                match put_subtopic (outline st) cm ct key
                        (mkSubtopic (strip text) number []) with
                | None => None
                | Some o1 =>
                    match log_line o1 cm line with
                    | None => None
                    | Some o2 =>
                        Some (mkState o2 (current_module st) (current_topic st)
                                (Some key))
                    end
                end
              else if truthy (current_module st) then
                match log_line (outline st) cm line with
                | None => None
                | Some o1 =>
                    Some (mkState o1 (current_module st) (current_topic st)
                            (current_subtopic st))
                end
              else Some st
          | None =>
              match point_match line with
              | Some (number, text) =>
                  if truthy (current_module st) && truthy (current_topic st)
                     && truthy (current_subtopic st) then
                    match append_point (outline st) cm ct cs (strip text) with
                    | None => None
                    | Some o1 =>
                        match log_line o1 cm line with
                        | None => None
                        | Some o2 =>
                            Some (mkState o2 (current_module st) (current_topic st)
                                    (current_subtopic st))
                        end
                    end
                  else if truthy (current_module st) then
                    match log_line (outline st) cm line with
                    | None => None
                    | Some o1 =>
                        Some (mkState o1 (current_module st) (current_topic st)
                                (current_subtopic st))
                    end
                  else Some st
              | None =>
                  if truthy (current_module st) then
                    match log_line (outline st) cm line with
                    | None => None
                    | Some o1 =>
                        Some (mkState o1 (current_module st) (current_topic st)
                                (current_subtopic st))
                    end
                  else Some st
              end
          end
      end
  end.

(** One iteration of [for line in lines]. *)
Definition process_line (st : State) (raw : string) : option State :=
  let line := strip raw in
  if is_empty line then Some st else step st line.

Fixpoint process_lines (st : State) (lines : list string) : option State :=
  match lines with
  | [] => Some st
  | l :: ls =>
      match process_line st l with
      | None => None
      | Some st' => process_lines st' ls
      end
  end.

(** [parse_outline] of the quiz generator on the text of the file. *)
Definition parse_outline (text : string) : option (Outline * string) :=
  let '(course_title, lines) := Parser.split_title (readlines text) in
  match process_lines init lines with
  | None => None
  | Some st => Some (outline st, course_title)
  end.

(** Every cursor in use is a key of the dictionary it indexes. *)
Definition valid_subtopic (t : Topic) (cs : option string) : Prop :=
  match cs with
  | None => True
  | Some k => exists s, PyDict.get k (subtopics t) = Some s
  end.

Definition valid_topic (m : Module_) (ct cs : option string) : Prop :=
  match ct with
  | None => True
  | Some k => exists t, PyDict.get k (topics m) = Some t /\ valid_subtopic t cs
  end.

Definition valid_cursors (st : State) : Prop :=
  match current_module st with
  | None => outline st = []
  | Some k => exists m, PyDict.get k (outline st) = Some m
                        /\ valid_topic m (current_topic st) (current_subtopic st)
  end.

End QuizParser.

(** ** Slide lists for the prompt and notes batches: [extract_slide_info] of
    [a06_Image_Generation.py] and [generate_slides_info_from_outline] of
    [a06-Student_Notes_Student_Handbook.py] *)

Module SlideInfo.
Import PyStr Parser.

(** [{"title": ..., "content": ...}] *)
Record Info := mkInfo { title : string; content : string }.

(** [{"title": ..., "content": ..., "type": ...}] *)
Record NoteInfo := mkNoteInfo {
  note_title : string;
  note_content : string;
  note_type : string
}.

(** The value under ["content"] of a subtopic of the simplified outline: a
    list of strings or one string. *)
Inductive Content :=
| ContentList (l : list string)
| ContentStr (s : string).

Record SimpleTopic := mkSimpleTopic {
  simple_title : string;
  simple_subtopics : list Content
}.

(** The simplified outline, [{"title": ..., "modules": [{"topics": [...]}]}],
    and the parser's outline. *)
Inductive OutlineData :=
| Simplified (course : string) (modules : list (list SimpleTopic))
| Legacy (o : Outline).

(** ["\n".join(l)] *)
Definition join_lines (l : list string) : string := String.concat nl l.

Definition all_content (subs : list Content) : list string :=
  flat_map (fun c => match c with
                     | ContentList l => l
                     | ContentStr s => [s]
                     end) subs.

Definition simple_topic_info (t : SimpleTopic) : Info :=
  mkInfo (simple_title t)
    (match simple_subtopics t with
     | [] => EmptyString
     | subs => join_lines (all_content subs)
     end).

Definition module_info (module_number : string) (md : Module_) : Info :=
  mkInfo (module_number ++ ": " ++ module_title md)%string
    (join_lines (Projector.topic_bullets md)).

Definition topic_info (topic_number : string) (td : Topic) : Info :=
  mkInfo (topic_number ++ ": " ++ topic_title td)%string
    (join_lines (Projector.subtopic_bullets td)).

Definition subtopic_info (sd : Subtopic) : Info :=
  mkInfo (sub_title sd) (join_lines (points sd)).

Definition subtopic_infos (td : Topic) : list Info :=
  map (fun sv => subtopic_info (snd sv)) (subtopics td).

(** [module.split()[1]] and [topic.split()[1]] *)
Definition second_word (key : string) : option string :=
  nth_error (split_ws key) 1.

(** The topics of one module inside the [try]: the first key without a
    second word raises, which ends the module and keeps what was appended. *)
Fixpoint legacy_topics (ts : PyDict.dict Topic) (slides_info : list Info)
  : list Info :=
  match ts with
  | [] => slides_info
  | (topic, td) :: rest =>
      match second_word topic with
      | None => slides_info
      | Some n =>
          legacy_topics rest (slides_info ++ topic_info n td :: subtopic_infos td)
      end
  end.

Definition legacy_module (slides_info : list Info) (kv : string * Module_)
  : list Info :=
  match second_word (fst kv) with
  | None => slides_info
  | Some n => legacy_topics (topics (snd kv)) (slides_info ++ [module_info n (snd kv)])
  end.

(** [if max_slides > 0 and max_slides < len(l): l = l[:max_slides]] *)
Definition limit {A} (max_slides : Z) (l : list A) : list A :=
  if ((0 <? max_slides)%Z && (max_slides <? Z.of_nat (length l))%Z)%bool
  then firstn (Z.to_nat max_slides) l else l.

(** [extract_slide_info(outline_data, max_slides)] *)
Definition extract_slide_info (outline_data : OutlineData) (max_slides : Z)
  : list Info :=
  limit max_slides
    match outline_data with
    | Simplified _ modules =>
        flat_map (fun topics => map simple_topic_info topics) modules
    | Legacy o => fold_left legacy_module o []
    end.

(** The outline [generate_slide_images_parallel] of [a05_CREATE_POWERPOINT.py]
    builds from the projected slides: one module, one topic per slide. *)
Definition simplified_outline (slides_data : list Projector.Slide) : OutlineData :=
  Simplified "Course Presentation"
    [ map (fun s => mkSimpleTopic (Projector.title s)
                      [ContentList (Projector.content s)]) slides_data ].

Definition note_of (type : string) (i : Info) : NoteInfo :=
  mkNoteInfo (title i) (content i) type.

(** The topics of one module for the notes batch; here a key without a
    second word raises out of the function. *)
Fixpoint notes_topics (ts : PyDict.dict Topic) (slides_info : list NoteInfo)
  : option (list NoteInfo) :=
  match ts with
  | [] => Some slides_info
  | (topic, td) :: rest =>
      match second_word topic with
      | None => None
      | Some n =>
          notes_topics rest
            (slides_info ++ note_of "topic" (topic_info n td)
                            :: map (note_of "subtopic") (subtopic_infos td))
      end
  end.

Fixpoint notes_modules (o : Outline) (slides_info : list NoteInfo)
  : option (list NoteInfo) :=
  match o with
  | [] => Some slides_info
  | (module, md) :: rest =>
      match second_word module with
      | None => None
      | Some n =>
          match notes_topics (topics md)
                  (slides_info ++ [note_of "module" (module_info n md)]) with
          | None => None
          | Some slides_info' => notes_modules rest slides_info'
          end
      end
  end.

(** The title slide of the notes batch; [course_name] is the base name of
    the current directory with its underscores turned into spaces, when a
    current directory is set. *)
Definition title_note (course_name : option string) : list NoteInfo :=
  match course_name with
  | Some name =>
      [ mkNoteInfo ("Course: " ++ name)%string
          ("Welcome to this comprehensive course on " ++ name)%string "title" ]
  | None => []
  end.

(** [generate_slides_info_from_outline(outline_data)]; [None] is the
    [IndexError] of a key without a second word. *)
Definition generate_slides_info_from_outline (course_name : option string)
    (outline_data : Outline) : option (list NoteInfo) :=
  notes_modules outline_data (title_note course_name).

(** A notes entry without its type. *)
Definition forget_type (i : NoteInfo) : Info :=
  mkInfo (note_title i) (note_content i).

(** The number of entries of the notes batch for a tree: every module, every
    topic and every subtopic. *)
Definition full_count (o : Outline) : nat :=
  list_sum (map (fun kv => 1 + list_sum (map Projector.topic_size (topics (snd kv)))) o).

(** A word: at least one character and no whitespace. *)
Definition is_word (s : string) : bool :=
  negb (is_empty s) && forallb_string (fun c => negb (isspace c)) s.

End SlideInfo.

(** ** File names from titles: [sanitize_filename] of [a06_Image_Generation.py] *)

Module Sanitize.
Import PyStr.

(** The characters the pattern [[^\w\-_.]] leaves alone. *)
Definition allowed (c : ascii) : bool :=
  isalnum_char c || Ascii.eqb c "_" || Ascii.eqb c "-" || Ascii.eqb c ".".

(** [re.sub(r'[^\w\-_.]+', '_', name)]: every maximal run of other characters
    becomes one underscore.  [in_run] tells that the run has begun. *)
Fixpoint sub_runs (in_run : bool) (name : string) : string :=
  match name with
  | EmptyString => EmptyString
  | String c r =>
      if allowed c then String c (sub_runs false r)
      else if in_run then sub_runs true r
      else String "_" (sub_runs true r)
  end.

(** [s[:n]] for any integer [n]. *)
Definition slice_to (n : Z) (s : string) : string :=
  if (0 <=? n)%Z then take (Z.to_nat n) s
  else take (String.length s - Z.to_nat (- n)) s.

(** [sanitize_filename(name, max_length)] *)
Definition sanitize_filename (name : string) (max_length : Z) : string :=
  let safe_name := sub_runs false name in
  if (max_length <? Z.of_nat (String.length safe_name))%Z
  then slice_to max_length safe_name else safe_name.

(** The image name of [generate_image_for_slide]. *)
Definition slide_image_filename (slide_title : string) : string :=
  ("slide_" ++ sanitize_filename slide_title 30 ++ ".png")%string.

End Sanitize.

(** ** The notes file and the notes of a content slide:
    [load_enhanced_notes] and [create_content_slide] of
    [a05_CREATE_POWERPOINT.py] *)

Module NotesFile.
Import PyStr.

Definition fence_open_nl : string := (ImageGen.fence_open ++ nl)%string.
Definition nl_fence : string := (nl ++ ImageGen.fence)%string.

(** [re.search(r'```json\n(.+?)\n```', content, re.DOTALL).group(1)]: the
    shortest text of at least one character between the first opening fence
    line and a closing fence line. *)
Definition search_fenced (content : string) : option string :=
  match find fence_open_nl content with
  | None => None
  | Some i =>
      let rest := drop (i + 8) content in
      match rest with
      | EmptyString => None
      | String _ rest' =>
          match find nl_fence rest' with
          | None => None
          | Some k => Some (take (k + 1) rest)
          end
      end
  end.

Section Decoder.

(** [json.loads], from the Python library: [None] is [JSONDecodeError]. *)
Variable json_loads : string -> option (PyDict.dict string).

(** [load_enhanced_notes] on the content of a notes file that exists. *)
Definition load_enhanced_notes (content : string) : PyDict.dict string :=
  match json_loads content with
  | Some notes_data => notes_data
  | None =>
      match search_fenced content with
      | Some text =>
          match json_loads text with
          | Some notes_data => notes_data
          | None => []
          end
      | None => []
      end
  end.

End Decoder.

(** [s.split(":")[1]] when [":" in s]. *)
Definition after_first_colon (s : string) : string :=
  match split_once ":" s with
  | Some (_, b) => split_head ":" b
  | None => EmptyString
  end.

(** [module_name] of [create_content_slide]. *)
Definition module_name_of (title_text : string) : string :=
  let module_name := strip (remove_all "Module" title_text) in
  if contains ":" module_name then strip (after_first_colon module_name)
  else module_name.

Definition module_notes (module_name : string) : string :=
  ("Module: " ++ module_name
   ++ ". This module will introduce you to the key concepts and principles of "
   ++ module_name
   ++ ". We will explore the fundamental aspects, practical applications, and best practices related to this module topic. By the end of this module, you will have a solid understanding of "
   ++ module_name
   ++ " and be able to apply these concepts in various scenarios.")%string.

(** ["module" in title_text.lower()] *)
Definition is_module_title (title_text : string) : bool :=
  contains "module" (lower title_text).

(** The notes [create_content_slide] writes on a slide, [None] when it
    writes none. *)
Definition content_slide_notes (enhanced_notes : PyDict.dict string)
    (title_text : string) : option string :=
  if PyDict.is_nil enhanced_notes then
    if is_module_title title_text
    then Some (module_notes (module_name_of title_text)) else None
  else
    match Correlator.first_variant [title_text; title_text; strip title_text]
            enhanced_notes with
    | Some slide_notes => Some slide_notes
    | None =>
        if is_module_title title_text
        then Some (module_notes (module_name_of title_text)) else None
    end.

End NotesFile.

(** ** The Markdown export: [generate_markdown] of [a05_CREATE_POWERPOINT.py] *)

Module Markdown.
Import PyStr Parser.

Section MarkdownExport.

(** [time.strftime('%Y-%m-%d')] and [os.path.relpath(path, output_dir)]. *)
Variable today : string.
Variable relpath : string -> string.

Variable image_paths_by_title : PyDict.dict string.

(** The image line written under a heading when the map holds the key. *)
Definition image_line (key alt : string) : string :=
  match PyDict.get key image_paths_by_title with
  | Some image_path => ("![" ++ alt ++ "](" ++ relpath image_path ++ ")" ++ nl ++ nl)%string
  | None => EmptyString
  end.

(** [module_slide_title], [topic_slide_title] and [subtopic_slide_title]: the
    keys under which the images are looked up. *)
Definition module_slide_title (module_num : string) (md : Module_) : string :=
  ("Module " ++ module_num ++ ": " ++ module_title md)%string.

Definition topic_slide_title (topic_num : string) (td : Topic) : string :=
  (topic_num ++ ": " ++ topic_title td)%string.

Definition subtopic_slide_title (sd : Subtopic) : string := sub_title sd.

Definition subtopic_text (sv : string * Subtopic) : string :=
  ("#### " ++ sub_title (snd sv) ++ nl ++ nl
   ++ image_line (subtopic_slide_title (snd sv)) (sub_title (snd sv))
   ++ String.concat "" (map (fun point => "- " ++ point ++ nl) (points (snd sv)))
   ++ nl)%string.

Definition topic_text (tv : string * Topic) : string :=
  ("### " ++ topic_title (snd tv) ++ nl ++ nl
   ++ image_line (topic_slide_title (fst tv) (snd tv)) (topic_title (snd tv))
   ++ String.concat "" (map subtopic_text (subtopics (snd tv))))%string.

Definition module_text (kv : string * Module_) : string :=
  ("## " ++ module_title (snd kv) ++ nl ++ nl
   ++ image_line (module_slide_title (fst kv) (snd kv)) (module_title (snd kv))
   ++ String.concat "" (map topic_text (topics (snd kv))))%string.

(** The text [generate_markdown] writes to the file. *)
Definition generate_markdown (outline_data : Outline) (course_title : string)
  : string :=
  ("# Title: " ++ course_title ++ nl ++ nl
   ++ "*Generated on " ++ today ++ "*" ++ nl ++ nl
   ++ String.concat "" (map module_text outline_data))%string.

End MarkdownExport.

End Markdown.

(** ** The image batch: [generate_slide_images_parallel] of
    [a05_CREATE_POWERPOINT.py] *)

Module ImageBatch.
Import PyStr.

(** [range(0, stop, step)] for a positive [step]. *)
Fixpoint range_fuel (fuel start stop step : nat) : list nat :=
  match fuel with
  | 0 => []
  | S fuel' =>
      if start <? stop then start :: range_fuel fuel' (start + step) stop step
      else []
  end.

Definition range (stop step : nat) : list nat := range_fuel stop 0 stop step.

(** [l[i:i + n]] *)
Definition slice {A} (i n : nat) (l : list A) : list A := firstn n (skipn i l).

(** The batches of the loop, for a positive batch size. *)
Definition batches {A} (batch_size : nat) (l : list A) : list (list A) :=
  map (fun i => slice i batch_size l) (range (length l) batch_size).

Definition slide_eq_dec (a b : Projector.Slide) : {a = b} + {a <> b}.
Proof.
  decide equality.
  - decide equality.
  - destruct color as [[r g] b0], color0 as [[r' g'] b'].
    repeat decide equality.
  - apply (list_eq_dec string_dec).
  - apply string_dec.
Defined.

(** [slides_data.index(slide)] *)
Fixpoint index (slide : Projector.Slide) (slides_data : list Projector.Slide)
  : nat :=
  match slides_data with
  | [] => 0
  | s :: rest => if slide_eq_dec s slide then 0 else S (index slide rest)
  end.

Section Batch.

(** [generate_images_parallel] of the image service, on the prompts and
    paths of one batch, and [os.path.join(IMAGE_DIR, name)]. *)
Variable generate_images_parallel : list (string * string) -> list string.
Variable image_path : string -> string.

Variable prompt_cache : PyDict.dict string.

(** The prompt and the target path asked for one slide. *)
Definition request (slides_data : list Projector.Slide) (slide : Projector.Slide)
  : string * string :=
  (ImageGen.slide_prompt prompt_cache slide,
   image_path (Artifacts.image_filename (index slide slides_data + 1))).

(** [for j, slide in enumerate(batch): if j < len(all_image_paths): ...] *)
Definition associate (image_paths_by_title : PyDict.dict string)
    (batch : list Projector.Slide) (all_image_paths : list string)
  : PyDict.dict string :=
  fold_left (fun d sp => PyDict.set (Projector.title (fst sp)) (snd sp) d)
    (combine batch all_image_paths) image_paths_by_title.

Definition run_batch (slides_data : list Projector.Slide)
    (image_paths_by_title : PyDict.dict string) (batch : list Projector.Slide)
  : PyDict.dict string :=
  associate image_paths_by_title batch
    (generate_images_parallel (map (request slides_data) batch)).

(** [generate_slide_images_parallel(slides_data, batch_size)], once the
    prompts are in the cache: [None] is the [ValueError] of a zero step; a
    negative step makes the range empty. *)
Definition generate_slide_images_parallel (slides_data : list Projector.Slide)
    (batch_size : Z) : option (PyDict.dict string) :=
  if (batch_size =? 0)%Z then None
  else if (batch_size <? 0)%Z then Some []
  else Some (fold_left (run_batch slides_data)
               (batches (Z.to_nat batch_size) slides_data) []).

End Batch.

End ImageBatch.

(** ** Shapes of the parsed tree that later stages rely on *)

Module Shape.
Import PyStr Parser.

Definition keys {V} (d : PyDict.dict V) : list string := map fst d.

(** No key occurs twice, at any level of the tree. *)
Definition unique_topic (t : Topic) : Prop := NoDup (keys (subtopics t)).

Definition unique_module (m : Module_) : Prop :=
  NoDup (keys (topics m)) /\ Forall (fun tv => unique_topic (snd tv)) (topics m).

Definition unique_keys (o : Outline) : Prop :=
  NoDup (keys o) /\ Forall (fun kv => unique_module (snd kv)) o.

(** [s] has a character that is not whitespace. *)
Definition has_word (s : string) : bool := negb (forallb_string isspace s).

(** Every module key and every topic key has a second word, the number that
    [key.split()[1]] reads. *)
Definition numbered_module (kv : string * Module_) : Prop :=
  SlideInfo.second_word (fst kv) <> None
  /\ Forall (fun tv => SlideInfo.second_word (fst tv) <> None) (topics (snd kv)).

Definition numbered (o : Outline) : Prop := Forall numbered_module o.

(** A line whose leading token is nothing but one dot. *)
Definition lone_dot (raw : string) : Prop :=
  exists title_part, tokenize raw = Some (1, EmptyString, title_part).

End Shape.

(** ** Filling a dictionary in a loop *)

Module PyDictFold.

(** [for x in l: d[key(x)] = val(x)] *)
Definition fold_set {A} (key : A -> string) (val : A -> string)
    (l : list A) (d : PyDict.dict string) : PyDict.dict string :=
  fold_left (fun d x => PyDict.set (key x) (val x) d) l d.

End PyDictFold.

(** ** Looking notes up: [get_speaker_notes] of
    [a06-Student_Notes_Student_Handbook.py] *)

Module SpeakerNotes.

(** [get_speaker_notes(slide_title)], reading the global [slide_notes]. *)
Definition get_speaker_notes (slide_notes : PyDict.dict string)
    (slide_title : string) : string :=
  match PyDict.get slide_title slide_notes with
  | Some notes => notes
  | None =>
      ("Speaker notes for '" ++ slide_title
       ++ "' not available. Please explain the slide content based on the bullet points shown.")%string
  end.

End SpeakerNotes.

(** ** Concrete inputs used by the examples below *)

Module Scenarios.
Import PyStr Parser.

(** The quotation mark, as a one-character string. *)
Definition dq : string := String "034" "".

(** The six-line outline of the specification's walk-through. *)
Definition scenario : string :=
  ("AI 101" ++ nl ++ "1. Security" ++ nl ++ "1.1 Basics" ++ nl ++ "1.1.1 Intro"
   ++ nl ++ "1.1.1.1 Point A" ++ nl ++ "1.1.1.2 Point B")%string.

(** What the code builds from it. *)
Definition scenario_tree : Outline :=
  [ ("Module 1",
     mkModule "Main Module"
       [ ("Topic 1", mkTopic "Security" []);
         ("Topic 1.1",
          mkTopic "Basics"
            [ ("Subtopic 1.1.1", mkSubtopic "Intro" ["Point A"; "Point B"]) ]) ]) ].


(** A file whose first line is a module line without a dot. *)
Definition module_first : string := ("1 Intro" ++ nl ++ "1.1 Basics")%string.

(** A file that starts with a blank line. *)
Definition blank_first : string := (nl ++ "AI 101" ++ nl ++ "1 Intro")%string.

(** A file that holds a title and nothing else. *)
Definition title_only : string := ("AI 101" ++ nl)%string.

(** Two modules, neither with a topic. *)
Definition bare_modules : Outline :=
  [ ("Module 1", mkModule "A" []); ("Module 2", mkModule "B" []) ].

Definition bare_modules_text : string :=
  ("T" ++ nl ++ "1 A" ++ nl ++ "2 B")%string.

(** A JSON object whose only value is a triple backquote. *)
Definition backquote_json : string :=
  ("{" ++ dq ++ "a" ++ dq ++ ":" ++ dq ++ "```" ++ dq ++ "}")%string.

(** What is left of it when it is cut at its first triple backquote. *)
Definition backquote_json_cut : string :=
  ("{" ++ dq ++ "a" ++ dq ++ ":" ++ dq)%string.

(** A JSON object free of backquotes. *)
Definition plain_json : string :=
  ("{" ++ dq ++ "a" ++ dq ++ ": " ++ dq ++ "b" ++ dq ++ "}")%string.

(** A decoder that rejects everything; any decoder would do. *)
Definition no_decoder (s : string) : option (PyDict.dict string) := None.

(** One slide and the title snapshot. *)
Definition one_slide : list (string * list string) := [("A", [])].

(** A notes map with one entry whose key is no variant of the title. *)
Definition one_note : PyDict.dict string := [("Intro", "notes")].

End Scenarios.

(** ** Further concrete inputs *)

Module Examples.
Import PyStr Parser.

(** The module line "1 A" twice, with a topic in between. *)
Definition repeated_module : string :=
  ("T" ++ nl ++ "1 A" ++ nl ++ "1.1 X" ++ nl ++ "1 B")%string.

(** A topic line whose number is a lone dot. *)
Definition lone_dot_text : string := ("T" ++ nl ++ ". Foo")%string.

(** A small well-formed outline. *)
Definition small_text : string :=
  ("T" ++ nl ++ "1 A" ++ nl ++ "1.1 X" ++ nl ++ "1.1.1 S" ++ nl ++ "1.1.1.1 p")%string.

Definition small_tree : Outline :=
  [ ("Module 1",
     mkModule "A"
       [ ("Topic 1.1", mkTopic "X" [("Subtopic 1.1.1", mkSubtopic "S" ["p"])]) ]) ].



(** Two projected slides. *)
Definition two_slides : list Projector.Slide :=
  [ Projector.module_slide "Module 1" (mkModule "A" [("Topic 1.1", mkTopic "X" [])]);
    Projector.subtopic_slide (mkSubtopic "S" ["p"; "q"]) ].

End Examples.

(** * Properties *)

(** ** Dictionaries *)

Module PyDictFacts.
Import PyDict.

Section Facts.
Context {V : Type}.
Implicit Types (d : dict V) (k : string) (v : V).

Lemma get_set_same d k v : get k (set k v d) = Some v.
Proof.
  induction d as [|[k' v'] r IH]; simpl.
  - now rewrite String.eqb_refl.
  - destruct (String.eqb k' k) eqn:E; simpl; rewrite E; auto.
Qed.

Lemma get_set_other d k k' v : k <> k' -> get k' (set k v d) = get k' d.
Proof.
  intros Hne.
  induction d as [|[k0 v0] r IH]; simpl.
  - destruct (String.eqb k k') eqn:E; auto.
    apply String.eqb_eq in E. contradiction.
  - destruct (String.eqb k0 k) eqn:E; simpl.
    + apply String.eqb_eq in E. subst k0.
      destruct (String.eqb k k') eqn:E'; auto.
      apply String.eqb_eq in E'. contradiction.
    + now rewrite IH.
Qed.

Lemma set_set d k v v' : set k v (set k v' d) = set k v d.
Proof.
  induction d as [|[k0 v0] r IH]; simpl.
  - now rewrite String.eqb_refl.
  - destruct (String.eqb k0 k) eqn:E; simpl; rewrite E; congruence.
Qed.

End Facts.

End PyDictFacts.

(** ** The parser *)

Module ParserFacts.
Import PyStr PyDict PyDictFacts Parser.

Lemma valid_init : valid_cursors init.
Proof. reflexivity. Qed.

Lemma valid_open_module st number_part title_part :
  valid_cursors (open_module st number_part title_part).
Proof.
  unfold valid_cursors, open_module; simpl. split; [reflexivity|].
  eexists. split; [apply get_set_same|exact I].
Qed.

Lemma put_topic_some o cm key t m :
  get cm o = Some m ->
  exists o', put_topic o cm key t = Some o'
             /\ exists m', get cm o' = Some m' /\ get key (topics m') = Some t.
Proof.
  intros H. unfold put_topic. rewrite H. eexists. split; [reflexivity|].
  eexists. split; [apply get_set_same|]. simpl. apply get_set_same.
Qed.

Lemma put_subtopic_some o cm ct key s m t :
  get cm o = Some m -> get ct (topics m) = Some t ->
  exists o', put_subtopic o cm ct key s = Some o'
             /\ exists m', get cm o' = Some m'
                  /\ exists t', get ct (topics m') = Some t'
                       /\ get key (subtopics t') = Some s.
Proof.
  intros Hm Ht. unfold put_subtopic. rewrite Hm, Ht.
  destruct (put_topic_some o cm ct
              (mkTopic (topic_title t) (set key s (subtopics t))) m Hm)
    as (o' & Hp & m' & Hm' & Ht').
  exists o'. split; [exact Hp|]. exists m'. split; [exact Hm'|].
  eexists. split; [exact Ht'|]. simpl. apply get_set_same.
Qed.

Lemma append_point_some o cm ct cs p m t s :
  get cm o = Some m -> get ct (topics m) = Some t -> get cs (subtopics t) = Some s ->
  exists o', append_point o cm ct cs p = Some o'
             /\ exists m', get cm o' = Some m'
                  /\ exists t', get ct (topics m') = Some t'
                       /\ exists s', get cs (subtopics t') = Some s'.
Proof.
  intros Hm Ht Hs. unfold append_point. rewrite Hm, Ht, Hs.
  destruct (put_subtopic_some o cm ct cs
              (mkSubtopic (sub_title s) (points s ++ [p])) m t Hm Ht)
    as (o' & Hp & m' & Hm' & t' & Ht' & Hs').
  exists o'. split; [exact Hp|]. eauto 8.
Qed.

(** The module a topic or subtopic line writes under: the active one, or
    the default module just created. *)
Lemma ensure_module_valid st o cm :
  valid_cursors st -> ensure_module st = (o, cm) ->
  is_empty cm = false
  /\ exists m, get cm o = Some m
       /\ (falsy (current_topic st) = false ->
           valid_topic m (current_topic st) (current_subtopic st)).
Proof.
  unfold valid_cursors, ensure_module. intros Hv.
  destruct (current_module st) as [k|] eqn:Ecm; simpl.
  - destruct Hv as (Hk & m & Hm & Ht). rewrite Hk.
    intros [= <- <-]. split; [exact Hk|]. exists m. split; auto.
  - intros [= <- <-]. split; [reflexivity|].
    eexists. split; [apply get_set_same|]. rewrite Hv. discriminate.
Qed.

Lemma ensure_topic_valid st o cm number_part m :
  get cm o = Some m ->
  (falsy (current_topic st) = false ->
   valid_topic m (current_topic st) (current_subtopic st)) ->
  exists o1 ct, ensure_topic st o cm number_part = Some (o1, ct)
    /\ is_empty ct = false
    /\ exists m1, get cm o1 = Some m1 /\ exists t1, get ct (topics m1) = Some t1.
Proof.
  intros Hm Hold. unfold ensure_topic.
  destruct (falsy (current_topic st)) eqn:Eft.
  - destruct (put_topic_some o cm
                ("Topic " ++ split_head "." number_part ++ ".1")%string
                (mkTopic "Main Topic" []) m Hm) as (o1 & Hp & m1 & Hm1 & Ht1).
    rewrite Hp. exists o1. eexists. split; [reflexivity|].
    split; [reflexivity|eauto].
  - specialize (Hold eq_refl). unfold valid_topic in Hold.
    destruct (current_topic st) as [k|]; [|discriminate].
    destruct Hold as (Hk & t & Ht & _).
    exists o, k. simpl. split; [reflexivity|]. split; [exact Hk|eauto].
Qed.

(** A step from a state with valid cursors raises no [KeyError] and leaves
    the cursors valid. *)
Lemma step_total st num_dots number_part title_part :
  valid_cursors st ->
  exists st', step st num_dots number_part title_part = Some st'
              /\ valid_cursors st'.
Proof.
  intros Hv. unfold step.
  destruct ((num_dots =? 0) && isdigit number_part).
  { eexists; split; [reflexivity|apply valid_open_module]. }
  destruct (num_dots =? 1).
  { destruct (ensure_module st) as [o cm] eqn:Eo.
    destruct (ensure_module_valid st o cm Hv Eo) as (Hcm & m & Hm & _).
    destruct (put_topic_some o cm ("Topic " ++ number_part)%string
                (mkTopic (strip title_part) []) m Hm)
      as (o' & Hp & m' & Hm' & Ht').
    rewrite Hp. eexists; split; [reflexivity|].
    unfold valid_cursors; simpl. split; [exact Hcm|].
    exists m'. split; [exact Hm'|]. split; [reflexivity|].
    eexists; split; [exact Ht'|exact I]. }
  destruct (num_dots =? 2).
  { destruct (ensure_module st) as [o cm] eqn:Eo.
    destruct (ensure_module_valid st o cm Hv Eo) as (Hcm & m & Hm & Hold).
    destruct (ensure_topic_valid st o cm number_part m Hm Hold)
      as (o1 & ct & Hstep & Hct & m1 & Hm1 & t1 & Ht1).
    rewrite Hstep.
    destruct (put_subtopic_some o1 cm ct ("Subtopic " ++ number_part)%string
                (mkSubtopic (strip title_part) []) m1 t1 Hm1 Ht1)
      as (o2 & Hp & m2 & Hm2 & t2 & Ht2 & Hs2).
    rewrite Hp. eexists; split; [reflexivity|].
    unfold valid_cursors; simpl. split; [exact Hcm|].
    exists m2. split; [exact Hm2|]. split; [exact Hct|].
    exists t2. split; [exact Ht2|]. simpl. eauto. }
  destruct (num_dots =? 3).
  { destruct (falsy (current_module st) || falsy (current_topic st)
              || falsy (current_subtopic st)) eqn:Ef.
    { eexists; split; [reflexivity|exact Hv]. }
    apply orb_false_iff in Ef. destruct Ef as [Ef Ecs].
    apply orb_false_iff in Ef. destruct Ef as [Ecm Ect].
    unfold valid_cursors in Hv.
    destruct (current_module st) as [cm|] eqn:E1; [|discriminate].
    destruct Hv as (Hcm & m & Hm & Ht). unfold valid_topic in Ht.
    destruct (current_topic st) as [ct|] eqn:E2; [|discriminate].
    destruct Ht as (Hct & t & Ht & Hs). unfold valid_subtopic in Hs.
    destruct (current_subtopic st) as [cs|] eqn:E3; [|discriminate].
    destruct Hs as (s & Hs). simpl.
    destruct (append_point_some (outline st) cm ct cs (strip title_part) m t s)
      as (o' & Hp & m' & Hm' & t' & Ht' & s' & Hs'); auto.
    rewrite Hp. eexists; split; [reflexivity|].
    unfold valid_cursors; simpl. split; [exact Hcm|].
    exists m'. split; [exact Hm'|]. split; [exact Hct|].
    exists t'. split; [exact Ht'|]. simpl. eauto. }
  destruct ((num_dots =? 0) && re_match_digits number_part).
  { eexists; split; [reflexivity|apply valid_open_module]. }
  eexists; split; [reflexivity|exact Hv].
Qed.

Lemma process_line_total st raw :
  valid_cursors st ->
  exists st', process_line st raw = Some st' /\ valid_cursors st'.
Proof.
  intros Hv. unfold process_line.
  destruct (tokenize raw) as [[[n np] tp]|].
  - now apply step_total.
  - eauto.
Qed.

Lemma process_lines_total lines : forall st,
  valid_cursors st ->
  exists st', process_lines st lines = Some st' /\ valid_cursors st'.
Proof.
  induction lines as [|l ls IH]; intros st Hv; simpl.
  - eauto.
  - destruct (process_line_total st l Hv) as (st1 & H1 & Hv1).
    rewrite H1. now apply IH.
Qed.

(** *** The title line *)

Lemma rstrip_by_snoc p s c :
  p c = true -> rstrip_by p (s ++ String c "") = rstrip_by p s.
Proof.
  intros Hc. induction s as [|a s IH]; simpl.
  - now rewrite Hc.
  - now rewrite IH.
Qed.

Lemma lstrip_by_snoc p s c :
  p c = true ->
  lstrip_by p (s ++ String c "")
  = if is_empty (lstrip_by p s) then "" else (lstrip_by p s ++ String c "")%string.
Proof.
  intros Hc. induction s as [|a s IH]; simpl.
  - now rewrite Hc.
  - destruct (p a); [exact IH|reflexivity].
Qed.

Lemma strip_newline s : strip (s ++ nl) = strip s.
Proof.
  unfold strip, nl. rewrite lstrip_by_snoc by reflexivity.
  destruct (lstrip_by isspace s) eqn:E; simpl is_empty; cbv iota.
  - reflexivity.
  - now rewrite rstrip_by_snoc.
Qed.

Lemma first_line_cons c r :
  Ascii.eqb c "010" = false -> first_line (String c r) = String c (first_line r).
Proof.
  intros Hc. unfold first_line, split_head. simpl. rewrite Hc.
  now destruct (split_once "010" r) as [[a b]|].
Qed.

Lemma readlines_nil text : readlines text = [] -> text = "".
Proof.
  destruct text as [|c r]; [reflexivity|]. simpl.
  destruct (Ascii.eqb c "010"); [discriminate|].
  destruct (readlines r); discriminate.
Qed.

Lemma readlines_head text : forall l ls,
  readlines text = l :: ls ->
  l = first_line text \/ l = (first_line text ++ nl)%string.
Proof.
  induction text as [|c r IH]; intros l ls; simpl; [discriminate|].
  destruct (Ascii.eqb c "010") eqn:Ec.
  - intros [= <- _]. right. apply Ascii.eqb_eq in Ec. subst c. reflexivity.
  - rewrite (first_line_cons c r Ec).
    destruct (readlines r) as [|l' ls'] eqn:Er.
    + intros [= <- _]. apply readlines_nil in Er. subst r. left. reflexivity.
    + intros [= <- _]. destruct (IH l' ls' eq_refl) as [-> | ->]; auto.
Qed.

Lemma readlines_head_strip text l ls :
  readlines text = l :: ls -> strip l = strip (first_line text).
Proof.
  intros H. destruct (readlines_head text l ls H) as [-> | ->]; auto.
  apply strip_newline.
Qed.

(** *** Claims about the parser *)

(** C1 (the code departs from the claim).  The dots of the leading token
    are counted before its trailing dot is removed, so the line
    "1. Security" has one dot and is filed as a Topic, not as a Module.  On
    the walk-through outline the parser therefore builds a synthesized
    module "Module 1" titled "Main Module" holding the two topics "Security"
    and "Basics"; the projection with max_slides = 10 still has four slides
    (one module, two topics, one subtopic), the last with content
    ["Point A"; "Point B"]. *)
Theorem scenario_trailing_dot_counts :
  tokenize "1. Security" = Some (1, "1", "Security")
  /\ spec_level "1." = 0
  /\ parse_outline Scenarios.scenario = Some (Scenarios.scenario_tree, "AI 101")
  /\ option_map (map (fun s => (Projector.title s, Projector.content s)))
       (Projector.prepare_slides_data Scenarios.scenario_tree 10)
     = Some [ ("Module 1: Main Module", ["Security"; "Basics"]);
              ("1: Security", []);
              ("1.1: Basics", ["Intro"]);
              ("Intro", ["Point A"; "Point B"]) ].
Proof. repeat split; vm_compute; reflexivity. Qed.

(** C5, as stated, fails: a first line "1 Intro" becomes the course title
    (only the prefix "1." is tested), and a blank first line makes the title
    empty (the first line is taken, not the first line that is not blank). *)
Lemma title_rule_counterexample :
  option_map snd (parse_outline Scenarios.module_first) = Some "1 Intro"
  /\ spec_course_title Scenarios.module_first = default_title
  /\ option_map snd (parse_outline Scenarios.blank_first) = Some ""
  /\ spec_course_title Scenarios.blank_first = "AI 101".
Proof. repeat split; vm_compute; reflexivity. Qed.

(** C5, amended.  The title is decided by the first line of the file alone,
    blank or not: when the file is empty or the stripped first line starts
    with "1.", the title is "Course Presentation" and every line is parsed
    as content; otherwise the stripped first line is the title and the
    remaining lines are parsed as content. *)
Theorem title_rule (text : string) :
  parse_outline text =
  let t := strip (first_line text) in
  if is_empty text || startswith t "1."
  then option_map (fun st => (outline st, default_title))
         (process_lines init (readlines text))
  else option_map (fun st => (outline st, t))
         (process_lines init (tl (readlines text))).
Proof.
  unfold parse_outline, split_title.
  destruct (readlines text) as [|l ls] eqn:E.
  - apply readlines_nil in E. subst text. reflexivity.
  - rewrite (readlines_head_strip text l ls E).
    assert (Hne : is_empty text = false).
    { destruct text; [discriminate|reflexivity]. }
    rewrite Hne, orb_false_l. cbv zeta.
    destruct (startswith (strip (first_line text)) "1."); cbn [negb tl].
    + now destruct (process_lines init (l :: ls)).
    + now destruct (process_lines init ls).
Qed.







(** C8, as stated, fails: the parser has no failure of its own.  On the
    empty file and on a file that holds only a title it returns the empty
    tree. *)
Lemma parse_empty_counterexample :
  parse_outline "" = Some ([], default_title)
  /\ parse_outline Scenarios.title_only = Some ([], "AI 101").
Proof. split; vm_compute; reflexivity. Qed.

(** C8, amended.  [parse_outline] returns a tree and a title for every
    text, the empty one included: no subscript of the loop ever fails. *)
Theorem parse_never_raises (text : string) :
  exists (o : Outline) (course_title : string),
    parse_outline text = Some (o, course_title).
Proof.
  unfold parse_outline.
  destruct (split_title (readlines text)) as [t lines].
  destruct (process_lines_total lines init valid_init) as (st & H & _).
  rewrite H. eauto.
Qed.

End ParserFacts.

(** ** The projector *)

Module ProjectorFacts.
Import PyStr PyDict Parser Projector.

Section Sequence.
Context {A : Type}.
Implicit Types (l : list (option A)) (a : list A).

Lemma sequence_app l1 l2 :
  sequence (l1 ++ l2)
  = match sequence l1 with
    | Some a => option_map (app a) (sequence l2)
    | None => None
    end.
Proof.
  induction l1 as [|[x|] l1 IH]; simpl.
  - now destruct (sequence l2).
  - rewrite IH. destruct (sequence l1); [|reflexivity].
    now destruct (sequence l2).
  - reflexivity.
Qed.

Lemma sequence_map_Some {B} (f : B -> A) (l : list B) :
  sequence (map (fun b => Some (f b)) l) = Some (map f l).
Proof. induction l as [|b l IH]; simpl; [reflexivity|now rewrite IH]. Qed.

Lemma sequence_length l a : sequence l = Some a -> length a = length l.
Proof.
  revert a. induction l as [|[x|] l IH]; simpl; intros a.
  - now intros [= <-].
  - destruct (sequence l); [|discriminate]. intros [= <-]. simpl. now rewrite (IH l0).
  - discriminate.
Qed.

Lemma sequence_firstn l a n :
  sequence l = Some a -> sequence (firstn n l) = Some (firstn n a).
Proof.
  revert a n. induction l as [|[x|] l IH]; simpl; intros a n.
  - intros [= <-]. now rewrite !firstn_nil.
  - destruct (sequence l) eqn:E; [|discriminate]. intros [= <-].
    destruct n; simpl; [reflexivity|]. now rewrite (IH l0 n eq_refl).
  - discriminate.
Qed.

End Sequence.

(** Once a slide has been emitted, the test of the cap compares the number
    of slides with [cap]. *)
Lemma reached_cap slides max_slides :
  1 <= length slides ->
  reached slides max_slides = (cap max_slides <=? length slides).
Proof.
  intros H. unfold reached, cap.
  destruct (Z.leb_spec max_slides (Z.of_nat (length slides)));
    destruct (Nat.leb_spec (Z.to_nat (Z.max 1 max_slides)) (length slides));
    auto; lia.
Qed.

Lemma cap_pos max_slides : 1 <= cap max_slides.
Proof. unfold cap. lia. Qed.

Lemma cap_of_pos max_slides : (1 <= max_slides)%Z -> cap max_slides = Z.to_nat max_slides.
Proof. unfold cap. intros H. f_equal. lia. Qed.

Lemma subtopic_loop_spec max_slides subs : forall slides,
  1 <= length slides ->
  subtopic_loop max_slides subs slides
  = slides ++ firstn (cap max_slides - length slides) (subtopic_slides subs).
Proof.
  induction subs as [|[k sd] rest IH]; intros slides Hlen; simpl.
  - now rewrite firstn_nil, app_nil_r.
  - rewrite reached_cap by exact Hlen.
    destruct (Nat.leb_spec (cap max_slides) (length slides)) as [Hc|Hc].
    + replace (cap max_slides - length slides) with 0 by lia.
      now rewrite app_nil_r.
    + rewrite reached_cap by (rewrite length_app; simpl; lia).
      rewrite length_app. simpl length.
      destruct (cap max_slides - length slides) as [|k'] eqn:Ek; [lia|].
      simpl firstn.
      destruct (Nat.leb_spec (cap max_slides) (length slides + 1)) as [Hc'|Hc'].
      * replace k' with 0 by lia. reflexivity.
      * rewrite IH by (rewrite length_app; simpl; lia).
        rewrite length_app. simpl length.
        replace (cap max_slides - (length slides + 1)) with k' by lia.
        now rewrite <- app_assoc.
Qed.

Lemma topic_loop_spec max_slides ts : forall slides,
  1 <= length slides ->
  topic_loop max_slides ts slides
  = option_map (app slides)
      (sequence (firstn (cap max_slides - length slides) (flat_map topic_block ts))).
Proof.
  induction ts as [|[topic td] rest IH]; intros slides Hlen; simpl.
  - rewrite firstn_nil. simpl. now rewrite app_nil_r.
  - rewrite reached_cap by exact Hlen.
    destruct (Nat.leb_spec (cap max_slides) (length slides)) as [Hc|Hc].
    + replace (cap max_slides - length slides) with 0 by lia.
      simpl. now rewrite app_nil_r.
    + destruct (cap max_slides - length slides) as [|k'] eqn:Ek; [lia|].
      simpl firstn.
      destruct (topic_number_of topic) as [n|]; simpl; [|reflexivity].
      rewrite reached_cap by (rewrite length_app; simpl; lia).
      rewrite length_app. simpl length.
      destruct (Nat.leb_spec (cap max_slides) (length slides + 1)) as [Hc'|Hc'].
      * replace k' with 0 by lia. reflexivity.
      * rewrite subtopic_loop_spec by (rewrite length_app; simpl; lia).
        rewrite IH by (rewrite !length_app; simpl; lia).
        rewrite !length_app, length_firstn. simpl length.
        rewrite firstn_app, sequence_app.
        fold (subtopic_slides (subtopics td)).
        change (map (fun sv => Some (subtopic_slide (snd sv))) (subtopics td))
          with (map (fun sv => Some ((fun x => subtopic_slide (snd x)) sv)) (subtopics td)).
        rewrite firstn_map.
        rewrite (sequence_map_Some (fun x => subtopic_slide (snd x))).
        rewrite length_map.
        replace (cap max_slides - (length slides + 1)) with k' by lia.
        unfold subtopic_slides. rewrite <- firstn_map, length_map.
        replace (cap max_slides
                 - (length slides + 1 + Nat.min k' (length (subtopics td))))
          with (k' - length (subtopics td)) by lia.
        destruct (sequence (firstn (k' - length (subtopics td)) (flat_map topic_block rest)));
          simpl; [|reflexivity].
        now rewrite <- !app_assoc.
Qed.

Lemma module_loop_spec max_slides ms : forall slides,
  length slides < cap max_slides ->
  module_loop max_slides ms slides
  = option_map (app slides)
      (sequence (firstn (cap max_slides - length slides) (flat_map module_block ms))).
Proof.
  induction ms as [|[module md] rest IH]; intros slides Hlen; simpl.
  - rewrite firstn_nil. simpl. now rewrite app_nil_r.
  - unfold module_block at 1. simpl fst. simpl snd.
    destruct (is_nil (topics md)); [now apply IH|].
    rewrite reached_cap by (rewrite length_app; simpl; lia).
    rewrite length_app. simpl length.
    destruct (cap max_slides - length slides) as [|k'] eqn:Ek; [lia|].
    simpl firstn. cbn [sequence].
    destruct (Nat.leb_spec (cap max_slides) (length slides + 1)) as [Hc'|Hc'].
    + replace k' with 0 by lia. reflexivity.
    + rewrite topic_loop_spec by (rewrite length_app; simpl; lia).
      rewrite length_app. simpl length.
      replace (cap max_slides - (length slides + 1)) with k' by lia.
      rewrite firstn_app, sequence_app.
      destruct (sequence (firstn k' (flat_map topic_block (topics md))))
        as [a|] eqn:Ea; simpl; [|reflexivity].
      pose proof (sequence_length _ _ Ea) as Hla. rewrite length_firstn in Hla.
      rewrite reached_cap by (rewrite !length_app; simpl; lia).
      rewrite !length_app. simpl length.
      destruct (Nat.leb_spec (cap max_slides) (length slides + 1 + length a))
        as [Hr|Hr].
      * replace (k' - length (flat_map topic_block (topics md))) with 0 by lia.
        simpl. now rewrite app_nil_r, <- app_assoc.
      * rewrite IH by (rewrite !length_app; simpl; lia).
        rewrite !length_app. simpl length.
        replace (cap max_slides - (length slides + 1 + length a))
          with (k' - length (flat_map topic_block (topics md))) by lia.
        destruct (sequence (firstn (k' - length (flat_map topic_block (topics md)))
                              (flat_map module_block rest)));
          simpl; [|reflexivity].
        now rewrite <- !app_assoc.
Qed.

(** The loops of [prepare_slides_data] compute the first [cap max_slides]
    elements of the depth-first traversal, and raise exactly when one of
    those is a topic whose key has no number. *)
Lemma prepare_slides_data_spec (o : Outline) (max_slides : Z) :
  prepare_slides_data o max_slides
  = sequence (firstn (cap max_slides) (traversal o)).
Proof.
  unfold prepare_slides_data, traversal.
  rewrite module_loop_spec by (simpl; apply cap_pos).
  simpl length. rewrite Nat.sub_0_r.
  now destruct (sequence _).
Qed.

Lemma topic_block_length kv : length (topic_block kv) = topic_size kv.
Proof. unfold topic_block, topic_size. simpl. now rewrite length_map. Qed.

Lemma flat_map_length_sum {A B} (f : A -> list B) (g : A -> nat) (l : list A) :
  (forall x, length (f x) = g x) ->
  length (flat_map f l) = list_sum (map g l).
Proof.
  intros H. induction l as [|x l IH]; simpl; [reflexivity|].
  now rewrite length_app, H, IH.
Qed.

Lemma module_block_length kv : length (module_block kv) = module_size kv.
Proof.
  unfold module_block, module_size. destruct (is_nil (topics (snd kv))); simpl.
  - reflexivity.
  - f_equal. apply flat_map_length_sum. exact topic_block_length.
Qed.

Lemma traversal_length o : length (traversal o) = slide_count o.
Proof. apply flat_map_length_sum. exact module_block_length. Qed.

Lemma count_occ_NoDup_In (l : list string) (x : string) :
  NoDup l -> In x l -> count_occ string_dec l x = 1.
Proof.
  intros Hnd Hin. apply (proj1 (NoDup_count_occ' string_dec l) Hnd x Hin).
Qed.

Lemma first_with_topics_traversal o :
  firstn 1 (traversal o)
  = match first_with_topics o with
    | Some kv => [Some (module_slide (fst kv) (snd kv))]
    | None => []
    end.
Proof.
  unfold traversal, first_with_topics.
  induction o as [|kv rest IH]; simpl; [reflexivity|].
  unfold module_block at 1.
  destruct (is_nil (topics (snd kv))); simpl; [exact IH|reflexivity].
Qed.

Lemma sequence_In {A} (l : list (option A)) (a : list A) (x : option A) :
  sequence l = Some a -> In x l -> exists y, x = Some y /\ In y a.
Proof.
  revert a. induction l as [|[z|] l IH]; simpl; intros a Hs Hin.
  - contradiction.
  - destruct (sequence l) as [a'|]; [|discriminate].
    injection Hs as <-. destruct Hin as [<-|Hin].
    + exists z. split; [reflexivity|now left].
    + destruct (IH a' eq_refl Hin) as (y & -> & Hy).
      exists y. split; [reflexivity|now right].
  - discriminate.
Qed.

Lemma module_slide_in_traversal o kv :
  In kv o -> topics (snd kv) <> [] ->
  In (Some (module_slide (fst kv) (snd kv))) (traversal o).
Proof.
  intros Hin Hne. apply in_flat_map. exists kv. split; [exact Hin|].
  unfold module_block. destruct (topics (snd kv)); [contradiction|].
  now left.
Qed.

Lemma topic_block_in_traversal o kv tv x :
  In kv o -> In tv (topics (snd kv)) -> In x (topic_block tv) ->
  In x (traversal o).
Proof.
  intros Hin Htv Hx. apply in_flat_map. exists kv. split; [exact Hin|].
  unfold module_block. destruct (topics (snd kv)) eqn:E; [contradiction|].
  simpl is_nil. cbv iota. right. apply in_flat_map. exists tv. now split.
Qed.

(** *** Claims about the projector *)

(** C3, as stated, fails: a module without topics gets no slide.  The
    outline parsed from "T / 1 A / 2 B" has two modules and projects to no
    slide at all. *)
Lemma topicless_module_counterexample :
  parse_outline Scenarios.bare_modules_text = Some (Scenarios.bare_modules, "T")
  /\ length Scenarios.bare_modules = 2
  /\ prepare_slides_data Scenarios.bare_modules 10 = Some [].
Proof. repeat split; vm_compute; reflexivity. Qed.

(** C3, amended.  Let the depth-first walk of the outline in insertion
    order be defined ([slides] is that walk: for each module that has at
    least one topic its module slide, then for each of its topics the topic
    slide followed by one slide per subtopic; nothing for a module without
    topics and nothing for a point), and let the cap be no smaller than its
    length.  Then the projection returns exactly [slides]; their number is
    one per module with topics, per topic and per subtopic; and every slide
    lists its children, one bullet per child in order: the module slide the
    titles of its topics, the topic slide the titles of its subtopics, the
    subtopic slide its points.  A child's title therefore is a bullet of its
    parent's slide, exactly once when the sibling titles are distinct. *)
Theorem projection_depth_first (o : Outline) (max_slides : Z) (slides : list Slide) :
  sequence (traversal o) = Some slides ->
  (Z.of_nat (slide_count o) <= max_slides)%Z ->
  prepare_slides_data o max_slides = Some slides
  /\ length slides = slide_count o
  /\ (forall kv tv, In kv o -> In tv (topics (snd kv)) ->
        In (module_slide (fst kv) (snd kv)) slides
        /\ content (module_slide (fst kv) (snd kv))
           = map (fun t => topic_title (snd t)) (topics (snd kv))
        /\ In (topic_title (snd tv)) (content (module_slide (fst kv) (snd kv)))
        /\ (NoDup (topic_bullets (snd kv)) ->
            count_occ string_dec (content (module_slide (fst kv) (snd kv)))
              (topic_title (snd tv)) = 1)
        /\ exists n, topic_number_of (fst tv) = Some n
             /\ In (topic_slide n (snd tv)) slides
             /\ content (topic_slide n (snd tv))
                = map (fun s => sub_title (snd s)) (subtopics (snd tv))
             /\ forall sv, In sv (subtopics (snd tv)) ->
                  In (sub_title (snd sv)) (content (topic_slide n (snd tv)))
                  /\ (NoDup (subtopic_bullets (snd tv)) ->
                      count_occ string_dec (content (topic_slide n (snd tv)))
                        (sub_title (snd sv)) = 1)
                  /\ In (subtopic_slide (snd sv)) slides
                  /\ content (subtopic_slide (snd sv)) = points (snd sv)).
Proof.
  intros Hseq Hcap.
  assert (Hlen : length slides = slide_count o).
  { rewrite (sequence_length _ _ Hseq). apply traversal_length. }
  split; [|split; [exact Hlen|]].
  - rewrite prepare_slides_data_spec.
    rewrite firstn_all2; [exact Hseq|].
    rewrite traversal_length. unfold cap. lia.
  - intros kv tv Hkv Htv.
    assert (Hne : topics (snd kv) <> []).
    { intros E. rewrite E in Htv. contradiction. }
    assert (Htitle : In (topic_title (snd tv)) (topic_bullets (snd kv))).
    { unfold topic_bullets. now apply (in_map (fun t => topic_title (snd t))). }
    split.
    { destruct (sequence_In _ _ _ Hseq (module_slide_in_traversal o kv Hkv Hne))
        as (y & [= <-] & Hy). exact Hy. }
    split; [reflexivity|]. split; [exact Htitle|].
    split; [intros Hnd; now apply count_occ_NoDup_In|].
    assert (Ht : In (option_map (fun n => topic_slide n (snd tv))
                       (topic_number_of (fst tv))) (traversal o)).
    { apply (topic_block_in_traversal o kv tv _ Hkv Htv). now left. }
    destruct (sequence_In _ _ _ Hseq Ht) as (y & Ey & Hy).
    destruct (topic_number_of (fst tv)) as [n|]; [|discriminate].
    injection Ey as <-. exists n. split; [reflexivity|].
    split; [exact Hy|]. split; [reflexivity|].
    intros sv Hsv.
    assert (Hst : In (sub_title (snd sv)) (subtopic_bullets (snd tv))).
    { unfold subtopic_bullets. now apply (in_map (fun s => sub_title (snd s))). }
    split; [exact Hst|].
    split; [intros Hnd; now apply count_occ_NoDup_In|].
    split; [|reflexivity].
    assert (Hs : In (Some (subtopic_slide (snd sv))) (traversal o)).
    { apply (topic_block_in_traversal o kv tv _ Hkv Htv). right.
      now apply (in_map (fun s => Some (subtopic_slide (snd s)))). }
    destruct (sequence_In _ _ _ Hseq Hs) as (y & [= <-] & Hy'). exact Hy'.
Qed.

(** The walk-through tree, projected without meeting the cap. *)
Lemma projection_depth_first_witness :
  prepare_slides_data Scenarios.scenario_tree 10
  = Some [ module_slide "Module 1"
             (mkModule "Main Module"
                [ ("Topic 1", mkTopic "Security" []);
                  ("Topic 1.1",
                   mkTopic "Basics"
                     [("Subtopic 1.1.1", mkSubtopic "Intro" ["Point A"; "Point B"])]) ]);
           topic_slide "1" (mkTopic "Security" []);
           topic_slide "1.1"
             (mkTopic "Basics"
                [("Subtopic 1.1.1", mkSubtopic "Intro" ["Point A"; "Point B"])]);
           subtopic_slide (mkSubtopic "Intro" ["Point A"; "Point B"]) ].
Proof.
  refine (proj1 (projection_depth_first Scenarios.scenario_tree 10 _ eq_refl _)).
  vm_compute. discriminate.
Defined.

(** C4, as stated, fails in its last part: with max_slides = 1 a
    multi-module outline whose modules have no topics yields no slide, not
    the first module's slide. *)
Lemma cap_one_counterexample :
  length Scenarios.bare_modules = 2
  /\ prepare_slides_data Scenarios.bare_modules 1 = Some [].
Proof. split; vm_compute; reflexivity. Qed.

(** C4, amended.  For max_slides >= 1 the projection is the first
    max_slides slides of the depth-first walk, cut wherever the cap falls
    (it raises only when one of those is a topic whose key has no number);
    so it never returns more than max_slides slides.  With max_slides = 1 it
    returns just the module slide of the first module that has a topic, and
    no topic or subtopic slide; it returns nothing when no module has a
    topic. *)
Theorem cap_is_hard (o : Outline) (max_slides : Z) :
  (1 <= max_slides)%Z ->
  prepare_slides_data o max_slides
  = sequence (firstn (Z.to_nat max_slides) (traversal o))
  /\ (forall slides, prepare_slides_data o max_slides = Some slides ->
        (Z.of_nat (length slides) <= max_slides)%Z)
  /\ prepare_slides_data o 1
     = Some match first_with_topics o with
            | Some kv => [module_slide (fst kv) (snd kv)]
            | None => []
            end.
Proof.
  intros Hmax. split; [|split].
  - rewrite prepare_slides_data_spec. now rewrite cap_of_pos.
  - intros slides H. rewrite prepare_slides_data_spec, cap_of_pos in H by exact Hmax.
    apply sequence_length in H. rewrite length_firstn in H. lia.
  - rewrite prepare_slides_data_spec. change (cap 1) with 1.
    rewrite first_with_topics_traversal.
    now destruct (first_with_topics o).
Qed.

(** The walk-through tree under a cap of one slide. *)
Lemma cap_is_hard_witness :
  prepare_slides_data Scenarios.scenario_tree 1
  = Some [ module_slide "Module 1"
             (mkModule "Main Module"
                [ ("Topic 1", mkTopic "Security" []);
                  ("Topic 1.1",
                   mkTopic "Basics"
                     [("Subtopic 1.1.1", mkSubtopic "Intro" ["Point A"; "Point B"])]) ]) ].
Proof.
  exact (proj2 (proj2 (cap_is_hard Scenarios.scenario_tree 1 (Z.le_refl 1)))).
Defined.

End ProjectorFacts.

(** ** Title-slide notes *)

Module CorrelatorFacts.
Import PyStr PyDict PyDictFacts Correlator.

Lemma first_variant_skip pre rest notes :
  (forall k, In k pre -> get k notes = None) ->
  first_variant (pre ++ rest) notes = first_variant rest notes.
Proof.
  induction pre as [|k pre IH]; intros H; simpl; [reflexivity|].
  rewrite (H k (or_introl eq_refl)). apply IH. intros k' Hk'. apply H. now right.
Qed.

Lemma first_variant_none variants notes :
  (forall k, In k variants -> get k notes = None) ->
  first_variant variants notes = None.
Proof.
  intros H. rewrite <- (app_nil_r variants). now rewrite first_variant_skip.
Qed.

Lemma heuristic_scan_skip pre rest :
  (forall kv, In kv pre -> looks_like_title (fst kv) = false) ->
  heuristic_scan (pre ++ rest) = heuristic_scan rest.
Proof.
  induction pre as [|[k v] pre IH]; intros H; simpl; [reflexivity|].
  pose proof (H (k, v) (or_introl eq_refl)) as Hk. simpl in Hk. rewrite Hk.
  apply IH. intros kv Hkv. apply H. now right.
Qed.

Lemma heuristic_scan_none notes :
  (forall kv, In kv notes -> looks_like_title (fst kv) = false) ->
  heuristic_scan notes = None.
Proof.
  intros H. rewrite <- (app_nil_r notes). now rewrite heuristic_scan_skip.
Qed.

Lemma get_some_not_nil {V} k (d : dict V) v : get k d = Some v -> PyDict.is_nil d = false.
Proof. destruct d; [discriminate|reflexivity]. Qed.

Lemma exact_match_none shape_texts k (v : string) :
  ~ In k shape_texts -> exact_match shape_texts [(k, v)] = None.
Proof.
  induction shape_texts as [|t r IH]; intros Hn; simpl; [reflexivity|].
  unfold mem. simpl.
  destruct (String.eqb k t) eqn:E.
  - apply String.eqb_eq in E. subst. exfalso. apply Hn. now left.
  - rewrite andb_false_r. apply IH. intros Hin. apply Hn. now right.
Qed.

(** C2, as stated, fails for [create_title_slide]: it has no rule for a map
    with a single entry.  With the only key "Intro", which is none of the
    variants for the course "AI 101" and does not look like a title, the
    notes are the synthesized welcome text, not the entry's. *)
Lemma single_entry_counterexample :
  length Scenarios.one_note = 1
  /\ first_variant (course_variants "AI 101") Scenarios.one_note = None
  /\ title_slide_notes Scenarios.one_note "AI 101" = fallback_notes "AI 101"
  /\ title_slide_notes Scenarios.one_note "AI 101" <> "notes".
Proof. repeat split; vm_compute; try reflexivity; discriminate. Qed.

(** C2, amended.  [create_title_slide] resolves the notes of the title
    slide, the first hit winning, by: the first key, in the order of
    [course_variants] (the title itself, "Course: <title>",
    "Course: Cisco AI Defense", "Title: <title>", "Title Slide" and, when the
    title contains " Fundamentals", the title without it and its "Course: "
    form), that is in the map; then the first key in the order of the map
    that starts with "course:" or contains "title", case ignored; then the
    synthesized welcome text.  It has no single-entry rule.  That rule is
    in the single-slide path of [add_speaker_notes_to_presentation]: when no
    text of the slide and no fallback title is the key of a one-entry map
    and its note is not empty, that note is returned. *)
Theorem title_lookup_ladder (notes : Notes) (course_name : string) :
  (forall pre key post v,
      course_variants course_name = pre ++ key :: post ->
      (forall k, In k pre -> get k notes = None) ->
      get key notes = Some v ->
      title_slide_notes notes course_name = v)
  /\ ((forall k, In k (course_variants course_name) -> get k notes = None) ->
      (forall pre key v post,
         notes = pre ++ (key, v) :: post ->
         (forall kv, In kv pre -> looks_like_title (fst kv) = false) ->
         looks_like_title key = true ->
         title_slide_notes notes course_name = v)
      /\ ((forall kv, In kv notes -> looks_like_title (fst kv) = false) ->
          title_slide_notes notes course_name = fallback_notes course_name))
  /\ (forall k v shape_texts fallback_title,
        notes = [(k, v)] ->
        ~ In k shape_texts -> fallback_title <> Some k -> v <> "" ->
        single_slide_notes shape_texts fallback_title notes = Some v).
Proof.
  split; [|split].
  - intros pre key post v Hvar Hpre Hget. unfold title_slide_notes.
    rewrite (get_some_not_nil key notes v Hget), Hvar.
    rewrite first_variant_skip by exact Hpre. simpl. now rewrite Hget.
  - intros Hmiss. split.
    + intros pre key v post -> Hpre Hlook. unfold title_slide_notes.
      rewrite (first_variant_none _ _ Hmiss).
      rewrite heuristic_scan_skip by exact Hpre. simpl. rewrite Hlook.
      now destruct pre.
    + intros Hnone. unfold title_slide_notes.
      rewrite (first_variant_none _ _ Hmiss), (heuristic_scan_none _ Hnone).
      now destruct (PyDict.is_nil notes).
  - intros k v shape_texts fallback_title -> Hshape Hfb Hv.
    unfold single_slide_notes. rewrite (exact_match_none _ _ _ Hshape).
    assert (Hmem : (truthy fallback_title
                    && mem (Parser.cursor_key fallback_title) [(k, v)]) = false).
    { destruct fallback_title as [f|]; [|reflexivity].
      unfold mem. simpl get. destruct (String.eqb k f) eqn:E.
      - apply String.eqb_eq in E. subst. now contradiction Hfb.
      - apply andb_false_r. }
    simpl. simpl in Hmem. rewrite Hmem. simpl.
    destruct v; [contradiction|reflexivity].
Qed.

(** The one-entry map of the counterexample, on both paths. *)
Lemma title_lookup_ladder_witness :
  title_slide_notes Scenarios.one_note "AI 101" = fallback_notes "AI 101"
  /\ single_slide_notes ["AI 101"] (Some "Course: AI 101") Scenarios.one_note
     = Some "notes".
Proof.
  split.
  - refine (proj2 (proj1 (proj2 (title_lookup_ladder Scenarios.one_note "AI 101")) _) _).
    + intros k Hk. vm_compute in Hk.
      repeat (destruct Hk as [<-|Hk]; [reflexivity|]). contradiction.
    + intros kv Hkv. destruct Hkv as [<-|[]]. reflexivity.
  - refine (proj2 (proj2 (title_lookup_ladder Scenarios.one_note "AI 101"))
              "Intro" "notes" ["AI 101"] (Some "Course: AI 101") eq_refl _ _ _).
    + intros [H|[]]. discriminate.
    + discriminate.
    + discriminate.
Defined.

End CorrelatorFacts.

(** ** Prompt responses and the prompt cache *)

Module ImageGenFacts.
Import PyStr PyDict ImageGen ParserFacts.

Lemma rstrip_by_idem p s : rstrip_by p (rstrip_by p s) = rstrip_by p s.
Proof.
  induction s as [|c r IH]; simpl; [reflexivity|].
  destruct (p c && is_empty (rstrip_by p r)) eqn:E; simpl; [reflexivity|].
  now rewrite IH, E.
Qed.

Lemma lstrip_by_rstrip_by p s :
  lstrip_by p (rstrip_by p (lstrip_by p s)) = rstrip_by p (lstrip_by p s).
Proof.
  induction s as [|c r IH]; simpl; [reflexivity|].
  destruct (p c) eqn:E; [exact IH|].
  simpl. rewrite E. simpl. now rewrite E.
Qed.

Lemma strip_idem s : strip (strip s) = strip s.
Proof. unfold strip. now rewrite lstrip_by_rstrip_by, rstrip_by_idem. Qed.

Lemma strip_leading_newline s : strip (nl ++ s) = strip s.
Proof. reflexivity. Qed.

Lemma take_app s t : take (String.length s) (s ++ t) = s.
Proof. induction s as [|c r IH]; simpl; [now destruct t|now rewrite IH]. Qed.

Lemma length_snoc_nl s : String.length (s ++ nl) = String.length s + 1.
Proof. induction s as [|c r IH]; simpl; [reflexivity|now rewrite IH]. Qed.

Lemma append_assoc (a b c : string) : ((a ++ b) ++ c = a ++ (b ++ c))%string.
Proof. induction a as [|x a IH]; simpl; [reflexivity|now rewrite IH]. Qed.

(** A fence cannot run over a newline. *)
Lemma prefix_fence_before_nl j t :
  prefixb fence (j ++ nl ++ t) = prefixb fence j.
Proof.
  unfold fence, nl.
  destruct j as [|a [|b [|c r]]]; cbn [prefixb append];
    repeat (match goal with
            | |- context [Ascii.eqb "`" ?y] =>
                is_var y; destruct (Ascii.eqb "`" y)
            end; cbn [andb]); reflexivity.
Qed.

Lemma prefix_fence_open s :
  prefixb fence_open s = true -> prefixb fence s = true.
Proof.
  unfold fence_open, fence.
  destruct s as [|a [|b [|c r]]]; cbn [prefixb];
    repeat (match goal with
            | |- context [Ascii.eqb "`" ?y] =>
                is_var y; destruct (Ascii.eqb "`" y)
            end; cbn [andb]); intros H; try reflexivity; try exact H.
Qed.

Lemma find_cons p c r :
  find p (String c r)
  = if prefixb p (String c r) then Some 0 else option_map S (find p r).
Proof. reflexivity. Qed.

Lemma find_fence_open_none j : find fence j = None -> find fence_open j = None.
Proof.
  induction j as [|c r IH].
  - reflexivity.
  - rewrite !find_cons.
    destruct (prefixb fence (String c r)) eqn:E; [discriminate|].
    destruct (prefixb fence_open (String c r)) eqn:E'.
    + apply prefix_fence_open in E'. congruence.
    + destruct (find fence r); [discriminate|]. now rewrite IH.
Qed.

Lemma find_closing_fence j :
  find fence j = None ->
  find fence (j ++ nl ++ fence) = Some (String.length j + 1).
Proof.
  induction j as [|c r IH].
  - reflexivity.
  - intros H.
    change (String c r ++ nl ++ fence)%string
      with (String c (r ++ nl ++ fence)) at 1.
    rewrite find_cons in *.
    change (String c (r ++ nl ++ fence)) with (String c r ++ nl ++ fence)%string.
    rewrite prefix_fence_before_nl.
    destruct (prefixb fence (String c r)); [discriminate|].
    destruct (find fence r); [discriminate|].
    now rewrite IH.
Qed.

(** The text between the fences is the response itself, up to blanks. *)
Lemma unfence_fenced j :
  find fence j = None -> unfence (fenced j) = strip j.
Proof.
  intros H. unfold unfence, fenced.
  change (find fence_open (fence_open ++ nl ++ j ++ nl ++ fence)) with (Some 0).
  cbv iota beta zeta.
  change (drop (0 + 7) (fence_open ++ nl ++ j ++ nl ++ fence))
    with (String "010" (j ++ nl ++ fence)).
  rewrite find_cons.
  change (prefixb fence (String "010" (j ++ nl ++ fence))) with false.
  cbv iota.
  rewrite (find_closing_fence j H). cbn [option_map].
  replace (0 + 7 <? 0 + 7 + S (String.length j + 1)) with true
    by (symmetry; apply Nat.ltb_lt; lia).
  replace (0 + 7 + S (String.length j + 1) - (0 + 7))
    with (String.length (nl ++ j ++ nl))
    by (cbn [String.length append nl]; rewrite length_snoc_nl; lia).
  replace (String "010" (j ++ nl ++ fence)) with ((nl ++ j ++ nl) ++ fence)%string
    by (cbn [append nl]; now rewrite append_assoc).
  rewrite take_app, strip_leading_newline. apply strip_newline.
Qed.

Lemma unfence_plain j : find fence j = None -> unfence j = j.
Proof. intros H. unfold unfence. now rewrite (find_fence_open_none j H). Qed.

Lemma clean_fenced j :
  find fence j = None ->
  clean_json_response (fenced j) = clean_json_response j.
Proof.
  intros H. unfold clean_json_response.
  now rewrite (unfence_fenced j H), (unfence_plain j H), strip_idem.
Qed.

(** C7, as stated, fails: the closing fence is looked for from the opening
    one, so a JSON object that holds a triple backquote is cut at it.  The
    object with the single value "```" is handed to the decoder whole when
    unwrapped and cut short when fenced; for any decoder that, like
    [json.loads], rejects the cut text and decodes the whole one, the two
    maps differ. *)
Lemma fenced_backquote_counterexample :
  clean_json_response Scenarios.backquote_json = Scenarios.backquote_json
  /\ clean_json_response (fenced Scenarios.backquote_json)
     = Scenarios.backquote_json_cut
  /\ (forall json_loads,
        json_loads Scenarios.backquote_json_cut = None ->
        json_loads Scenarios.backquote_json = Some [("a", "```")] ->
        parse_prompts json_loads ["a"] (fenced Scenarios.backquote_json)
        <> parse_prompts json_loads ["a"] Scenarios.backquote_json).
Proof.
  assert (H1 : clean_json_response Scenarios.backquote_json
               = Scenarios.backquote_json) by (vm_compute; reflexivity).
  assert (H2 : clean_json_response (fenced Scenarios.backquote_json)
               = Scenarios.backquote_json_cut) by (vm_compute; reflexivity).
  split; [exact H1|]. split; [exact H2|].
  intros json_loads Hcut Hwhole. unfold parse_prompts.
  rewrite H1, H2, Hcut, Hwhole. vm_compute. discriminate.
Qed.

(** C7, amended.  For every response text [j] that holds no triple
    backquote, the fenced response and the bare one are cleaned to the same
    text, so whatever the decoder does with it, the prompt map and the notes
    map are the same for both. *)
Theorem fenced_parses_like_plain
    (json_loads : string -> option (dict string))
    (Other : Type) (has_len : Other -> bool)
    (json_loads_notes : string -> Loaded Other)
    (titles : list string) (slides_info : list (string * string)) (j : string) :
  contains fence j = false ->
  clean_json_response (fenced j) = clean_json_response j
  /\ parse_prompts json_loads titles (fenced j) = parse_prompts json_loads titles j
  /\ parse_notes Other has_len json_loads_notes slides_info (fenced j)
     = parse_notes Other has_len json_loads_notes slides_info j.
Proof.
  intros H. unfold contains in H.
  destruct (find fence j) eqn:E; [discriminate|].
  unfold parse_prompts, parse_notes. now rewrite (clean_fenced j E).
Qed.

(** A response without backquotes, fenced and bare. *)
Lemma fenced_parses_like_plain_witness :
  clean_json_response (fenced Scenarios.plain_json)
  = clean_json_response Scenarios.plain_json.
Proof.
  exact (proj1 (fenced_parses_like_plain Scenarios.no_decoder
                  unit (fun _ => true) (fun _ => JSONDecodeError) [] []
                  Scenarios.plain_json eq_refl)).
Defined.

(** C10.  [get_enhanced_prompt] never looks at the content of the slide:
    for one title and one state of the prompt cache, any two contents give
    the same prompt, which is the cached prompt of the title when there is
    one and the fallback built from the title alone otherwise.  So two
    slides with equal titles get the same prompt from the image batch,
    whatever their bullets. *)
Theorem prompt_depends_on_title_only
    (prompt_cache : dict string) (slide_title c1 c2 : string) :
  get_enhanced_prompt prompt_cache slide_title c1
  = get_enhanced_prompt prompt_cache slide_title c2
  /\ get_enhanced_prompt prompt_cache slide_title c1
     = match get slide_title prompt_cache with
       | Some prompt => prompt
       | None => create_fallback_prompt slide_title
       end
  /\ (forall s1 s2 : Projector.Slide,
        Projector.title s1 = Projector.title s2 ->
        slide_prompt prompt_cache s1 = slide_prompt prompt_cache s2).
Proof.
  split; [reflexivity|]. split.
  - unfold get_enhanced_prompt, mem.
    now destruct (get slide_title prompt_cache).
  - intros s1 s2 H. unfold slide_prompt, get_enhanced_prompt. now rewrite H.
Qed.

(** Two slides titled "Summary" with different bullets, on an empty cache. *)
Lemma prompt_depends_on_title_only_witness :
  slide_prompt [] (Projector.subtopic_slide (Parser.mkSubtopic "Summary" ["a"]))
  = slide_prompt [] (Projector.subtopic_slide (Parser.mkSubtopic "Summary" ["b"; "c"])).
Proof.
  exact (proj2 (proj2 (prompt_depends_on_title_only [] "Summary" "" ""))
           (Projector.subtopic_slide (Parser.mkSubtopic "Summary" ["a"]))
           (Projector.subtopic_slide (Parser.mkSubtopic "Summary" ["b"; "c"]))
           eq_refl).
Defined.

End ImageGenFacts.

(** ** Artifact file names *)

Module ArtifactsFacts.
Import PyStr Artifacts.

Lemma slide_eqb_refl s : slide_eqb s s = true.
Proof.
  unfold slide_eqb. rewrite String.eqb_refl.
  now destruct (list_eq_dec string_dec (snd s) (snd s)).
Qed.

(** The snapshot of the first slide always sorts before the snapshot of the
    title slide: after the common "00" the digit "1" is below the
    underscore. *)
Lemma first_snapshot_before_title slide rest :
  String.ltb (snapshot_filename (slide :: rest) slide) title_snapshot_filename
  = true.
Proof.
  unfold snapshot_filename. simpl index_of. rewrite slide_eqb_refl.
  reflexivity.
Qed.

(** C9 (the code departs from the claim).  The title snapshot is named
    with the two-digit prefix "00_" and the slides with three digits, so the
    sorted file names do not start with the title slide: with one slide
    titled "A", sorting gives "001_snapshot_A.png" and then
    "00_snapshot_title_slide.png", and for every list of slides the first
    slide's snapshot is below the title's.  Besides, the fixed two-digit
    width of the image names puts the image of slide 100 before that of
    slide 11. *)
Theorem title_snapshot_sorts_late :
  snapshot_filenames true Scenarios.one_slide
  = ["00_snapshot_title_slide.png"; "001_snapshot_A.png"]
  /\ sorted (snapshot_filenames true Scenarios.one_slide)
     = ["001_snapshot_A.png"; "00_snapshot_title_slide.png"]
  /\ (forall slide rest,
        String.ltb (snapshot_filename (slide :: rest) slide)
          title_snapshot_filename = true)
  /\ image_filename 100 = "100_slide.png"
  /\ String.ltb (image_filename 100) (image_filename 11) = true.
Proof.
  split; [vm_compute; reflexivity|]. split; [vm_compute; reflexivity|].
  split; [exact first_snapshot_before_title|].
  split; vm_compute; reflexivity.
Qed.

End ArtifactsFacts.

(** ** More about the parser and the projector *)

Module ShapeFacts.
Import PyStr PyDict PyDictFacts Parser Projector Shape ParserFacts ProjectorFacts.

Section DictShape.
Context {V : Type}.
Implicit Types (d : dict V) (k : string) (v : V).

Lemma keys_set d k v :
  keys (set k v d) = if mem k d then keys d else keys d ++ [k].
Proof.
  unfold mem. induction d as [|[k' v'] r IH]; simpl; [reflexivity|].
  destruct (String.eqb k' k) eqn:E; simpl; [reflexivity|].
  rewrite IH. now destruct (get k r).
Qed.

Lemma get_none_not_in d k : get k d = None -> ~ In k (keys d).
Proof.
  induction d as [|[k' v'] r IH]; simpl; [tauto|].
  destruct (String.eqb k' k) eqn:E; [discriminate|].
  apply String.eqb_neq in E. intros H [H1|H1]; [contradiction|]. now apply IH.
Qed.

Lemma unique_set d k v : NoDup (keys d) -> NoDup (keys (set k v d)).
Proof.
  intros H. rewrite keys_set. unfold mem.
  destruct (get k d) eqn:E; [exact H|].
  apply NoDup_app; [exact H|repeat constructor; tauto|].
  intros x Hx [<-|[]]. now apply (get_none_not_in d k E).
Qed.

Lemma Forall_set (P : string * V -> Prop) d k v :
  Forall P d -> P (k, v) -> Forall P (set k v d).
Proof.
  intros Hd Hv. induction d as [|[k' v'] r IH]; simpl.
  - now constructor.
  - inversion Hd; subst.
    destruct (String.eqb k' k) eqn:E.
    + apply String.eqb_eq in E. subst. now constructor.
    + constructor; auto.
Qed.

Lemma get_Forall (P : string * V -> Prop) d k v :
  Forall P d -> get k d = Some v -> P (k, v).
Proof.
  intros Hd. induction d as [|[k' v'] r IH]; simpl; [discriminate|].
  inversion Hd; subst.
  destruct (String.eqb k' k) eqn:E.
  - apply String.eqb_eq in E. subst. now intros [= <-].
  - now apply IH.
Qed.

End DictShape.

(** *** Unique keys *)

Lemma unique_put_topic o cm key t o' :
  unique_keys o -> unique_topic t ->
  put_topic o cm key t = Some o' -> unique_keys o'.
Proof.
  intros [Hk Hm] Ht. unfold put_topic.
  destruct (get cm o) as [m|] eqn:E; [|discriminate]. intros [= <-].
  split; [now apply unique_set|].
  apply Forall_set; [exact Hm|]. simpl.
  destruct (get_Forall _ _ _ _ Hm E) as [Hkm Htm].
  split; [now apply unique_set|].
  apply Forall_set; [exact Htm|exact Ht].
Qed.

Lemma unique_put_subtopic o cm ct key s o' :
  unique_keys o -> put_subtopic o cm ct key s = Some o' -> unique_keys o'.
Proof.
  intros Ho. unfold put_subtopic.
  destruct (get cm o) as [m|] eqn:E; [|discriminate].
  destruct (get ct (topics m)) as [t|] eqn:Et; [|discriminate].
  apply unique_put_topic; [exact Ho|].
  destruct Ho as [_ Hm]. destruct (get_Forall _ _ _ _ Hm E) as [_ Htm].
  pose proof (get_Forall _ _ _ _ Htm Et) as Hs. simpl in Hs.
  unfold unique_topic. simpl. now apply unique_set.
Qed.

Lemma unique_append_point o cm ct cs p o' :
  unique_keys o -> append_point o cm ct cs p = Some o' -> unique_keys o'.
Proof.
  intros Ho. unfold append_point.
  destruct (get cm o) as [m|]; [|discriminate].
  destruct (get ct (topics m)) as [t|]; [|discriminate].
  destruct (get cs (subtopics t)) as [s|]; [|discriminate].
  now apply unique_put_subtopic.
Qed.

Lemma unique_new_module o key title :
  unique_keys o -> unique_keys (set key (mkModule title []) o).
Proof.
  intros [Hk Hm]. split; [now apply unique_set|].
  apply Forall_set; [exact Hm|]. split; constructor.
Qed.

Lemma unique_ensure_module st o cm :
  unique_keys (outline st) -> ensure_module st = (o, cm) -> unique_keys o.
Proof.
  unfold ensure_module. intros H.
  destruct (falsy (current_module st)); intros [= <- <-]; [|exact H].
  now apply unique_new_module.
Qed.

Lemma unique_step st n np tp st' :
  unique_keys (outline st) -> step st n np tp = Some st' ->
  unique_keys (outline st').
Proof.
  intros H. unfold step.
  destruct ((n =? 0) && isdigit np).
  { intros [= <-]. now apply unique_new_module. }
  destruct (n =? 1).
  { destruct (ensure_module st) as [o cm] eqn:Eo.
    pose proof (unique_ensure_module st o cm H Eo) as Ho.
    destruct (put_topic o cm _ _) as [o'|] eqn:Ep; [|discriminate].
    intros [= <-]. simpl.
    apply (unique_put_topic _ _ _ _ _ Ho) in Ep; [exact Ep|constructor]. }
  destruct (n =? 2).
  { destruct (ensure_module st) as [o cm] eqn:Eo.
    pose proof (unique_ensure_module st o cm H Eo) as Ho.
    destruct (ensure_topic st o cm np) as [[o1 ct]|] eqn:Et; [|discriminate].
    assert (H1 : unique_keys o1).
    { unfold ensure_topic in Et. destruct (falsy (current_topic st)).
      - destruct (put_topic o cm _ _) as [o1'|] eqn:Ep; [|discriminate].
        injection Et as <- <-.
        apply (unique_put_topic _ _ _ _ _ Ho) in Ep; [exact Ep|constructor].
      - now injection Et as <- <-. }
    destruct (put_subtopic o1 cm ct _ _) as [o2|] eqn:Ep; [|discriminate].
    intros [= <-]. simpl. now apply (unique_put_subtopic _ _ _ _ _ _ H1 Ep). }
  destruct (n =? 3).
  { destruct (falsy (current_module st) || falsy (current_topic st)
              || falsy (current_subtopic st)).
    { now intros [= <-]. }
    destruct (append_point _ _ _ _ _) as [o'|] eqn:Ep; [|discriminate].
    intros [= <-]. simpl. now apply (unique_append_point _ _ _ _ _ _ H Ep). }
  destruct ((n =? 0) && re_match_digits np).
  { intros [= <-]. now apply unique_new_module. }
  now intros [= <-].
Qed.

Lemma unique_process_lines lines : forall st st',
  unique_keys (outline st) -> process_lines st lines = Some st' ->
  unique_keys (outline st').
Proof.
  induction lines as [|l ls IH]; intros st st' H; simpl.
  - now intros [= <-].
  - unfold process_line.
    destruct (tokenize l) as [[[n np] tp]|].
    + destruct (step st n np tp) as [st1|] eqn:E; [|discriminate].
      apply IH. now apply (unique_step _ _ _ _ _ H E).
    + now apply IH.
Qed.

(** X1.  In every tree the parser returns, no module key occurs twice, no
    topic key occurs twice within a module and no subtopic key occurs twice
    within a topic: a number seen again overwrites, it never duplicates. *)
Theorem parsed_keys_unique (text : string) (o : Outline) (course_title : string) :
  parse_outline text = Some (o, course_title) -> unique_keys o.
Proof.
  unfold parse_outline.
  destruct (split_title (readlines text)) as [t lines].
  destruct (process_lines init lines) as [st|] eqn:E; [|discriminate].
  intros [= <- _].
  apply (unique_process_lines lines init st); [|exact E].
  split; constructor.
Qed.

(** The file with the module line "1 A" twice. *)
Lemma parsed_keys_unique_witness :
  unique_keys [("Module 1", mkModule "B" [])].
Proof.
  exact (parsed_keys_unique Examples.repeated_module
           [("Module 1", mkModule "B" [])] "T" eq_refl).
Defined.

(** X2.  A module line whose number is already a key keeps the order of
    the modules and replaces that module by an empty one: the topics filed
    under the number so far are dropped, and the topic and subtopic cursors
    are cleared. *)
Theorem repeated_module_restarts (st : State) (raw number title : string) :
  tokenize raw = Some (0, number, title) ->
  isdigit number = true ->
  mem ("Module " ++ number)%string (outline st) = true ->
  exists st',
    process_line st raw = Some st'
    /\ keys (outline st') = keys (outline st)
    /\ get ("Module " ++ number)%string (outline st')
       = Some (mkModule (strip title) [])
    /\ current_module st' = Some ("Module " ++ number)%string
    /\ current_topic st' = None /\ current_subtopic st' = None.
Proof.
  intros Htok Hd Hmem. unfold process_line. rewrite Htok.
  unfold step. simpl. rewrite Hd. eexists. split; [reflexivity|].
  unfold open_module. cbn [outline current_module current_topic current_subtopic].
  rewrite keys_set. change (String "M" (String "o" (String "d" (String "u"
    (String "l" (String "e" (String " " number)))))))
    with ("Module " ++ number)%string.
  rewrite Hmem. repeat split. apply get_set_same.
Qed.

(** The second "1 B" of the example, after "1 A" and "1.1 X". *)
Lemma repeated_module_restarts_witness :
  exists st',
    process_line
      (mkState [("Module 1", mkModule "A" [("Topic 1.1", mkTopic "X" [])])]
         (Some "Module 1") (Some "Topic 1.1") None) "1 B" = Some st'
    /\ keys (outline st') = ["Module 1"]
    /\ get "Module 1" (outline st') = Some (mkModule "B" [])
    /\ current_module st' = Some "Module 1"
    /\ current_topic st' = None /\ current_subtopic st' = None.
Proof.
  exact (repeated_module_restarts
           (mkState [("Module 1", mkModule "A" [("Topic 1.1", mkTopic "X" [])])]
              (Some "Module 1") (Some "Topic 1.1") None)
           "1 B" "1" "B" eq_refl eq_refl eq_refl).
Defined.

(** *** Keys that carry their number *)

Lemma split_ws_space c s : isspace c = true -> split_ws (String c s) = split_ws s.
Proof.
  intros H. unfold split_ws. simpl. rewrite H.
  now destruct (split_ws_aux s) as [[w|] d].
Qed.

Lemma split_ws_word c s : isspace c = false -> split_ws (String c s) <> [].
Proof.
  intros H. unfold split_ws. simpl. rewrite H.
  destruct (split_ws_aux s) as [[w|] d]; discriminate.
Qed.

Lemma has_word_split_ws s : has_word s = true -> split_ws s <> [].
Proof.
  unfold has_word. induction s as [|c r IH]; simpl; [discriminate|].
  destruct (isspace c) eqn:E; simpl.
  - intros H. rewrite (split_ws_space c r E). now apply IH.
  - intros _. now apply split_ws_word.
Qed.

Lemma split_ws_after_word (w s : string) :
  forallb_string (fun c => negb (isspace c)) w = true -> is_empty w = false ->
  split_ws (w ++ String " " s) = w :: split_ws s.
Proof.
  intros Hw Hne.
  assert (H : split_ws_aux (w ++ String " " s) = (Some w, split_ws s)).
  { induction w as [|c r IH]; [discriminate|].
    simpl in Hw. apply andb_true_iff in Hw. destruct Hw as [Hc Hr].
    apply negb_true_iff in Hc.
    change ((String c r ++ String " " s)%string)
      with (String c (r ++ String " " s)).
    cbn [split_ws_aux]. rewrite Hc.
    destruct r as [|c' r'].
    - change (("" ++ String " " s)%string) with (String " " s).
      cbn [split_ws_aux]. change (isspace " ") with true. cbv iota.
      unfold split_ws. now destruct (split_ws_aux s) as [[w|] d].
    - now rewrite (IH Hr eq_refl). }
  unfold split_ws at 1. now rewrite H.
Qed.

Lemma second_word_prefixed (w s : string) :
  forallb_string (fun c => negb (isspace c)) w = true -> is_empty w = false ->
  has_word s = true -> SlideInfo.second_word (w ++ String " " s) <> None.
Proof.
  intros Hw Hne Hs. unfold SlideInfo.second_word.
  rewrite (split_ws_after_word w s Hw Hne). simpl.
  pose proof (has_word_split_ws s Hs). now destruct (split_ws s).
Qed.

Lemma module_key_numbered s :
  has_word s = true -> SlideInfo.second_word ("Module " ++ s)%string <> None.
Proof. now apply (second_word_prefixed "Module" s). Qed.

Lemma topic_key_numbered s :
  has_word s = true -> SlideInfo.second_word ("Topic " ++ s)%string <> None.
Proof. now apply (second_word_prefixed "Topic" s). Qed.

Lemma digit_not_space c : isdigit_char c = true -> isspace c = false.
Proof. destruct c as [[] [] [] [] [] [] [] []]; vm_compute; congruence. Qed.

Lemma decimal_not_space c : isdecimal_char c = true -> isspace c = false.
Proof. destruct c as [[] [] [] [] [] [] [] []]; vm_compute; congruence. Qed.

Lemma isdigit_has_word s : isdigit s = true -> has_word s = true.
Proof.
  unfold isdigit, has_word. destruct s as [|c r]; [discriminate|]. simpl.
  intros H. apply andb_true_iff in H. destruct H as [Hc _].
  now rewrite (digit_not_space c Hc).
Qed.

Lemma rstrip_by_head p c r c' r' :
  rstrip_by p (String c r) = String c' r' -> c' = c.
Proof.
  simpl. destruct (p c && is_empty (rstrip_by p r)); [discriminate|].
  now intros [= <- _].
Qed.

Lemma lstrip_by_head p s c r : lstrip_by p s = String c r -> p c = false.
Proof.
  induction s as [|a s IH]; simpl; [discriminate|].
  destruct (p a) eqn:E; [exact IH|]. now intros [= <- _].
Qed.

Lemma re_match_digits_has_word s : re_match_digits s = true -> has_word s = true.
Proof.
  unfold re_match_digits, has_word. intros H.
  apply andb_true_iff in H. destruct H as [H _].
  apply andb_true_iff in H. destruct H as [Hne Hd].
  destruct s as [|c r]; [discriminate|].
  destruct (rstrip_by (fun c0 => Ascii.eqb c0 "010") (String c r)) as [|c' r'] eqn:E;
    [discriminate|].
  apply rstrip_by_head in E. subst c'.
  simpl in Hd. apply andb_true_iff in Hd. destruct Hd as [Hc _].
  simpl. now rewrite (decimal_not_space c Hc).
Qed.

Lemma has_word_snoc x : has_word (x ++ ".1") = true.
Proof.
  unfold has_word. induction x as [|c r IH]; [reflexivity|].
  simpl. apply negb_true_iff. apply negb_true_iff in IH. rewrite IH.
  apply andb_false_r.
Qed.

(** The number part of a tokenized line is empty or begins with a character
    that is not whitespace. *)
Lemma tokenize_number_part raw n np tp :
  tokenize raw = Some (n, np, tp) -> np = "" \/ has_word np = true.
Proof.
  unfold tokenize, strip.
  destruct (lstrip_by isspace raw) as [|c r] eqn:El; [discriminate|].
  pose proof (lstrip_by_head _ _ _ _ El) as Hc.
  destruct (rstrip_by isspace (String c r)) as [|c' r'] eqn:Er; [discriminate|].
  apply rstrip_by_head in Er. subst c'.
  cbn [is_empty split_once].
  destruct (Ascii.eqb c " ") eqn:Esp.
  { apply Ascii.eqb_eq in Esp. subst c. discriminate. }
  destruct (split_once " " r') as [[a b]|]; [|discriminate].
  intros [= _ <- _]. unfold rstrip_dot.
  destruct (rstrip_by is_dot (String c a)) as [|c' a'] eqn:E; [now left|].
  apply rstrip_by_head in E. subst c'. right.
  unfold has_word. simpl. now rewrite Hc.
Qed.

Lemma numbered_put_topic o cm key t o' :
  numbered o -> SlideInfo.second_word key <> None ->
  put_topic o cm key t = Some o' -> numbered o'.
Proof.
  intros Ho Hkey. unfold put_topic.
  destruct (get cm o) as [m|] eqn:E; [|discriminate]. intros [= <-].
  destruct (get_Forall _ _ _ _ Ho E) as [Hcm Hts].
  apply Forall_set; [exact Ho|]. split; [exact Hcm|].
  simpl. now apply Forall_set.
Qed.

Lemma numbered_put_subtopic o cm ct key s o' :
  numbered o -> put_subtopic o cm ct key s = Some o' -> numbered o'.
Proof.
  intros Ho. unfold put_subtopic.
  destruct (get cm o) as [m|] eqn:E; [|discriminate].
  destruct (get ct (topics m)) as [t|] eqn:Et; [|discriminate].
  apply numbered_put_topic; [exact Ho|].
  destruct (get_Forall _ _ _ _ Ho E) as [_ Hts].
  exact (get_Forall _ _ _ _ Hts Et).
Qed.

Lemma numbered_append_point o cm ct cs p o' :
  numbered o -> append_point o cm ct cs p = Some o' -> numbered o'.
Proof.
  intros Ho. unfold append_point.
  destruct (get cm o) as [m|]; [|discriminate].
  destruct (get ct (topics m)) as [t|]; [|discriminate].
  destruct (get cs (subtopics t)) as [s|]; [|discriminate].
  now apply numbered_put_subtopic.
Qed.

Lemma numbered_new_module o key title :
  numbered o -> SlideInfo.second_word key <> None ->
  numbered (set key (mkModule title []) o).
Proof.
  intros Ho Hk. apply Forall_set; [exact Ho|]. split; [exact Hk|constructor].
Qed.

Lemma numbered_ensure_module st o cm :
  numbered (outline st) -> ensure_module st = (o, cm) -> numbered o.
Proof.
  unfold ensure_module. intros H.
  destruct (falsy (current_module st)); intros [= <- <-]; [|exact H].
  apply numbered_new_module; [exact H|]. vm_compute. discriminate.
Qed.

Lemma numbered_step st n np tp st' :
  numbered (outline st) ->
  (n = 1 -> has_word np = true) ->
  step st n np tp = Some st' -> numbered (outline st').
Proof.
  intros H Hnp. unfold step.
  destruct ((n =? 0) && isdigit np) eqn:E0.
  { intros [= <-]. apply andb_true_iff in E0. destruct E0 as [_ Hd].
    apply numbered_new_module; [exact H|].
    apply module_key_numbered. now apply isdigit_has_word. }
  destruct (n =? 1) eqn:E1.
  { apply Nat.eqb_eq in E1.
    destruct (ensure_module st) as [o cm] eqn:Eo.
    pose proof (numbered_ensure_module st o cm H Eo) as Ho.
    destruct (put_topic o cm _ _) as [o'|] eqn:Ep; [|discriminate].
    intros [= <-]. simpl.
    apply (numbered_put_topic _ _ _ _ _ Ho) in Ep; [exact Ep|].
    apply topic_key_numbered. now apply Hnp. }
  destruct (n =? 2).
  { destruct (ensure_module st) as [o cm] eqn:Eo.
    pose proof (numbered_ensure_module st o cm H Eo) as Ho.
    destruct (ensure_topic st o cm np) as [[o1 ct]|] eqn:Et; [|discriminate].
    assert (H1 : numbered o1).
    { unfold ensure_topic in Et. destruct (falsy (current_topic st)).
      - destruct (put_topic o cm _ _) as [o1'|] eqn:Ep; [|discriminate].
        injection Et as <- <-.
        apply (numbered_put_topic _ _ _ _ _ Ho) in Ep; [exact Ep|].
        apply topic_key_numbered. apply has_word_snoc.
      - now injection Et as <- <-. }
    destruct (put_subtopic o1 cm ct _ _) as [o2|] eqn:Ep; [|discriminate].
    intros [= <-]. simpl. now apply (numbered_put_subtopic _ _ _ _ _ _ H1 Ep). }
  destruct (n =? 3).
  { destruct (falsy (current_module st) || falsy (current_topic st)
              || falsy (current_subtopic st)).
    { now intros [= <-]. }
    destruct (append_point _ _ _ _ _) as [o'|] eqn:Ep; [|discriminate].
    intros [= <-]. simpl. now apply (numbered_append_point _ _ _ _ _ _ H Ep). }
  destruct ((n =? 0) && re_match_digits np) eqn:E4.
  { intros [= <-]. apply andb_true_iff in E4. destruct E4 as [_ Hd].
    apply numbered_new_module; [exact H|].
    apply module_key_numbered. now apply re_match_digits_has_word. }
  now intros [= <-].
Qed.

Lemma numbered_process_lines lines : forall st st',
  (forall l, In l lines -> ~ lone_dot l) ->
  numbered (outline st) -> process_lines st lines = Some st' ->
  numbered (outline st').
Proof.
  induction lines as [|l ls IH]; intros st st' Hl H; simpl.
  - now intros [= <-].
  - unfold process_line.
    destruct (tokenize l) as [[[n np] tp]|] eqn:Et.
    + destruct (step st n np tp) as [st1|] eqn:E; [|discriminate].
      apply IH; [intros l' Hl'; apply Hl; now right|].
      apply (numbered_step _ _ _ _ _ H) in E; [exact E|].
      intros ->. destruct (tokenize_number_part _ _ _ _ Et) as [->|Hw]; [|exact Hw].
      exfalso. apply (Hl l (or_introl eq_refl)). now exists tp.
    + apply IH; [intros l' Hl'; apply Hl; now right|exact H].
Qed.

Lemma split_title_lines lines l :
  In l (snd (split_title lines)) -> In l lines.
Proof.
  unfold split_title. destruct lines as [|a r]; [tauto|].
  destruct (negb (startswith (strip a) "1.")); simpl; tauto.
Qed.

(** Whatever the file, a tree parsed from lines without a lone dot has all
    its module and topic keys numbered. *)
Lemma parsed_numbered text o course_title :
  (forall l, In l (readlines text) -> ~ lone_dot l) ->
  parse_outline text = Some (o, course_title) -> numbered o.
Proof.
  intros Hl. unfold parse_outline.
  pose proof (split_title_lines (readlines text)) as Hsub.
  destruct (split_title (readlines text)) as [t lines]. simpl in Hsub.
  destruct (process_lines init lines) as [st|] eqn:E; [|discriminate].
  intros [= <- _].
  apply (numbered_process_lines lines init st); [|constructor|exact E].
  intros l Hin. apply Hl. now apply Hsub.
Qed.

Lemma sequence_all_some {A} (l : list (option A)) :
  (forall x, In x l -> x <> None) -> exists a, sequence l = Some a.
Proof.
  induction l as [|[x|] l IH]; intros H; simpl.
  - eauto.
  - destruct IH as [a Ha]; [intros y Hy; apply H; now right|].
    rewrite Ha. eauto.
  - exfalso. now apply (H None (or_introl eq_refl)).
Qed.

Lemma numbered_traversal o :
  numbered o -> exists slides, sequence (traversal o) = Some slides.
Proof.
  intros Ho. apply sequence_all_some. intros x Hx.
  unfold traversal in Hx. apply in_flat_map in Hx. destruct Hx as (kv & Hkv & Hx).
  unfold numbered in Ho. rewrite Forall_forall in Ho.
  destruct (Ho kv Hkv) as [_ Hts]. rewrite Forall_forall in Hts.
  unfold module_block in Hx. destruct (is_nil (topics (snd kv))); [contradiction|].
  destruct Hx as [<-|Hx]; [discriminate|].
  apply in_flat_map in Hx. destruct Hx as (tv & Htv & Hx).
  unfold topic_block in Hx. destruct Hx as [<-|Hx].
  - pose proof (Hts tv Htv) as Hn. unfold SlideInfo.second_word in Hn.
    unfold topic_number_of. now destruct (nth_error (split_ws (fst tv)) 1).
  - apply in_map_iff in Hx. destruct Hx as (sv & <- & _). discriminate.
Qed.

(** X3.  When no line of the file has a lone dot as its leading token, the
    file parses to a tree that the projector accepts under every cap: the
    only way for [prepare_slides_data] to raise on a parsed outline is a
    topic line numbered with nothing but a dot. *)
Theorem projection_of_parsed_total (text : string) :
  (forall l, In l (readlines text) -> ~ lone_dot l) ->
  exists o course_title,
    parse_outline text = Some (o, course_title)
    /\ forall max_slides, exists slides,
         prepare_slides_data o max_slides = Some slides.
Proof.
  intros Hl.
  assert (Hp : exists o t, parse_outline text = Some (o, t)).
  { unfold parse_outline.
    destruct (split_title (readlines text)) as [t lines].
    destruct (process_lines_total lines init valid_init) as (st & H & _).
    rewrite H. eauto. }
  destruct Hp as (o & t & Hp).
  exists o, t. split; [exact Hp|]. intros max_slides.
  destruct (numbered_traversal o (parsed_numbered text o t Hl Hp)) as [slides Hs].
  exists (firstn (cap max_slides) slides).
  rewrite prepare_slides_data_spec. now apply sequence_firstn.
Qed.

(** A small outline without a lone dot. *)
Lemma projection_of_parsed_total_witness :
  exists o course_title,
    parse_outline Examples.small_text = Some (o, course_title)
    /\ forall max_slides, exists slides,
         prepare_slides_data o max_slides = Some slides.
Proof.
  apply projection_of_parsed_total.
  intros l Hl [tp Ht]. vm_compute in Hl.
  repeat (destruct Hl as [<-|Hl]; [vm_compute in Ht; discriminate|]).
  contradiction.
Defined.

(** X4.  When the projection returns, the number of its slides is the
    smaller of the cap (at least one) and the size of the whole walk: one
    slide per module with topics, per topic and per subtopic. *)
Theorem projection_length (o : Outline) (max_slides : Z) (slides : list Slide) :
  prepare_slides_data o max_slides = Some slides ->
  length slides = Nat.min (cap max_slides) (slide_count o).
Proof.
  rewrite prepare_slides_data_spec. intros H.
  apply sequence_length in H.
  now rewrite H, length_firstn, traversal_length.
Qed.

Lemma projection_length_witness :
  length [ module_slide "Module 1"
             (mkModule "A"
                [("Topic 1.1", mkTopic "X" [("Subtopic 1.1.1", mkSubtopic "S" ["p"])])]);
           topic_slide "1.1" (mkTopic "X" [("Subtopic 1.1.1", mkSubtopic "S" ["p"])]) ]
  = Nat.min (cap 2) (slide_count Examples.small_tree).
Proof.
  exact (projection_length Examples.small_tree 2 _ eq_refl).
Defined.

(** X5.  Raising the cap only appends slides: for caps m1 <= m2, when the
    projection under m2 returns, the projection under m1 returns its first
    slides (as many as the cap m1 lets through, one at least). *)
Theorem projection_prefix (o : Outline) (m1 m2 : Z) (slides2 : list Slide) :
  (m1 <= m2)%Z ->
  prepare_slides_data o m2 = Some slides2 ->
  prepare_slides_data o m1 = Some (firstn (cap m1) slides2).
Proof.
  intros Hle. rewrite !prepare_slides_data_spec. intros H.
  replace (firstn (cap m1) (traversal o))
    with (firstn (cap m1) (firstn (cap m2) (traversal o))).
  - now apply sequence_firstn.
  - rewrite firstn_firstn. f_equal. unfold cap. lia.
Qed.

Lemma projection_prefix_witness :
  prepare_slides_data Examples.small_tree 1
  = Some (firstn (cap 1)
            [ module_slide "Module 1"
                (mkModule "A"
                   [("Topic 1.1", mkTopic "X" [("Subtopic 1.1.1", mkSubtopic "S" ["p"])])]);
              topic_slide "1.1" (mkTopic "X" [("Subtopic 1.1.1", mkSubtopic "S" ["p"])]) ]).
Proof.
  refine (projection_prefix Examples.small_tree 1 2 _ _ eq_refl).
  vm_compute. discriminate.
Defined.

End ShapeFacts.

(** ** The slide lists of the prompt and notes batches *)

Module SlideInfoFacts.
Import PyStr PyDict Parser Shape SlideInfo ShapeFacts.

Lemma limit_all {A} (l : list A) : limit (Z.of_nat (length l)) l = l.
Proof. unfold limit. rewrite Z.ltb_irrefl. now rewrite andb_false_r. Qed.

Lemma limit_zero {A} (l : list A) : limit 0 l = l.
Proof. reflexivity. Qed.

(** X6.  The outline that [generate_slide_images_parallel] builds from the
    projected slides and hands to the prompt batch is read back by
    [extract_slide_info] as exactly one entry per slide, in order, with the
    slide's own title and its bullets joined by newlines; the cap it passes,
    the number of slides, cuts nothing. *)
Theorem simplified_outline_round_trip (slides_data : list Projector.Slide) :
  extract_slide_info (simplified_outline slides_data)
    (Z.of_nat (length slides_data))
  = map (fun s => mkInfo (Projector.title s) (join_lines (Projector.content s)))
      slides_data.
Proof.
  unfold extract_slide_info, simplified_outline. simpl flat_map.
  rewrite app_nil_r, map_map.
  assert (H : map (fun x => simple_topic_info
                              (mkSimpleTopic (Projector.title x)
                                 [ContentList (Projector.content x)])) slides_data
              = map (fun s => mkInfo (Projector.title s)
                                (join_lines (Projector.content s))) slides_data).
  { apply map_ext. intros s. unfold simple_topic_info, all_content. simpl.
    now rewrite app_nil_r. }
  rewrite H. rewrite <- (length_map (fun s => mkInfo (Projector.title s)
                                        (join_lines (Projector.content s)))).
  apply limit_all.
Qed.

Lemma notes_topics_legacy ts : forall acc r acc',
  notes_topics ts acc = Some r ->
  exists body, r = acc ++ body
               /\ legacy_topics ts acc' = acc' ++ map forget_type body.
Proof.
  induction ts as [|[topic td] rest IH]; intros acc r acc'; simpl.
  - intros [= <-]. exists []. simpl. now rewrite !app_nil_r.
  - destruct (second_word topic) as [n|]; [|discriminate].
    intros H.
    destruct (IH _ _ (acc' ++ topic_info n td :: subtopic_infos td) H)
      as (body & -> & Hl).
    exists (note_of "topic" (topic_info n td)
            :: map (note_of "subtopic") (subtopic_infos td) ++ body).
    split; [now rewrite <- app_assoc|].
    rewrite Hl, <- app_assoc. f_equal. simpl. f_equal.
    rewrite map_app, map_map. f_equal.
    rewrite <- (map_id (subtopic_infos td)) at 1.
    apply map_ext. now intros [t c].
Qed.

Lemma notes_modules_legacy o : forall acc r acc',
  notes_modules o acc = Some r ->
  exists body, r = acc ++ body
               /\ fold_left legacy_module o acc' = acc' ++ map forget_type body.
Proof.
  induction o as [|[module md] rest IH]; intros acc r acc'; simpl.
  - intros [= <-]. exists []. simpl. now rewrite !app_nil_r.
  - unfold legacy_module at 2. simpl fst. simpl snd.
    destruct (second_word module) as [n|]; [|discriminate].
    destruct (notes_topics (topics md) (acc ++ [note_of "module" (module_info n md)]))
      as [r1|] eqn:E1; [|discriminate].
    destruct (notes_topics_legacy _ _ _ (acc' ++ [module_info n md]) E1)
      as (b1 & -> & Hl1).
    intros H. rewrite Hl1.
    destruct (IH _ _ ((acc' ++ [module_info n md]) ++ map forget_type b1) H)
      as (b2 & -> & Hl2).
    exists (note_of "module" (module_info n md) :: b1 ++ b2).
    split; [now rewrite <- !app_assoc|].
    rewrite Hl2, <- !app_assoc. simpl. now rewrite map_app.
Qed.

(** X7.  Whenever [generate_slides_info_from_outline] returns, its list is
    the title entry (when a directory is set) followed by the same titles
    and contents, in the same order, that [extract_slide_info] reads from
    the same tree without a cap: the notes batch and the prompt batch of a
    parsed outline name their slides alike. *)
Theorem notes_batch_matches_prompt_batch
    (course_name : option string) (o : Outline) (infos : list NoteInfo) :
  generate_slides_info_from_outline course_name o = Some infos ->
  exists body,
    infos = title_note course_name ++ body
    /\ extract_slide_info (Legacy o) 0 = map forget_type body.
Proof.
  unfold generate_slides_info_from_outline. intros H.
  destruct (notes_modules_legacy o _ _ [] H) as (body & -> & Hl).
  exists body. split; [reflexivity|].
  unfold extract_slide_info. now rewrite limit_zero.
Qed.

Lemma notes_batch_matches_prompt_batch_witness :
  exists body,
    [ mkNoteInfo "Course: C" "Welcome to this comprehensive course on C" "title";
      mkNoteInfo "1: A" "X" "module";
      mkNoteInfo "1.1: X" "S" "topic";
      mkNoteInfo "S" "p" "subtopic" ]
    = title_note (Some "C") ++ body
    /\ extract_slide_info (Legacy Examples.small_tree) 0 = map forget_type body.
Proof.
  exact (notes_batch_matches_prompt_batch (Some "C") Examples.small_tree _ eq_refl).
Defined.


Lemma is_word_has_word n : is_word n = true -> has_word n = true.
Proof.
  unfold is_word, has_word. destruct n as [|c r]; [discriminate|].
  simpl. intros H. apply andb_true_iff in H. destruct H as [Hc _].
  apply negb_true_iff in Hc. now rewrite Hc.
Qed.


Lemma length_append (a b : string) :
  String.length (a ++ b) = String.length a + String.length b.
Proof. induction a as [|c a IH]; simpl; [reflexivity|now rewrite IH]. Qed.



Lemma notes_topics_total ts : forall acc,
  Forall (fun tv => second_word (fst tv) <> None) ts ->
  exists r, notes_topics ts acc = Some r
            /\ length r = length acc + list_sum (map Projector.topic_size ts).
Proof.
  induction ts as [|[topic td] rest IH]; intros acc H; simpl.
  - exists acc. split; [reflexivity|lia].
  - inversion H as [|? ? Hk Hrest]; subst. simpl in Hk.
    destruct (second_word topic) as [n|]; [|contradiction].
    destruct (IH (acc ++ note_of "topic" (topic_info n td)
                        :: map (note_of "subtopic") (subtopic_infos td)) Hrest)
      as (r & Hr & Hlen).
    exists r. split; [exact Hr|]. rewrite Hlen, length_app. simpl.
    unfold subtopic_infos, Projector.topic_size. rewrite !length_map. simpl. lia.
Qed.

Lemma notes_modules_total o : forall acc,
  numbered o ->
  exists r, notes_modules o acc = Some r
            /\ length r = length acc + full_count o.
Proof.
  induction o as [|[module md] rest IH]; intros acc H; simpl.
  - exists acc. split; [reflexivity|]. unfold full_count. simpl. lia.
  - inversion H as [|? ? [Hk Hts] Hrest]; subst. simpl in Hk, Hts.
    destruct (second_word module) as [n|]; [|contradiction].
    destruct (notes_topics_total (topics md)
                (acc ++ [note_of "module" (module_info n md)]) Hts)
      as (r1 & Hr1 & Hlen1).
    rewrite Hr1.
    destruct (IH r1 Hrest) as (r & Hr & Hlen).
    exists r. split; [exact Hr|]. rewrite Hlen, Hlen1, length_app.
    unfold full_count. simpl. lia.
Qed.

(** X9.  When no line of the file has a lone dot as its leading token,
    [generate_slides_info_from_outline] returns on the parsed tree, and its
    list has the title entry, if any, and then one entry for every module,
    with or without topics, every topic and every subtopic. *)
Theorem notes_batch_of_parsed_total (text : string) (course_name : option string) :
  (forall l, In l (readlines text) -> ~ lone_dot l) ->
  exists o course_title infos,
    parse_outline text = Some (o, course_title)
    /\ generate_slides_info_from_outline course_name o = Some infos
    /\ length infos = length (title_note course_name) + full_count o.
Proof.
  intros Hl.
  assert (Hp : exists o t, parse_outline text = Some (o, t)).
  { unfold parse_outline.
    destruct (split_title (readlines text)) as [t lines].
    destruct (ParserFacts.process_lines_total lines init ParserFacts.valid_init)
      as (st & H & _).
    rewrite H. eauto. }
  destruct Hp as (o & t & Hp).
  destruct (notes_modules_total o (title_note course_name)
              (parsed_numbered text o t Hl Hp)) as (infos & Hi & Hlen).
  exists o, t, infos. repeat split; assumption.
Qed.

Lemma notes_batch_of_parsed_total_witness :
  exists o course_title infos,
    parse_outline Examples.small_text = Some (o, course_title)
    /\ generate_slides_info_from_outline None o = Some infos
    /\ length infos = length (title_note None) + full_count o.
Proof.
  apply notes_batch_of_parsed_total.
  intros l Hl [tp Ht]. vm_compute in Hl.
  repeat (destruct Hl as [<-|Hl]; [vm_compute in Ht; discriminate|]).
  contradiction.
Defined.

End SlideInfoFacts.

(** ** File names, cleaned responses and fallback maps *)

Module ResponseFacts.
Import PyStr PyDict PyDictFacts PyDictFold ImageGen ImageGenFacts.

Lemma sub_runs_allowed s : forall b,
  forallb_string Sanitize.allowed (Sanitize.sub_runs b s) = true.
Proof.
  induction s as [|c r IH]; intros b; simpl; [reflexivity|].
  destruct (Sanitize.allowed c) eqn:E; simpl.
  - now rewrite E, IH.
  - destruct b; [apply IH|]. simpl. apply IH.
Qed.

Lemma sub_runs_length s : forall b,
  String.length (Sanitize.sub_runs b s) <= String.length s.
Proof.
  induction s as [|c r IH]; intros b; simpl; [lia|].
  destruct (Sanitize.allowed c); simpl.
  - specialize (IH false). lia.
  - destruct b; simpl; [specialize (IH true); lia|specialize (IH true); lia].
Qed.

Lemma take_forallb p n : forall s,
  forallb_string p s = true -> forallb_string p (take n s) = true.
Proof.
  induction n as [|n IH]; intros s H; [reflexivity|].
  destruct s as [|c r]; [reflexivity|]. simpl in *.
  apply andb_true_iff in H. destruct H as [Hc Hr]. now rewrite Hc, IH.
Qed.

Lemma take_length n : forall s, String.length (take n s) = Nat.min n (String.length s).
Proof.
  induction n as [|n IH]; intros s; [reflexivity|].
  destruct s as [|c r]; [reflexivity|]. simpl. now rewrite IH.
Qed.

Lemma allowed_not_slash c : Sanitize.allowed c = true -> Ascii.eqb c "/" = false.
Proof. destruct c as [[] [] [] [] [] [] [] []]; vm_compute; congruence. Qed.

Lemma forallb_string_impl (p q : ascii -> bool) s :
  (forall c, p c = true -> q c = true) ->
  forallb_string p s = true -> forallb_string q s = true.
Proof.
  intros Hpq. induction s as [|c r IH]; simpl; [reflexivity|].
  intros H. apply andb_true_iff in H. destruct H as [Hc Hr].
  now rewrite (Hpq c Hc), IH.
Qed.

Lemma forallb_string_app p a b :
  forallb_string p (a ++ b) = forallb_string p a && forallb_string p b.
Proof.
  induction a as [|c r IH]; simpl; [reflexivity|]. now rewrite IH, andb_assoc.
Qed.

Lemma sanitize_allowed name max_length :
  forallb_string Sanitize.allowed (Sanitize.sanitize_filename name max_length) = true.
Proof.
  unfold Sanitize.sanitize_filename, Sanitize.slice_to.
  destruct (max_length <? _)%Z; [|apply sub_runs_allowed].
  destruct (0 <=? max_length)%Z; apply take_forallb, sub_runs_allowed.
Qed.

(** X10.  [sanitize_filename] keeps only letters, digits, "_", "-" and ".":
    its result never holds a path separator and is never longer than the
    name; for a limit that is not negative it is never longer than the
    limit.  So the image name "slide_<title>.png" of a slide is a plain file
    name whatever the title. *)
Theorem sanitize_filename_safe (name : string) (max_length : Z) :
  (0 <= max_length)%Z ->
  let safe_name := Sanitize.sanitize_filename name max_length in
  (Z.of_nat (String.length safe_name) <= max_length)%Z
  /\ String.length safe_name <= String.length name
  /\ forallb_string Sanitize.allowed safe_name = true
  /\ forallb_string (fun c => negb (Ascii.eqb c "/"))
       (Sanitize.slide_image_filename name) = true.
Proof.
  intros Hmax. cbv zeta. split; [|split; [|split]].
  - unfold Sanitize.sanitize_filename, Sanitize.slice_to.
    destruct (Z.ltb_spec max_length
                (Z.of_nat (String.length (Sanitize.sub_runs false name)))) as [H|H];
      [|lia].
    destruct (Z.leb_spec 0 max_length); [|lia].
    rewrite take_length. lia.
  - unfold Sanitize.sanitize_filename, Sanitize.slice_to.
    pose proof (sub_runs_length name false) as Hl.
    destruct (max_length <? _)%Z; [|exact Hl].
    destruct (0 <=? max_length)%Z; rewrite take_length; lia.
  - apply sanitize_allowed.
  - unfold Sanitize.slide_image_filename.
    change ("slide_" ++ Sanitize.sanitize_filename name 30 ++ ".png")%string
      with ("slide_" ++ (Sanitize.sanitize_filename name 30 ++ ".png"))%string.
    rewrite !forallb_string_app. rewrite andb_true_iff. split; [reflexivity|].
    rewrite andb_true_iff. split; [|reflexivity].
    apply (forallb_string_impl Sanitize.allowed); [|apply sanitize_allowed].
    intros c Hc. now rewrite (allowed_not_slash c Hc).
Qed.

(** A title with a slash, cut at twelve characters. *)
Lemma sanitize_filename_safe_witness :
  (Z.of_nat (String.length (Sanitize.sanitize_filename "Module 1: A/B  (draft)" 12))
   <= 12)%Z
  /\ String.length (Sanitize.sanitize_filename "Module 1: A/B  (draft)" 12)
     <= String.length "Module 1: A/B  (draft)"
  /\ forallb_string Sanitize.allowed
       (Sanitize.sanitize_filename "Module 1: A/B  (draft)" 12) = true
  /\ forallb_string (fun c => negb (Ascii.eqb c "/"))
       (Sanitize.slide_image_filename "Module 1: A/B  (draft)") = true.
Proof.
  refine (sanitize_filename_safe "Module 1: A/B  (draft)" 12 _).
  vm_compute. discriminate.
Defined.

Lemma find_drop_prefix p s : forall i,
  find p s = Some i -> prefixb p (drop i s) = true.
Proof.
  induction s as [|c r IH]; intros i.
  - simpl. destruct (prefixb p "") eqn:E; [|discriminate].
    now intros [= <-].
  - rewrite find_cons. destruct (prefixb p (String c r)) eqn:E.
    + now intros [= <-].
    + destruct (find p r) as [i'|]; [|discriminate].
      simpl. intros [= <-]. now apply IH.
Qed.

(** X11.  Whatever the response, the text [clean_json_response] hands to
    the decoder begins with an opening brace whenever it holds one at all:
    anything in front of the first brace has been cut away. *)
Theorem cleaned_starts_at_brace (response : string) :
  startswith (clean_json_response response) "{" = true
  \/ contains "{" (clean_json_response response) = false.
Proof.
  unfold clean_json_response, from_brace.
  destruct (startswith (strip (unfence response)) "{") eqn:E; [now left|].
  unfold contains.
  destruct (find "{" (strip (unfence response))) as [i|] eqn:Ef.
  - left. unfold startswith. now apply find_drop_prefix.
  - right. now rewrite Ef.
Qed.

Section FoldSet.
Context {A : Type} (key : A -> string) (val : A -> string).

Lemma fold_set_untouched l : forall d t,
  (forall x, In x l -> key x <> t) ->
  get t (fold_set key val l d) = get t d.
Proof.
  induction l as [|x l IH]; intros d t H; [reflexivity|].
  unfold fold_set in *. cbn [fold_left].
  rewrite IH by (intros y Hy; apply H; now right).
  apply get_set_other. apply H. now left.
Qed.

Lemma fold_set_last pre x post d :
  (forall y, In y post -> key y <> key x) ->
  get (key x) (fold_set key val (pre ++ x :: post) d) = Some (val x).
Proof.
  intros H. unfold fold_set. rewrite fold_left_app. cbn [fold_left].
  fold (fold_set key val post (set (key x) (val x) (fold_left
         (fun d0 x0 => set (key x0) (val x0) d0) pre d))).
  rewrite fold_set_untouched by exact H. apply get_set_same.
Qed.

End FoldSet.

Lemma fallback_cache_get titles t :
  get t (fallback_cache titles)
  = if in_dec string_dec t titles then Some (create_fallback_prompt t) else None.
Proof.
  unfold fallback_cache.
  change (fold_left (fun d t0 => set t0 (create_fallback_prompt t0) d) titles [])
    with (fold_set (fun x => x) create_fallback_prompt titles []).
  destruct (in_dec string_dec t titles) as [Hin|Hnin].
  - assert (Hsplit : exists pre post, titles = pre ++ t :: post /\ ~ In t post).
    { clear -Hin. induction titles as [|x l IH]; [contradiction|].
      destruct (in_dec string_dec t l) as [Hl|Hl].
      - destruct (IH Hl) as (pre & post & -> & Hn).
        exists (x :: pre), post. now split.
      - destruct Hin as [->|Hin]; [|contradiction].
        exists [], l. now split. }
    destruct Hsplit as (pre & post & -> & Hn).
    apply (fold_set_last (fun x => x) create_fallback_prompt pre t post []).
    intros y Hy ->. contradiction.
  - rewrite fold_set_untouched; [reflexivity|].
    intros x Hx ->. contradiction.
Qed.

(** X12.  When the decoder rejects the cleaned response, the prompt cache
    is the fallback cache: it holds a prompt for every title of the batch,
    and [get_enhanced_prompt] then answers the templated fallback prompt for
    every title, in the batch or not. *)
Theorem undecodable_response_gives_fallbacks
    (json_loads : string -> option (dict string))
    (titles : list string) (response : string) :
  json_loads (clean_json_response response) = None ->
  (forall t, In t titles -> mem t (parse_prompts json_loads titles response) = true)
  /\ (forall t c,
        get_enhanced_prompt (parse_prompts json_loads titles response) t c
        = create_fallback_prompt t).
Proof.
  intros H. unfold parse_prompts. rewrite H. split.
  - intros t Hin. unfold mem. rewrite fallback_cache_get.
    now destruct (in_dec string_dec t titles).
  - intros t c. unfold get_enhanced_prompt, mem. rewrite fallback_cache_get.
    now destruct (in_dec string_dec t titles).
Qed.

Lemma undecodable_response_gives_fallbacks_witness :
  get_enhanced_prompt
    (parse_prompts Scenarios.no_decoder ["A"; "B"] "no json here") "B" "bullets"
  = create_fallback_prompt "B".
Proof.
  exact (proj2 (undecodable_response_gives_fallbacks Scenarios.no_decoder
                  ["A"; "B"] "no json here" eq_refl) "B" "bullets").
Defined.

(** X13.  When [json.loads] raises [JSONDecodeError] on the cleaned
    response, the notes of a title are the template of the type of the last
    slide that carries the title: slides that share a title share one note,
    the later slide's.  When it raises anything else, or returns a value
    that has no length, the outer handler writes the simple note instead,
    whatever the type of the slide. *)
Theorem fallback_notes_last_wins
    (Other : Type) (has_len : Other -> bool) (json_loads : string -> Loaded Other)
    (pre post : list (string * string)) (slide_title slide_type response : string) :
  (forall si, In si post -> fst si <> slide_title) ->
  let slides_info := pre ++ (slide_title, slide_type) :: post in
  (json_loads (clean_json_response response) = JSONDecodeError ->
   exists slide_notes,
     parse_notes Other has_len json_loads slides_info response
     = NotesDict slide_notes
     /\ SpeakerNotes.get_speaker_notes slide_notes slide_title
        = fallback_note slide_title slide_type)
  /\ ((json_loads (clean_json_response response) = OtherException
       \/ exists v, json_loads (clean_json_response response) = Value v
                    /\ has_len v = false) ->
      exists slide_notes,
        parse_notes Other has_len json_loads slides_info response
        = NotesDict slide_notes
        /\ SpeakerNotes.get_speaker_notes slide_notes slide_title
           = simple_note slide_title).
Proof.
  intros Hpost slides_info. split.
  - intros H. unfold parse_notes. rewrite H.
    eexists. split; [reflexivity|].
    unfold SpeakerNotes.get_speaker_notes, fallback_notes_dict, slides_info.
    change (fold_left (fun d si => set (fst si) (fallback_note (fst si) (snd si)) d)
              (pre ++ (slide_title, slide_type) :: post) [])
      with (fold_set fst (fun si => fallback_note (fst si) (snd si))
              (pre ++ (slide_title, slide_type) :: post) []).
    pose proof (fold_set_last fst (fun si => fallback_note (fst si) (snd si))
                  pre (slide_title, slide_type) post [] Hpost) as Hl.
    cbn [fst snd] in Hl. now rewrite Hl.
  - intros H.
    assert (Hp : parse_notes Other has_len json_loads slides_info response
                 = NotesDict (simple_notes_dict slides_info)).
    { unfold parse_notes. destruct H as [H|(v & H & Hv)]; rewrite H.
      - reflexivity.
      - now rewrite Hv. }
    rewrite Hp. eexists. split; [reflexivity|].
    unfold SpeakerNotes.get_speaker_notes, simple_notes_dict, slides_info.
    change (fold_left (fun d si => set (fst si) (simple_note (fst si)) d)
              (pre ++ (slide_title, slide_type) :: post) [])
      with (fold_set fst (fun si : string * string => simple_note (fst si))
              (pre ++ (slide_title, slide_type) :: post) []).
    pose proof (fold_set_last fst (fun si : string * string => simple_note (fst si))
                  pre (slide_title, slide_type) post [] Hpost) as Hl.
    cbn [fst snd] in Hl. now rewrite Hl.
Qed.

(** Two slides titled "Overview", a module and a subtopic: after a
    [JSONDecodeError] the note is the subtopic's, and after a value without
    a length, as a number is, the simple one. *)
Lemma fallback_notes_last_wins_witness :
  (exists slide_notes,
     parse_notes nat (fun _ => false) (fun _ => JSONDecodeError)
       [("Overview", "module"); ("Overview", "subtopic")] "oops"
     = NotesDict slide_notes
     /\ SpeakerNotes.get_speaker_notes slide_notes "Overview"
        = fallback_note "Overview" "subtopic")
  /\ (exists slide_notes,
        parse_notes nat (fun _ => false) (fun _ => Value 5)
          [("Overview", "module"); ("Overview", "subtopic")] "5"
        = NotesDict slide_notes
        /\ SpeakerNotes.get_speaker_notes slide_notes "Overview"
           = simple_note "Overview").
Proof.
  split.
  - refine (proj1 (fallback_notes_last_wins nat (fun _ => false)
                     (fun _ => JSONDecodeError) [("Overview", "module")] []
                     "Overview" "subtopic" "oops" _) eq_refl).
    intros si [].
  - refine (proj2 (fallback_notes_last_wins nat (fun _ => false)
                     (fun _ => Value 5) [("Overview", "module")] []
                     "Overview" "subtopic" "5" _) _).
    + intros si [].
    + right. exists 5. split; reflexivity.
Defined.

End ResponseFacts.

(** ** The notes file and the notes written on slides *)

Module NotesFacts.
Import PyStr PyDict PyDictFacts ImageGen ImageGenFacts NotesFile Correlator.

Lemma find_none_tail p c r : find p (String c r) = None -> find p r = None.
Proof.
  rewrite find_cons. destruct (prefixb p (String c r)); [discriminate|].
  now destruct (find p r).
Qed.

Lemma find_none_not_prefix p s : find p s = None -> prefixb p s = false.
Proof.
  destruct s as [|c r].
  - simpl. now destruct (prefixb p "").
  - rewrite find_cons. now destruct (prefixb p (String c r)).
Qed.

Lemma find_nl_fence s :
  find fence s = None ->
  find nl_fence (s ++ nl ++ fence) = Some (String.length s).
Proof.
  induction s as [|c r IH]; intros H.
  - reflexivity.
  - change ((String c r ++ nl ++ fence)%string)
      with (String c (r ++ nl ++ fence)).
    rewrite find_cons.
    assert (Hp : prefixb nl_fence (String c (r ++ nl ++ fence)) = false).
    { change (prefixb nl_fence (String c (r ++ nl ++ fence)))
        with (Ascii.eqb "010" c && prefixb fence (r ++ nl ++ fence)).
      rewrite prefix_fence_before_nl.
      rewrite (find_none_not_prefix fence r (find_none_tail _ _ _ H)).
      apply andb_false_r. }
    rewrite Hp, (IH (find_none_tail _ _ _ H)). reflexivity.
Qed.

Lemma search_fenced_fenced j :
  is_empty j = false -> find fence j = None ->
  search_fenced (fenced j) = Some j.
Proof.
  intros Hne H. destruct j as [|c r]; [discriminate|].
  unfold search_fenced, fenced.
  change (find fence_open_nl (fence_open ++ nl ++ String c r ++ nl ++ fence))
    with (Some 0).
  cbv iota beta zeta.
  change (drop (0 + 8) (fence_open ++ nl ++ String c r ++ nl ++ fence))
    with (String c (r ++ nl ++ fence)).
  cbv iota.
  rewrite (find_nl_fence r (find_none_tail _ _ _ H)).
  rewrite Nat.add_1_r. cbn [take]. now rewrite take_app.
Qed.

(** X14.  A notes file that holds one fenced block is read back through
    the block: when the decoder rejects the file as a whole, and the text
    between the fences is not empty and holds no triple backquote, the
    loader decodes exactly that text, and gives the empty map when that
    fails too. *)
Theorem load_fenced_notes
    (json_loads : string -> option (dict string)) (j : string) :
  json_loads (fenced j) = None ->
  is_empty j = false ->
  contains fence j = false ->
  load_enhanced_notes json_loads (fenced j)
  = match json_loads j with
    | Some notes_data => notes_data
    | None => []
    end.
Proof.
  intros Hall Hne Hf. unfold contains in Hf.
  destruct (find fence j) eqn:E; [discriminate|].
  unfold load_enhanced_notes. now rewrite Hall, (search_fenced_fenced j Hne E).
Qed.

Lemma load_fenced_notes_witness :
  load_enhanced_notes Scenarios.no_decoder (fenced Scenarios.plain_json) = [].
Proof.
  exact (load_fenced_notes Scenarios.no_decoder Scenarios.plain_json
           eq_refl eq_refl eq_refl).
Defined.

Lemma get_in_values {V} k (d : dict V) v : get k d = Some v -> In v (map snd d).
Proof.
  induction d as [|[k' v'] r IH]; simpl; [discriminate|].
  destruct (String.eqb k' k); [intros [= <-]; now left|].
  intros H. right. now apply IH.
Qed.

Lemma first_variant_in_values variants notes v :
  first_variant variants notes = Some v -> In v (map snd notes).
Proof.
  induction variants as [|k r IH]; simpl; [discriminate|].
  destruct (get k notes) as [v'|] eqn:E; [|exact IH].
  intros [= <-]. now apply (get_in_values k).
Qed.

Lemma heuristic_scan_in_values notes v :
  heuristic_scan notes = Some v -> In v (map snd notes).
Proof.
  induction notes as [|[k v'] r IH]; simpl; [discriminate|].
  destruct (looks_like_title k); [intros [= <-]; now left|].
  intros H. right. now apply IH.
Qed.

Lemma exact_match_in_values shape_texts notes v :
  exact_match shape_texts notes = Some v -> In v (map snd notes).
Proof.
  induction shape_texts as [|t r IH]; simpl; [discriminate|].
  destruct (negb (is_empty t) && mem t notes); [apply get_in_values|exact IH].
Qed.

(** X15.  Neither title path invents a note.  [create_title_slide] writes
    either a value of the notes map or the synthesized welcome text, nothing
    else; the single-slide path of [add_speaker_notes_to_presentation] only
    ever writes a value of the map, never an empty one, and writes nothing
    on an empty map. *)
Theorem title_notes_come_from_map
    (notes : Notes) (course_name : string)
    (shape_texts : list string) (fallback_title : option string) :
  In (title_slide_notes notes course_name)
     (fallback_notes course_name :: map snd notes)
  /\ (forall v, single_slide_notes shape_texts fallback_title notes = Some v ->
        In v (map snd notes) /\ v <> "")
  /\ single_slide_notes shape_texts fallback_title [] = None.
Proof.
  split; [|split].
  - unfold title_slide_notes.
    destruct (is_nil notes); [now left|].
    destruct (first_variant (course_variants course_name) notes) as [v|] eqn:E.
    { right. now apply (first_variant_in_values _ _ _ E). }
    destruct (heuristic_scan notes) as [v|] eqn:E'; [|now left].
    right. now apply heuristic_scan_in_values.
  - intros v. unfold single_slide_notes.
    set (n1 := exact_match shape_texts notes).
    assert (H1 : forall x, n1 = Some x -> In x (map snd notes)).
    { intros x. apply exact_match_in_values. }
    set (n2 := if negb (truthy n1) && truthy fallback_title
                  && mem (Parser.cursor_key fallback_title) notes
               then get (Parser.cursor_key fallback_title) notes else n1).
    assert (H2 : forall x, n2 = Some x -> In x (map snd notes)).
    { intros x. unfold n2.
      destruct (negb (truthy n1) && truthy fallback_title
                && mem (Parser.cursor_key fallback_title) notes);
        [apply get_in_values|apply H1]. }
    set (n3 := if negb (truthy n2) && (length notes =? 1)
               then match notes with (_, v0) :: _ => Some v0 | [] => n2 end
               else n2).
    assert (H3 : forall x, n3 = Some x -> In x (map snd notes)).
    { intros x. unfold n3.
      destruct (negb (truthy n2) && (length notes =? 1)); [|apply H2].
      destruct notes as [|[k0 v0] r]; [apply H2|].
      intros [= <-]. now left. }
    destruct (truthy n3) eqn:Et; [|discriminate].
    intros Hv. split; [now apply H3|].
    rewrite Hv in Et. intros ->. discriminate.
  - unfold single_slide_notes.
    assert (He : exact_match shape_texts [] = None).
    { induction shape_texts as [|t r IH]; [reflexivity|].
      simpl. now rewrite andb_false_r. }
    rewrite He. unfold mem. cbn [get length Nat.eqb].
    rewrite !andb_false_r. reflexivity.
Qed.

Lemma title_notes_come_from_map_witness :
  In "notes" (map snd Scenarios.one_note) /\ "notes" <> "".
Proof.
  exact (proj1 (proj2 (title_notes_come_from_map Scenarios.one_note "AI 101"
                         ["AI 101"] None))
           "notes" eq_refl).
Defined.

(** X16.  [create_content_slide] leaves a slide without notes exactly when
    its title does not contain "module" (in any case) and neither the title
    nor the stripped title is a key of the notes map; any other slide gets
    the note under its title, else under its stripped title, else the
    module template. *)
Theorem content_slide_without_notes (enhanced_notes : dict string) (title_text : string) :
  content_slide_notes enhanced_notes title_text = None
  <-> (is_module_title title_text = false
       /\ get title_text enhanced_notes = None
       /\ get (strip title_text) enhanced_notes = None).
Proof.
  unfold content_slide_notes.
  destruct enhanced_notes as [|kv r] eqn:En.
  - simpl. destruct (is_module_title title_text); split; try discriminate; auto.
    intros [H _]. discriminate.
  - rewrite <- En. replace (is_nil enhanced_notes) with false by now subst.
    cbn [first_variant].
    destruct (get title_text enhanced_notes) as [v|].
    { split; [discriminate|]. intros (_ & H & _). discriminate. }
    destruct (get (strip title_text) enhanced_notes) as [v|].
    { split; [discriminate|]. intros (_ & _ & H). discriminate. }
    destruct (is_module_title title_text); split; try discriminate; auto.
    intros [H _]. discriminate.
Qed.

End NotesFacts.

(** ** The quiz parser *)

Module QuizFacts.
Import PyStr PyDict PyDictFacts QuizParser.

Lemma truthy_some o : truthy o = true -> exists k, o = Some k.
Proof. destruct o as [k|]; [eauto|discriminate]. Qed.

Lemma log_line_spec o cm line m :
  get cm o = Some m ->
  log_line o cm line
  = Some (set cm (mkModule (module_title m) (module_number m) (topics m)
                    (full_content m ++ [line])) o).
Proof. intros H. unfold log_line. now rewrite H. Qed.

Lemma put_topic_spec o cm key t m :
  get cm o = Some m ->
  put_topic o cm key t
  = Some (set cm (mkModule (module_title m) (module_number m)
                    (set key t (topics m)) (full_content m)) o).
Proof. intros H. unfold put_topic. now rewrite H. Qed.

Lemma put_subtopic_spec o cm ct key s m t :
  get cm o = Some m -> get ct (topics m) = Some t ->
  put_subtopic o cm ct key s
  = Some (set cm (mkModule (module_title m) (module_number m)
                    (set ct (mkTopic (topic_title t) (topic_number t)
                               (set key s (subtopics t))) (topics m))
                    (full_content m)) o).
Proof.
  intros Hm Ht. unfold put_subtopic. rewrite Hm, Ht.
  now apply put_topic_spec.
Qed.

Lemma append_point_spec o cm ct cs p m t s :
  get cm o = Some m -> get ct (topics m) = Some t -> get cs (subtopics t) = Some s ->
  append_point o cm ct cs p
  = Some (set cm (mkModule (module_title m) (module_number m)
                    (set ct (mkTopic (topic_title t) (topic_number t)
                               (set cs (mkSubtopic (sub_title s) (subtopic_number s)
                                          (points s ++ [p])) (subtopics t)))
                       (topics m))
                    (full_content m)) o).
Proof.
  intros Hm Ht Hs. unfold append_point. rewrite Hm, Ht, Hs.
  now apply put_subtopic_spec.
Qed.

(** What a step does to the active module when the line is not a module
    line: the module stays the active one, its log grows by the line, and
    the cursors stay valid. *)
Lemma step_logs st line k m :
  valid_cursors st ->
  current_module st = Some k -> is_empty k = false ->
  get k (outline st) = Some m ->
  re_module line = None ->
  exists st' m',
    step st line = Some st'
    /\ current_module st' = Some k
    /\ get k (outline st') = Some m'
    /\ full_content m' = full_content m ++ [line]
    /\ valid_cursors st'.
Proof.
  intros Hv Hcm Hk Hm Hre.
  assert (Htr : truthy (current_module st) = true).
  { rewrite Hcm. unfold truthy. simpl. now rewrite Hk. }
  unfold valid_cursors in Hv. rewrite Hcm in Hv.
  destruct Hv as (m0 & Hm0 & Hvt). rewrite Hm in Hm0. injection Hm0 as <-.
  unfold step. rewrite Hre, Htr, Hcm. cbn [Parser.cursor_key andb].
  assert (Hplain :
    exists st' m',
      match log_line (outline st) k line with
      | Some o1 => Some (mkState o1 (Some k) (current_topic st) (current_subtopic st))
      | None => None
      end = Some st'
      /\ current_module st' = Some k
      /\ get k (outline st') = Some m'
      /\ full_content m' = full_content m ++ [line]
      /\ valid_cursors st').
  { rewrite (log_line_spec _ _ _ _ Hm). eexists. eexists.
    split; [reflexivity|]. cbn [outline current_module].
    split; [reflexivity|]. split; [apply get_set_same|]. split; [reflexivity|].
    unfold valid_cursors. cbn [outline current_module current_topic current_subtopic].
    eexists. split; [apply get_set_same|exact Hvt]. }
  destruct (topic_match line) as [[number text]|].
  { rewrite (put_topic_spec _ _ _ _ _ Hm).
    rewrite (log_line_spec _ _ _ _ (get_set_same _ _ _)).
    eexists. eexists. split; [reflexivity|].
    cbn [outline current_module module_title module_number topics full_content].
    split; [reflexivity|]. split; [rewrite set_set; apply get_set_same|].
    split; [reflexivity|].
    unfold valid_cursors. cbn [outline current_module current_topic current_subtopic].
    eexists. split; [rewrite set_set; apply get_set_same|].
    cbn [valid_topic topics]. eexists. split; [apply get_set_same|exact I]. }
  destruct (subtopic_match line) as [[number text]|].
  { destruct (truthy (current_topic st)) eqn:Ect; [|exact Hplain].
    destruct (truthy_some _ Ect) as [ct Hct]. rewrite Hct in *.
    cbn [valid_topic] in Hvt. destruct Hvt as (t & Ht & _).
    cbn [Parser.cursor_key].
    rewrite (put_subtopic_spec _ _ _ _ _ _ _ Hm Ht).
    rewrite (log_line_spec _ _ _ _ (get_set_same _ _ _)).
    eexists. eexists. split; [reflexivity|].
    cbn [outline current_module module_title module_number topics full_content].
    split; [reflexivity|]. split; [rewrite set_set; apply get_set_same|].
    split; [reflexivity|].
    unfold valid_cursors. cbn [outline current_module current_topic current_subtopic].
    eexists. split; [rewrite set_set; apply get_set_same|].
    cbn [valid_topic topics]. eexists. split; [apply get_set_same|].
    cbn [valid_subtopic subtopics]. eexists. apply get_set_same. }
  destruct (point_match line) as [[number text]|]; [|exact Hplain].
  destruct (truthy (current_topic st)) eqn:Ect; [|exact Hplain].
  destruct (truthy (current_subtopic st)) eqn:Ecs; [|exact Hplain].
  destruct (truthy_some _ Ect) as [ct Hct].
  destruct (truthy_some _ Ecs) as [cs Hcs]. rewrite Hct, Hcs in *.
  cbn [valid_topic] in Hvt. destruct Hvt as (t & Ht & Hvs).
  cbn [valid_subtopic] in Hvs. destruct Hvs as (s & Hs).
  cbn [Parser.cursor_key andb].
  rewrite (append_point_spec _ _ _ _ _ _ _ _ Hm Ht Hs).
  rewrite (log_line_spec _ _ _ _ (get_set_same _ _ _)).
  eexists. eexists. split; [reflexivity|].
  cbn [outline current_module module_title module_number topics full_content].
  split; [reflexivity|]. split; [rewrite set_set; apply get_set_same|].
  split; [reflexivity|].
  unfold valid_cursors. cbn [outline current_module current_topic current_subtopic].
  eexists. split; [rewrite set_set; apply get_set_same|].
  cbn [valid_topic topics]. eexists. split; [apply get_set_same|].
  cbn [valid_subtopic subtopics]. eexists. apply get_set_same.
Qed.

(** Without an active module a line that is not a module line changes
    nothing. *)
Lemma step_idle st line :
  truthy (current_module st) = false -> re_module line = None ->
  step st line = Some st.
Proof.
  intros Htr Hre. unfold step. rewrite Hre, Htr. cbn [andb].
  destruct (topic_match line) as [[? ?]|]; [reflexivity|].
  destruct (subtopic_match line) as [[? ?]|]; [reflexivity|].
  now destruct (point_match line) as [[? ?]|].
Qed.

Lemma step_module st line number text :
  re_module line = Some (number, text) ->
  step st line
  = Some (mkState
            (set ("Module " ++ number)%string
               (mkModule (strip text) number [] [line]) (outline st))
            (Some ("Module " ++ number)%string) None None).
Proof. intros H. unfold step. now rewrite H. Qed.

Lemma step_valid st line :
  valid_cursors st -> exists st', step st line = Some st' /\ valid_cursors st'.
Proof.
  intros Hv. destruct (re_module line) as [[number text]|] eqn:Hre.
  - rewrite (step_module _ _ _ _ Hre). eexists. split; [reflexivity|].
    unfold valid_cursors. cbn [outline current_module current_topic current_subtopic].
    eexists. split; [apply get_set_same|exact I].
  - destruct (truthy (current_module st)) eqn:Htr.
    + destruct (truthy_some _ Htr) as [k Hk].
      assert (Hne : is_empty k = false).
      { rewrite Hk in Htr. unfold truthy in Htr. simpl in Htr.
        now apply negb_true_iff in Htr. }
      pose proof Hv as Hv'. unfold valid_cursors in Hv'. rewrite Hk in Hv'.
      destruct Hv' as (m & Hm & _).
      destruct (step_logs st line k m Hv Hk Hne Hm Hre)
        as (st' & m' & Hs & _ & _ & _ & Hv'').
      eauto.
    + rewrite (step_idle _ _ Htr Hre). eauto.
Qed.

Lemma process_lines_valid lines : forall st,
  valid_cursors st ->
  exists st', process_lines st lines = Some st' /\ valid_cursors st'.
Proof.
  induction lines as [|l ls IH]; intros st Hv; simpl; [eauto|].
  unfold process_line. destruct (is_empty (strip l)); [now apply IH|].
  destruct (step_valid st (strip l) Hv) as (st1 & H1 & Hv1).
  rewrite H1. now apply IH.
Qed.

(** X17.  The quiz parser returns a tree and a title for every text: none
    of its subscripts by a cursor ever fails, because a cursor is only set
    to a key that has just been stored and is cleared whenever the level
    above it changes. *)
Theorem quiz_parse_never_raises (text : string) :
  exists (o : Outline) (course_title : string),
    parse_outline text = Some (o, course_title).
Proof.
  unfold parse_outline.
  destruct (Parser.split_title (readlines text)) as [t lines].
  destruct (process_lines_valid lines init eq_refl) as (st & H & _).
  rewrite H. eauto.
Qed.

Lemma process_lines_no_module lines :
  (forall l, In l lines -> re_module (strip l) = None) ->
  process_lines init lines = Some init.
Proof.
  induction lines as [|l ls IH]; intros H; simpl; [reflexivity|].
  unfold process_line. destruct (is_empty (strip l)).
  - apply IH. intros l' Hl'. apply H. now right.
  - rewrite (step_idle init (strip l) eq_refl (H l (or_introl eq_refl))).
    apply IH. intros l' Hl'. apply H. now right.
Qed.

(** X18.  The quiz parser never invents a parent: when no line of the file
    is a module line of the form "<digits>.Module <text>", its tree is
    empty, whatever topics, subtopics and points the file holds. *)
Theorem quiz_needs_module_lines (text : string) :
  (forall l, In l (readlines text) -> re_module (strip l) = None) ->
  exists course_title, parse_outline text = Some ([], course_title).
Proof.
  intros H. unfold parse_outline.
  pose proof (ShapeFacts.split_title_lines (readlines text)) as Hsub.
  destruct (Parser.split_title (readlines text)) as [t lines]. simpl in Hsub.
  rewrite process_lines_no_module; [eauto|].
  intros l Hl. apply H. now apply Hsub.
Qed.

(** The small outline, whose module line is "1 A": the deck parser files
    a module, the quiz parser finds nothing. *)
Lemma quiz_needs_module_lines_witness :
  exists course_title,
    parse_outline Examples.small_text = Some ([], course_title).
Proof.
  apply quiz_needs_module_lines.
  intros l Hl. vm_compute in Hl.
  repeat (destruct Hl as [<-|Hl]; [vm_compute; reflexivity|]).
  contradiction.
Defined.

(** X19.  Every line that is not blank is kept in the log of the module
    that is active once the line is processed: a module line starts the log
    of its module with itself, and any other line met under an active module
    is appended to that module's log, whether or not it also enters the
    tree. *)
Theorem quiz_logs_every_line (st : State) (raw : string) :
  valid_cursors st ->
  is_empty (strip raw) = false ->
  (forall number text,
      re_module (strip raw) = Some (number, text) ->
      exists st' m',
        process_line st raw = Some st'
        /\ current_module st' = Some ("Module " ++ number)%string
        /\ get ("Module " ++ number)%string (outline st') = Some m'
        /\ full_content m' = [strip raw])
  /\ (forall k m,
        re_module (strip raw) = None ->
        current_module st = Some k -> is_empty k = false ->
        get k (outline st) = Some m ->
        exists st' m',
          process_line st raw = Some st'
          /\ current_module st' = Some k
          /\ get k (outline st') = Some m'
          /\ full_content m' = full_content m ++ [strip raw]).
Proof.
  intros Hv Hne. unfold process_line. rewrite Hne. split.
  - intros number text Hre. rewrite (step_module _ _ _ _ Hre).
    eexists. eexists. split; [reflexivity|].
    cbn [outline current_module]. split; [reflexivity|].
    split; [apply get_set_same|reflexivity].
  - intros k m Hre Hk Hke Hm.
    destruct (step_logs st (strip raw) k m Hv Hk Hke Hm Hre)
      as (st' & m' & Hs & Hc & Hg & Hf & _).
    eauto 8.
Qed.

Lemma quiz_logs_every_line_witness :
  exists st' m',
    process_line init "1.Module Basics" = Some st'
    /\ current_module st' = Some "Module 1"
    /\ get "Module 1" (outline st') = Some m'
    /\ full_content m' = ["1.Module Basics"].
Proof.
  exact (proj1 (quiz_logs_every_line init "1.Module Basics" eq_refl eq_refl)
           "1" "Basics" eq_refl).
Defined.

Lemma span_digits_spec s : forall d r,
  span_digits s = (d, r) ->
  s = (d ++ r)%string /\ forallb_string isdecimal_char d = true.
Proof.
  induction s as [|c s IH]; intros d r; simpl.
  - intros [= <- <-]. now split.
  - destruct (isdecimal_char c) eqn:E.
    + destruct (span_digits s) as [d' r'].
      intros [= <- <-]. destruct (IH d' r' eq_refl) as [-> Hd].
      split; [reflexivity|]. simpl. now rewrite E.
    + intros [= <- <-]. now split.
Qed.

Lemma decimal_not_blank c : isdecimal_char c = true -> Ascii.eqb c " " = false.
Proof. destruct c as [[] [] [] [] [] [] [] []]; vm_compute; congruence. Qed.

Lemma dots_before_space d : forall r a b,
  forallb_string isdecimal_char d = true ->
  split_once " " (d ++ String "." r) = Some (a, b) -> 1 <= count_dots a.
Proof.
  induction d as [|c d IH]; intros r a b Hd; simpl.
  - destruct (split_once " " r) as [[a' b']|]; [|discriminate].
    intros [= <- _]. simpl. lia.
  - simpl in Hd. apply andb_true_iff in Hd. destruct Hd as [Hc Hd].
    rewrite (decimal_not_blank c Hc).
    destruct (split_once " " (d ++ String "." r)) as [[a' b']|] eqn:E;
      [|discriminate].
    intros [= <- _]. simpl. specialize (IH r a' b' Hd E). lia.
Qed.

(** X20.  The two parsers never agree on a module line: a line that the
    quiz parser takes for a module line ("<digits>.Module ...") has at least
    one dot in its leading token as the deck parser counts them, so neither
    module branch of the deck parser, both guarded by a count of zero, is
    taken for it. *)
Theorem module_line_formats_disjoint
    (raw number text : string) (num_dots : nat) (number_part title_part : string) :
  re_module (strip raw) = Some (number, text) ->
  Parser.tokenize raw = Some (num_dots, number_part, title_part) ->
  1 <= num_dots.
Proof.
  intros Hre Htok.
  unfold re_module in Hre.
  destruct (span_digits (strip raw)) as [d r] eqn:Es.
  destruct (span_digits_spec _ _ _ Es) as [Hline Hd].
  destruct (is_empty d); [discriminate|].
  destruct (prefixb ".Module" r) eqn:Ep; [|discriminate].
  destruct r as [|c r']; [discriminate|].
  cbn [prefixb] in Ep. apply andb_true_iff in Ep. destruct Ep as [Ec _].
  apply Ascii.eqb_eq in Ec. subst c.
  unfold Parser.tokenize in Htok. rewrite Hline in Htok.
  destruct (is_empty (d ++ String "." r')); [discriminate|].
  destruct (split_once " " (d ++ String "." r')) as [[a b]|] eqn:E;
    [|discriminate].
  injection Htok as <- _ _. now apply (dots_before_space d r' a b).
Qed.

(** The module line of the outline generator's format. *)
Lemma module_line_formats_disjoint_witness : 1 <= 1.
Proof.
  exact (module_line_formats_disjoint "1.Module Basics of X" "1" "Basics of X"
           1 "1.Module" "Basics of X" eq_refl eq_refl).
Defined.

End QuizFacts.

(** ** The order and the safety of artifact file names *)

Module ArtifactOrderFacts.
Import PyStr Artifacts.

Lemma slide_eqb_eq a b : slide_eqb a b = true -> a = b.
Proof.
  unfold slide_eqb. destruct a as [t c], b as [t' c']. simpl.
  intros H. apply andb_true_iff in H. destruct H as [Ht Hc].
  apply String.eqb_eq in Ht. subst t'.
  destruct (list_eq_dec string_dec c c'); [now subst|discriminate].
Qed.

Lemma index_of_nth (d : SlideData) l : forall i,
  NoDup l -> i < length l -> index_of (nth i l d) l = i.
Proof.
  induction l as [|a r IH]; intros i Hnd Hi; simpl in Hi; [lia|].
  inversion Hnd as [|? ? Ha Hr]; subst.
  destruct i as [|j]; simpl.
  - now rewrite ArtifactsFacts.slide_eqb_refl.
  - destruct (slide_eqb a (nth j r d)) eqn:E.
    + apply slide_eqb_eq in E. exfalso. apply Ha. rewrite E.
      apply nth_In. lia.
    + f_equal. apply IH; [exact Hr|lia].
Qed.

Lemma map_by_position {B} (d : SlideData) (f : SlideData -> B) l :
  map f l = map (fun i => f (nth i l d)) (seq 0 (length l)).
Proof.
  induction l as [|a r IH]; [reflexivity|].
  simpl. f_equal. rewrite <- seq_shift, map_map. exact IH.
Qed.

(** A list whose neighbours are in order is left alone by the sort. *)
Lemma sorted_ascending (g : nat -> string) n : forall k,
  (forall i, k <= i -> S i < k + n -> String.leb (g i) (g (S i)) = true) ->
  sorted (map g (seq k n)) = map g (seq k n).
Proof.
  induction n as [|n IH]; intros k H; [reflexivity|].
  simpl. unfold sorted in *. simpl.
  rewrite IH by (intros i Hi Hlt; apply H; lia).
  destruct n as [|n']; [reflexivity|].
  simpl. rewrite (H k) by lia. reflexivity.
Qed.

Lemma leb_prefix3 (p q x y : string) :
  String.length p = 3 -> String.length q = 3 -> String.ltb p q = true ->
  String.leb (p ++ x) (q ++ y) = true.
Proof.
  destruct p as [|a1 [|a2 [|a3 [|? ?]]]]; try discriminate.
  destruct q as [|b1 [|b2 [|b3 [|? ?]]]]; try discriminate.
  intros _ _. unfold String.ltb, String.leb. simpl.
  destruct (Ascii.compare a1 b1); try discriminate; try reflexivity.
  destruct (Ascii.compare a2 b2); try discriminate; try reflexivity.
  destruct (Ascii.compare a3 b3); try discriminate; reflexivity.
Qed.

Lemma leb_prefix2 (p q x y : string) :
  String.length p = 2 -> String.length q = 2 -> String.ltb p q = true ->
  String.leb (p ++ x) (q ++ y) = true.
Proof.
  destruct p as [|a1 [|a2 [|? ?]]]; try discriminate.
  destruct q as [|b1 [|b2 [|? ?]]]; try discriminate.
  intros _ _. unfold String.ltb, String.leb. simpl.
  destruct (Ascii.compare a1 b1); try discriminate; try reflexivity.
  destruct (Ascii.compare a2 b2); try discriminate; reflexivity.
Qed.

(** Below one thousand, three digits are written, and the next number is
    written higher. *)
Lemma three_digits n :
  n < 1000 ->
  String.length (format_0d 3 n) = 3
  /\ (S n < 1000 -> String.ltb (format_0d 3 n) (format_0d 3 (S n)) = true).
Proof.
  intros Hn.
  assert (Hall : forallb (fun n => (String.length (format_0d 3 n) =? 3)
                                   && ((1000 <=? S n)
                                       || String.ltb (format_0d 3 n) (format_0d 3 (S n))))
                   (seq 0 1000) = true) by (vm_compute; reflexivity).
  rewrite forallb_forall in Hall.
  specialize (Hall n). rewrite in_seq in Hall.
  specialize (Hall ltac:(lia)). apply andb_true_iff in Hall.
  destruct Hall as [Hlen Hlt]. apply Nat.eqb_eq in Hlen.
  split; [exact Hlen|]. intros Hs.
  apply orb_true_iff in Hlt. destruct Hlt as [Hlt|Hlt]; [|exact Hlt].
  apply Nat.leb_le in Hlt. lia.
Qed.

Lemma two_digits n :
  n < 100 ->
  String.length (format_0d 2 n) = 2
  /\ (S n < 100 -> String.ltb (format_0d 2 n) (format_0d 2 (S n)) = true).
Proof.
  intros Hn.
  assert (Hall : forallb (fun n => (String.length (format_0d 2 n) =? 2)
                                   && ((100 <=? S n)
                                       || String.ltb (format_0d 2 n) (format_0d 2 (S n))))
                   (seq 0 100) = true) by (vm_compute; reflexivity).
  rewrite forallb_forall in Hall.
  specialize (Hall n). rewrite in_seq in Hall.
  specialize (Hall ltac:(lia)). apply andb_true_iff in Hall.
  destruct Hall as [Hlen Hlt]. apply Nat.eqb_eq in Hlen.
  split; [exact Hlen|]. intros Hs.
  apply orb_true_iff in Hlt. destruct Hlt as [Hlt|Hlt]; [|exact Hlt].
  apply Nat.leb_le in Hlt. lia.
Qed.

(** X21.  For fewer than a thousand slides, no two of them equal, sorting
    the snapshot names of the slides by code points gives them back in the
    order of the slides: among the slides the three-digit prefix does
    reconstruct the order of emission. *)
Theorem snapshot_names_sorted (slides_data : list SlideData) :
  NoDup slides_data ->
  length slides_data < 1000 ->
  sorted (snapshot_filenames false slides_data)
  = snapshot_filenames false slides_data.
Proof.
  intros Hnd Hlen. unfold snapshot_filenames. cbn [app].
  rewrite (map_by_position ("", []) (snapshot_filename slides_data)).
  apply sorted_ascending. intros i _ Hi. cbn [Nat.add] in Hi.
  unfold snapshot_filename.
  rewrite !(index_of_nth ("", [])) by (auto; lia).
  destruct (three_digits (i + 1) ltac:(lia)) as [L1 Hlt].
  destruct (three_digits (S i + 1) ltac:(lia)) as [L2 _].
  apply leb_prefix3; [exact L1|exact L2|].
  replace (S i + 1) with (S (i + 1)) by lia. apply Hlt. lia.
Qed.

Lemma snapshot_names_sorted_witness :
  sorted (snapshot_filenames false [("B", []); ("A", [])])
  = snapshot_filenames false [("B", []); ("A", [])].
Proof.
  refine (snapshot_names_sorted [("B", []); ("A", [])] _ _).
  - repeat constructor; simpl; intuition discriminate.
  - vm_compute. repeat constructor.
Defined.

Lemma map_by_slide_position {B} (d : Projector.Slide) (f : Projector.Slide -> B) l :
  map f l = map (fun i => f (nth i l d)) (seq 0 (length l)).
Proof.
  induction l as [|a r IH]; [reflexivity|].
  simpl. f_equal. rewrite <- seq_shift, map_map. exact IH.
Qed.

Lemma batch_index_nth (d : Projector.Slide) l : forall i,
  NoDup l -> i < length l -> ImageBatch.index (nth i l d) l = i.
Proof.
  induction l as [|a r IH]; intros i Hnd Hi; simpl in Hi; [lia|].
  inversion Hnd as [|? ? Ha Hr]; subst.
  destruct i as [|j]; simpl.
  - destruct (ImageBatch.slide_eq_dec a a); [reflexivity|contradiction].
  - destruct (ImageBatch.slide_eq_dec a (nth j r d)) as [E|E].
    + exfalso. apply Ha. rewrite E. apply nth_In. lia.
    + f_equal. apply IH; [exact Hr|lia].
Qed.

(** X22.  For fewer than a hundred slides, no two of them equal, the image
    names the batch asks for, each numbered by the position of its slide in
    the list, are in slide order when sorted by code points: the i-th name
    of the sorted listing is the image of the i-th slide, as the snapshot
    step of the main program assumes. *)
Theorem image_names_sorted (slides_data : list Projector.Slide) :
  NoDup slides_data ->
  length slides_data < 100 ->
  let names :=
    map (fun slide => image_filename (ImageBatch.index slide slides_data + 1))
      slides_data in
  sorted names = names
  /\ forall i slide,
       nth_error slides_data i = Some slide ->
       nth_error (sorted names) i
       = Some (image_filename (ImageBatch.index slide slides_data + 1)).
Proof.
  intros Hnd Hlen names.
  assert (Hs : sorted names = names).
  { unfold names.
    rewrite (map_by_slide_position
               (Projector.subtopic_slide (Parser.mkSubtopic "" []))).
    apply sorted_ascending. intros i _ Hi. cbn [Nat.add] in Hi.
    rewrite !batch_index_nth by (auto; lia).
    unfold image_filename.
    destruct (two_digits (i + 1) ltac:(lia)) as [L1 H1].
    destruct (two_digits (S i + 1) ltac:(lia)) as [L2 _].
    apply leb_prefix2; [exact L1|exact L2|].
    replace (S i + 1) with (S (i + 1)) by lia. apply H1. lia. }
  split; [exact Hs|].
  intros i slide Hi. rewrite Hs. unfold names.
  now rewrite nth_error_map, Hi.
Qed.

Lemma image_names_sorted_witness :
  sorted (map (fun slide =>
                 image_filename (ImageBatch.index slide Examples.two_slides + 1))
            Examples.two_slides)
  = map (fun slide =>
           image_filename (ImageBatch.index slide Examples.two_slides + 1))
      Examples.two_slides.
Proof.
  refine (proj1 (image_names_sorted Examples.two_slides _ _)).
  - repeat constructor; simpl; intuition discriminate.
  - vm_compute. repeat constructor.
Defined.

Lemma digit_char_decimal d : d < 10 -> isdecimal_char (digit_char d) = true.
Proof.
  intros H. do 10 (destruct d as [|d]; [reflexivity|]). lia.
Qed.

Lemma digits_fuel_decimal fuel : forall n acc,
  forallb_string isdecimal_char acc = true ->
  forallb_string isdecimal_char (digits_fuel fuel n acc) = true.
Proof.
  induction fuel as [|fuel IH]; intros n acc H; simpl; [exact H|].
  assert (Hd : forallb_string isdecimal_char (String (digit_char (n mod 10)) acc) = true).
  { cbn [forallb_string]. rewrite H, digit_char_decimal; [reflexivity|].
    apply Nat.mod_upper_bound. discriminate. }
  destruct (n <? 10); [exact Hd|]. now apply IH.
Qed.

Lemma zeros_decimal k : forallb_string isdecimal_char (zeros k) = true.
Proof. induction k as [|k IH]; [reflexivity|]. simpl. exact IH. Qed.

Lemma format_0d_decimal w n : forallb_string isdecimal_char (format_0d w n) = true.
Proof.
  unfold format_0d, str_of_nat.
  rewrite ResponseFacts.forallb_string_app, zeros_decimal.
  now rewrite digits_fuel_decimal.
Qed.

Lemma decimal_not_slash c : isdecimal_char c = true -> negb (Ascii.eqb c "/") = true.
Proof. destruct c as [[] [] [] [] [] [] [] []]; vm_compute; congruence. Qed.

Lemma safe_title_no_slash s :
  forallb_string (fun c => negb (Ascii.eqb c "/")) (safe_title s) = true.
Proof.
  unfold safe_title. induction s as [|c r IH]; [reflexivity|].
  simpl. rewrite IH, andb_true_r.
  destruct (isalnum_char c) eqn:E; [|reflexivity].
  destruct c as [[] [] [] [] [] [] [] []]; vm_compute in E |- *; congruence.
Qed.

(** X23.  No snapshot name holds a path separator, whatever the title and
    whatever the number: every character of the title that is not a letter
    or a digit has become an underscore, so each snapshot is written
    directly in the output directory. *)
Theorem snapshot_name_is_plain (slides_data : list SlideData) (slide : SlideData) :
  forallb_string (fun c => negb (Ascii.eqb c "/"))
    (snapshot_filename slides_data slide) = true
  /\ forallb_string (fun c => negb (Ascii.eqb c "/")) title_snapshot_filename = true.
Proof.
  split; [|reflexivity].
  unfold snapshot_filename.
  rewrite !ResponseFacts.forallb_string_app.
  rewrite safe_title_no_slash.
  rewrite (ResponseFacts.forallb_string_impl isdecimal_char _ _ decimal_not_slash
             (format_0d_decimal 3 _)).
  reflexivity.
Qed.

End ArtifactOrderFacts.

(** ** The keys of the Markdown export against the titles of the slides *)

Module MarkdownFacts.
Import PyStr Parser Projector Markdown.

Lemma length_app (a b : string) :
  String.length (a ++ b) = String.length a + String.length b.
Proof. induction a as [|c a IH]; simpl; [reflexivity|now rewrite IH]. Qed.

(** The words of a string are not empty and fit in the string together. *)
Lemma split_ws_aux_lengths s :
  let cur := fst (split_ws_aux s) in
  let done := snd (split_ws_aux s) in
  match cur with Some w => String.length w | None => 0 end
  + list_sum (map String.length done) <= String.length s
  /\ match cur with Some w => 1 <= String.length w | None => True end
  /\ Forall (fun w => 1 <= String.length w) done.
Proof.
  induction s as [|c r IH]; simpl.
  - repeat split; auto.
  - destruct (split_ws_aux r) as [cur done]. simpl in IH.
    destruct IH as (Hsum & Hcur & Hdone).
    destruct (isspace c), cur as [w|]; simpl; repeat split; auto; try lia.
Qed.

Lemma split_ws_lengths s :
  list_sum (map String.length (split_ws s)) <= String.length s
  /\ Forall (fun w => 1 <= String.length w) (split_ws s).
Proof.
  pose proof (split_ws_aux_lengths s) as H. unfold split_ws.
  destruct (split_ws_aux s) as [[w|] done]; simpl in *.
  - destruct H as (Hsum & Hcur & Hdone). split; [lia|now constructor].
  - destruct H as (Hsum & _ & Hdone). split; [lia|exact Hdone].
Qed.

Lemma second_word_shorter key n :
  nth_error (split_ws key) 1 = Some n -> String.length n < String.length key.
Proof.
  intros H. destruct (split_ws_lengths key) as [Hsum Hall].
  destruct (split_ws key) as [|w0 [|w1 rest]]; try discriminate.
  simpl in H. injection H as ->.
  inversion Hall as [|? ? Hw0 _]; subst. simpl in Hsum. lia.
Qed.

(** X24.  The Markdown export looks the image of a module up under the
    word Module followed by the whole module key, and the image of a topic
    under the whole topic key, while the slides carry the module key alone
    and the second word of the topic key: for modules and topics the key of
    the export is never the title of the slide, whatever the outline.  Only
    for subtopics are the two the same. *)
Theorem markdown_keys_miss_slide_titles
    (module_num : string) (md : Module_)
    (topic_num topic_number : string) (td : Topic) (sd : Subtopic) :
  topic_number_of topic_num = Some topic_number ->
  module_slide_title module_num md <> title (module_slide module_num md)
  /\ topic_slide_title topic_num td <> title (topic_slide topic_number td)
  /\ subtopic_slide_title sd = title (subtopic_slide sd).
Proof.
  intros Hn. split; [|split]; [| |reflexivity].
  - unfold module_slide_title, module_slide. cbn [title]. intros E.
    apply (f_equal String.length) in E.
    rewrite !length_app in E. simpl in E. lia.
  - unfold topic_slide_title, topic_slide. cbn [title]. intros E.
    apply (f_equal String.length) in E.
    rewrite !length_app in E.
    apply second_word_shorter in Hn. lia.
Qed.

Lemma markdown_keys_miss_slide_titles_witness :
  module_slide_title "Module 1" (mkModule "Basics" []) <> "Module 1: Basics"
  /\ topic_slide_title "Topic 1.1" (mkTopic "Setup" []) <> "1.1: Setup"
  /\ subtopic_slide_title (mkSubtopic "Install" []) = "Install".
Proof.
  exact (markdown_keys_miss_slide_titles "Module 1" (mkModule "Basics" [])
           "Topic 1.1" "1.1" (mkTopic "Setup" []) (mkSubtopic "Install" [])
           eq_refl).
Defined.

End MarkdownFacts.

(** ** The image batches *)

Module ImageBatchFacts.
Import PyStr PyDict PyDictFacts ImageBatch.

Lemma range_fuel_concat {A} (l : list A) step fuel : forall start,
  1 <= step ->
  length l - start <= fuel ->
  concat (map (fun i => slice i step l) (range_fuel fuel start (length l) step))
  = skipn start l.
Proof.
  induction fuel as [|fuel IH]; intros start Hs Hf; simpl.
  - symmetry. apply skipn_all2. lia.
  - destruct (start <? length l) eqn:E.
    + apply Nat.ltb_lt in E. simpl.
      rewrite IH by lia. unfold slice.
      replace (skipn (start + step) l) with (skipn step (skipn start l))
        by (rewrite skipn_skipn; f_equal; lia).
      apply firstn_skipn.
    + apply Nat.ltb_ge in E. simpl. symmetry. apply skipn_all2. lia.
Qed.

Lemma batches_concat {A} (batch_size : nat) (slides_data : list A) :
  1 <= batch_size -> concat (batches batch_size slides_data) = slides_data.
Proof.
  intros Hs. unfold batches, range.
  rewrite (range_fuel_concat slides_data batch_size) by lia. reflexivity.
Qed.

(** X25.  For a positive batch size the batches of the loop cut the list of
    slides without loss, repetition or reordering, and no batch is longer
    than the batch size. *)
Theorem batches_partition {A} (batch_size : nat) (slides_data : list A) :
  1 <= batch_size ->
  concat (batches batch_size slides_data) = slides_data
  /\ Forall (fun batch => length batch <= batch_size)
       (batches batch_size slides_data).
Proof.
  intros Hs. split.
  - now apply batches_concat.
  - unfold batches. apply Forall_forall. intros b Hb.
    apply in_map_iff in Hb. destruct Hb as (i & <- & _).
    unfold slice. rewrite length_firstn. lia.
Qed.

Lemma batches_partition_witness :
  concat (batches 2 [1; 2; 3; 4; 5]) = [1; 2; 3; 4; 5]
  /\ Forall (fun batch => length batch <= 2) (batches 2 [1; 2; 3; 4; 5]).
Proof.
  refine (batches_partition 2 [1; 2; 3; 4; 5] _). vm_compute. repeat constructor.
Defined.

Section Keys.
Context {V : Type}.
Implicit Types (d : dict V) (k : string) (v : V).

Lemma mem_set_same d k v : mem k (set k v d) = true.
Proof. unfold mem. now rewrite get_set_same. Qed.

Lemma mem_set_keeps d k k' v : mem k d = true -> mem k (set k' v d) = true.
Proof.
  intros H. destruct (string_dec k' k) as [->|Hne].
  - apply mem_set_same.
  - unfold mem in *. now rewrite get_set_other.
Qed.

Lemma mem_set_inv d k k' v : mem k (set k' v d) = true -> k = k' \/ mem k d = true.
Proof.
  intros H. destruct (string_dec k' k) as [->|Hne]; [now left|].
  right. unfold mem in *. now rewrite get_set_other in H.
Qed.

End Keys.

Section Batch.
Variable generate_images_parallel : list (string * string) -> list string.
Variable image_path : string -> string.
Variable prompt_cache : dict string.

Lemma associate_keeps batch : forall paths d k,
  mem k d = true -> mem k (associate d batch paths) = true.
Proof.
  unfold associate.
  induction batch as [|s r IH]; intros paths d k H; [exact H|].
  destruct paths as [|p ps]; [exact H|].
  simpl. apply IH. now apply mem_set_keeps.
Qed.

Lemma associate_covers batch : forall paths d s,
  length paths = length batch -> In s batch ->
  mem (Projector.title s) (associate d batch paths) = true.
Proof.
  induction batch as [|s0 r IH]; intros paths d s Hlen Hin; [contradiction|].
  destruct paths as [|p ps]; [discriminate|].
  simpl in Hlen. injection Hlen as Hlen.
  destruct Hin as [->|Hin].
  - change (associate d (s :: r) (p :: ps))
      with (associate (set (Projector.title s) p d) r ps).
    apply associate_keeps, mem_set_same.
  - change (associate d (s0 :: r) (p :: ps))
      with (associate (set (Projector.title s0) p d) r ps).
    now apply IH.
Qed.

Lemma associate_inv batch : forall paths d k,
  mem k (associate d batch paths) = true ->
  mem k d = true \/ exists s, In s batch /\ Projector.title s = k.
Proof.
  induction batch as [|s0 r IH]; intros paths d k H; [now left|].
  destruct paths as [|p ps]; [now left|].
  change (associate d (s0 :: r) (p :: ps))
    with (associate (set (Projector.title s0) p d) r ps) in H.
  apply IH in H. destruct H as [H|(s & Hin & Hs)].
  - apply mem_set_inv in H. destruct H as [->|H]; [|now left].
    right. exists s0. split; [now left|reflexivity].
  - right. exists s. split; [now right|exact Hs].
Qed.

Lemma run_all_keeps slides_data bs : forall d k,
  mem k d = true ->
  mem k (fold_left (run_batch generate_images_parallel image_path prompt_cache
                      slides_data) bs d) = true.
Proof.
  induction bs as [|b r IH]; intros d k H; [exact H|].
  simpl. apply IH. unfold run_batch. now apply associate_keeps.
Qed.

Lemma run_all_covers slides_data bs : forall d s,
  (forall requests,
     length (generate_images_parallel requests) = length requests) ->
  In s (concat bs) ->
  mem (Projector.title s)
    (fold_left (run_batch generate_images_parallel image_path prompt_cache
                  slides_data) bs d) = true.
Proof.
  induction bs as [|b r IH]; intros d s Hgen Hin; [contradiction|].
  simpl in Hin. apply in_app_or in Hin. simpl.
  destruct Hin as [Hin|Hin].
  - apply run_all_keeps. unfold run_batch.
    apply associate_covers; [|exact Hin].
    now rewrite Hgen, length_map.
  - now apply IH.
Qed.

Lemma run_all_inv slides_data bs : forall d k,
  mem k (fold_left (run_batch generate_images_parallel image_path prompt_cache
                      slides_data) bs d) = true ->
  mem k d = true \/ exists s, In s (concat bs) /\ Projector.title s = k.
Proof.
  induction bs as [|b r IH]; intros d k H; [now left|].
  simpl in H. apply IH in H. destruct H as [H|(s & Hin & Hs)].
  - unfold run_batch in H. apply associate_inv in H.
    destruct H as [H|(s & Hin & Hs)]; [now left|].
    right. exists s. split; [|exact Hs]. simpl. apply in_or_app. now left.
  - right. exists s. split; [|exact Hs]. simpl. apply in_or_app. now right.
Qed.

(** X26.  With a positive batch size the image batch returns a map whose
    keys are titles of the given slides and nothing else; and when the image
    service answers every request of every batch, the title of every slide
    is a key of the map. *)
Theorem image_map_keys (slides_data : list Projector.Slide) (batch_size : Z) :
  (0 < batch_size)%Z ->
  exists image_paths_by_title,
    generate_slide_images_parallel generate_images_parallel image_path
      prompt_cache slides_data batch_size = Some image_paths_by_title
    /\ (forall k, mem k image_paths_by_title = true ->
          exists slide, In slide slides_data /\ Projector.title slide = k)
    /\ ((forall requests,
           length (generate_images_parallel requests) = length requests) ->
        forall slide, In slide slides_data ->
          mem (Projector.title slide) image_paths_by_title = true).
Proof.
  intros Hpos. unfold generate_slide_images_parallel.
  destruct (batch_size =? 0)%Z eqn:E0; [apply Z.eqb_eq in E0; lia|].
  destruct (batch_size <? 0)%Z eqn:E1; [apply Z.ltb_lt in E1; lia|].
  eexists. split; [reflexivity|].
  pose proof (batches_concat (Z.to_nat batch_size) slides_data ltac:(lia))
    as Hcat.
  split.
  - intros k H. apply run_all_inv in H.
    destruct H as [H|H]; [discriminate|]. now rewrite Hcat in H.
  - intros Hgen slide Hin. apply run_all_covers; [exact Hgen|].
    now rewrite Hcat.
Qed.

End Batch.

Lemma image_map_keys_witness :
  exists image_paths_by_title,
    generate_slide_images_parallel (map snd) (fun name => name) []
      Examples.two_slides 25 = Some image_paths_by_title
    /\ (forall k, mem k image_paths_by_title = true ->
          exists slide, In slide Examples.two_slides /\ Projector.title slide = k)
    /\ ((forall requests : list (string * string),
           length (map snd requests) = length requests) ->
        forall slide, In slide Examples.two_slides ->
          mem (Projector.title slide) image_paths_by_title = true).
Proof.
  refine (image_map_keys (map snd) (fun name => name) [] Examples.two_slides 25 _).
  reflexivity.
Defined.

End ImageBatchFacts.
